(** * A shallow embedding of the messy-table extraction pipeline

    The Python sources embedded here are
    [scripts/01_audit_workbook.py] (header detection, table extraction,
    month columns, row-type counts, numeric parsing, the steps of
    [audit_sheet] around them, preview file names) and
    [scripts/02_understand_pnl_sheets.py] (account codes, numeric
    parsing, first data row, column names, cleaning of a wide sheet,
    wide-to-long unpivoting, sheet selection).  Reading and writing of
    files and [profile_dataframe], whose counts rest on the hashing of
    cell values, are not embedded.

    Conventions of the embedding.
    - Python [str] values are Rocq strings, read as sequences of code
      points below 256 of which only the ASCII ones are interpreted: a
      character above 127 is a letter without case, neither a digit nor
      white space.
    - Python [float] values are IEEE-754 binary64 numbers, given by
      [spec_float] at precision 53 and maximal exponent 1024; conversions
      from decimal text and from integers round to nearest, ties to even,
      as CPython does.
    - A spreadsheet cell (dtype [object]) is [None], a [bool], an [int], a
      [float] (NaN is the missing value pandas produces for an empty
      cell) or a [str].  Date cells are outside the embedding.
    - A pandas [DataFrame] is a list of column labels and a list of rows;
      the row index is not represented.
    - A raised exception is a value [Raise e] of the [result] type.
    - pandas is taken at its major versions 2 and 3.  The two differ
      here in one operation, [astype(str)] of lines 145-146 of the
      first script: up to pandas 2 it writes a missing value as text,
      from pandas 3 on it keeps it missing.  [Audit.stripped_column] is
      the operation under pandas 2, [Audit.stripped_column_in] under
      either version; everything else is the same under both.

    The file has three parts: the embedding of the Python and pandas
    operations and of the two scripts; the vocabulary of the statements,
    among it the removal of blank rows and columns as the specification
    words it; and the proofs, one section per component. *)

From Stdlib Require Import ZArith List String Ascii Bool Lia Arith.
From Stdlib Require Import Floats.SpecFloat Sorting.Sorted.
From Stdlib Require Import Numbers.DecimalString Numbers.DecimalZ Numbers.DecimalN
  Numbers.DecimalPos.
Import ListNotations.

Local Open Scope string_scope.
Local Open Scope Z_scope.

(** ** Exceptions *)

Inductive exn : Type :=
| IndexError | KeyError | ValueError | TypeError | AttributeError | OverflowError.

Inductive result (A : Type) : Type :=
| Ok (a : A)
| Raise (e : exn).

Arguments Ok {A} a.
Arguments Raise {A} e.

Definition bind {A B : Type} (r : result A) (k : A -> result B) : result B :=
  match r with
  | Ok a => k a
  | Raise e => Raise e
  end.

Notation "x <- r ;; k" := (bind r (fun x => k))
  (at level 61, r at next level, right associativity).

(** ** Python string operations *)

Module PyStr.

Definition code (c : ascii) : N := N_of_ascii c.

(** [str.isspace] on one character; also the class [\s] of [re]. *)
Definition is_space (c : ascii) : bool :=
  let n := code c in
  (((9 <=? n) && (n <=? 13)) || ((28 <=? n) && (n <=? 32)))%N.

(** C [isspace] in the "C" locale, as used inside [float()]. *)
Definition is_c_space (c : ascii) : bool :=
  let n := code c in
  (((9 <=? n) && (n <=? 13)) || (n =? 32))%N.

Definition is_digit (c : ascii) : bool :=
  let n := code c in ((48 <=? n) && (n <=? 57))%N.

Definition is_upper (c : ascii) : bool :=
  let n := code c in ((65 <=? n) && (n <=? 90))%N.

Definition is_lower (c : ascii) : bool :=
  let n := code c in ((97 <=? n) && (n <=? 122))%N.

Definition is_cased (c : ascii) : bool := is_upper c || is_lower c.

Definition upper_char (c : ascii) : ascii :=
  if is_lower c then ascii_of_N (code c - 32) else c.

Definition lower_char (c : ascii) : ascii :=
  if is_upper c then ascii_of_N (code c + 32) else c.

Fixpoint map_chars (f : ascii -> ascii) (s : string) : string :=
  match s with
  | EmptyString => EmptyString
  | String c s' => String (f c) (map_chars f s')
  end.

Definition upper : string -> string := map_chars upper_char.
Definition lower : string -> string := map_chars lower_char.

Fixpoint lstrip_by (p : ascii -> bool) (s : string) : string :=
  match s with
  | EmptyString => EmptyString
  | String c s' => if p c then lstrip_by p s' else s
  end.

Fixpoint rstrip_by (p : ascii -> bool) (s : string) : string :=
  match s with
  | EmptyString => EmptyString
  | String c s' =>
      match rstrip_by p s' with
      | EmptyString => if p c then EmptyString else String c EmptyString
      | r => String c r
      end
  end.

(** [s.strip()] *)
Definition strip (s : string) : string :=
  rstrip_by is_space (lstrip_by is_space s).

(** [s.replace(c, e)] for a one-character [c] and the empty text [e] *)
Fixpoint remove_char (c : ascii) (s : string) : string :=
  match s with
  | EmptyString => EmptyString
  | String a s' =>
      if Ascii.eqb a c then remove_char c s' else String a (remove_char c s')
  end.

(** [s.startswith(p)] *)
Fixpoint startswith (p s : string) : bool :=
  match p, s with
  | EmptyString, _ => true
  | String a p', String b s' => Ascii.eqb a b && startswith p' s'
  | String _ _, EmptyString => false
  end.

(** [s.endswith(c)] for a one-character [c] *)
Fixpoint endswith_char (c : ascii) (s : string) : bool :=
  match s with
  | EmptyString => false
  | String a EmptyString => Ascii.eqb a c
  | String _ s' => endswith_char c s'
  end.

(** [p in s] *)
Fixpoint contains (p s : string) : bool :=
  startswith p s ||
  match s with
  | EmptyString => false
  | String _ s' => contains p s'
  end.

Fixpoint all_chars (p : ascii -> bool) (s : string) : bool :=
  match s with
  | EmptyString => true
  | String c s' => p c && all_chars p s'
  end.

Fixpoint any_char (p : ascii -> bool) (s : string) : bool :=
  match s with
  | EmptyString => false
  | String c s' => p c || any_char p s'
  end.

(** [s.isupper()]: no lower-case character and at least one cased one. *)
Definition isupper (s : string) : bool :=
  negb (any_char is_lower s) && any_char is_upper s.

(** [s.title()]: a cased character is upper-cased when it starts a run
    of cased characters and lower-cased inside one. *)
Fixpoint title_from (prev_cased : bool) (s : string) : string :=
  match s with
  | EmptyString => EmptyString
  | String c s' =>
      String (if prev_cased then lower_char c else upper_char c)
             (title_from (is_cased c) s')
  end.

Definition title (s : string) : string := title_from false s.

(** [s in xs] for a set or list of strings *)
Definition mem (s : string) (xs : list string) : bool :=
  existsb (String.eqb s) xs.

(** the class [[a-zA-Z0-9]] of [re] *)
Definition is_alnum (c : ascii) : bool := is_lower c || is_upper c || is_digit c.

(** [s.strip(c)] for a one-character [c] *)
Definition strip_char (c : ascii) (s : string) : string :=
  rstrip_by (Ascii.eqb c) (lstrip_by (Ascii.eqb c) s).

End PyStr.

(** ** Python floats *)

Module PyFloat.

Definition float : Type := spec_float.

Definition prec : Z := 53.
Definition emax : Z := 1024.

Definition nan : float := S754_nan.

(** [math.isnan], [math.isfinite] *)
Definition isnan (f : float) : bool :=
  match f with S754_nan => true | _ => false end.

Definition isfinite (f : float) : bool :=
  match f with S754_zero _ | S754_finite _ _ _ => true | _ => false end.

(** unary minus *)
Definition neg (f : float) : float := SFopp f.

Definition float_eqb (f g : float) : bool :=
  match f, g with
  | S754_zero a, S754_zero b => Bool.eqb a b
  | S754_infinity a, S754_infinity b => Bool.eqb a b
  | S754_nan, S754_nan => true
  | S754_finite a m e, S754_finite b m' e' =>
      Bool.eqb a b && Pos.eqb m m' && Z.eqb e e'
  | _, _ => false
  end.

(** The binary64 number nearest to [d * 10 ^ e] (ties to even), with the
    sign [sgn]; [d] is a natural number. *)
Definition float_of_decimal (sgn : bool) (d e : Z) : float :=
  match d with
  | Z0 => S754_zero sgn
  | Zneg _ => S754_nan
  | Zpos _ =>
      if 0 <=? e then
        match d * 10 ^ e with
        | Zpos m => binary_round prec emax sgn m 0
        | _ => S754_zero sgn
        end
      else
        let '(q, e', l) := SFdiv_core_binary prec emax d 0 (10 ^ (- e)) 0 in
        binary_round_aux prec emax sgn q e' l
  end.

(** [float(n)] for an [int]: correctly rounded, [OverflowError] when the
    rounded value leaves the binary64 range. *)
Definition float_of_int (n : Z) : result float :=
  match binary_normalize prec emax n 0 false with
  | S754_infinity _ => Raise OverflowError
  | f => Ok f
  end.

(** The integer a float denotes, when it denotes one. *)
Definition exact_Z (f : float) : option Z :=
  match f with
  | S754_zero _ => Some 0
  | S754_finite s m e =>
      let sign := if s then -1 else 1 in
      if 0 <=? e then Some (sign * (Zpos m * 2 ^ e))
      else if Zpos m mod 2 ^ (- e) =? 0 then Some (sign * (Zpos m / 2 ^ (- e)))
      else None
  | _ => None
  end.

(** *** [float(s)] for a [str]

    The grammar is CPython's: optional white space, an optional sign,
    then either a decimal number with an optional exponent, or [inf],
    [infinity] or [nan] in any letter case; single underscores may
    separate digits.  (CPython's limit of 10^9 digits is not
    represented.) *)

Definition digit_val (c : ascii) : Z := Z.of_N (PyStr.code c) - 48.

(** Underscores are allowed only between two digits; they are removed. *)
Fixpoint drop_underscores (prev : option ascii) (s : string) : option string :=
  let prev_digit :=
    match prev with Some p => PyStr.is_digit p | None => false end in
  let prev_us :=
    match prev with Some p => Ascii.eqb p "_" | None => false end in
  match s with
  | EmptyString => if prev_us then None else Some EmptyString
  | String c s' =>
      if Ascii.eqb c "_" then
        if prev_digit then drop_underscores (Some c) s' else None
      else
        if prev_us && negb (PyStr.is_digit c) then None
        else match drop_underscores (Some c) s' with
             | Some r => Some (String c r)
             | None => None
             end
  end.

Definition split_sign (s : string) : bool * string :=
  match s with
  | String "-" r => (true, r)
  | String "+" r => (false, r)
  | _ => (false, s)
  end.

(** Reads a run of digits: the value accumulated on [acc], the number
    of digits read, and the rest of the text. *)
Fixpoint read_digits (acc : Z) (s : string) : Z * Z * string :=
  match s with
  | String c s' =>
      if PyStr.is_digit c then
        let '(v, n, r) := read_digits (10 * acc + digit_val c) s' in
        (v, n + 1, r)
      else (acc, 0, s)
  | EmptyString => (acc, 0, s)
  end.

Definition read_exponent (s : string) : Z * string :=
  match s with
  | String c r =>
      if Ascii.eqb c "e" || Ascii.eqb c "E" then
        let '(eneg, r1) := split_sign r in
        let '(ev, n, r2) := read_digits 0 r1 in
        if n =? 0 then (0, s) else ((if eneg then - ev else ev), r2)
      else (0, s)
  | EmptyString => (0, s)
  end.

(** [_Py_dg_strtod]: the float read and the unread rest, or [None] when
    no number starts the text. *)
Definition strtod (s : string) : option (float * string) :=
  let '(sgn, s1) := split_sign s in
  let '(ip, n_ip, s2) := read_digits 0 s1 in
  let '(d, n_fp, s3) :=
    match s2 with
    | String "." r => read_digits ip r
    | _ => (ip, 0, s2)
    end in
  if n_ip + n_fp =? 0 then None
  else
    let '(e, s4) := read_exponent s3 in
    Some (float_of_decimal sgn d (e - n_fp), s4).

Definition istartswith (p s : string) : bool :=
  PyStr.startswith p (PyStr.lower s).

Fixpoint drop (n : nat) (s : string) : string :=
  match n, s with
  | S k, String _ s' => drop k s'
  | _, _ => s
  end.

(** [_Py_parse_inf_or_nan] *)
Definition parse_inf_or_nan (s : string) : option (float * string) :=
  let '(sgn, s1) := split_sign s in
  if istartswith "inf" s1 then
    let s2 := drop 3 s1 in
    Some (S754_infinity sgn,
          if istartswith "inity" s2 then drop 5 s2 else s2)
  else if istartswith "nan" s1 then Some (S754_nan, drop 3 s1)
  else None.

(** [float(s)]; [None] stands for [ValueError]. *)
Definition float_of_string (s : string) : option float :=
  match drop_underscores None s with
  | None => None
  | Some t =>
      let u := PyStr.rstrip_by PyStr.is_c_space
                 (PyStr.lstrip_by PyStr.is_c_space t) in
      match u with
      | EmptyString => None
      | _ =>
          match strtod u with
          | Some (f, EmptyString) => Some f
          | Some (_, _) => None
          | None =>
              match parse_inf_or_nan u with
              | Some (f, EmptyString) => Some f
              | _ => None
              end
          end
      end
  end.

(** *** [repr(x)] of a float

    CPython prints the shortest decimal text that reads back as [x]
    (the nearest to [x] among the shortest ones), in positional
    notation when the decimal point falls within the first 16 digits
    and in exponent notation otherwise. *)

Section Shortest.
(** the positive finite float [m * 2 ^ e] *)
Variables (m : positive) (e : Z).

(** [m * 2 ^ e / 10 ^ k] as a fraction *)
Definition scaled (k : Z) : Z * Z :=
  let '(a, b) := if 0 <=? e then (Zpos m * 2 ^ e, 1) else (Zpos m, 2 ^ (- e)) in
  if 0 <=? k then (a, b * 10 ^ k) else (a * 10 ^ (- k), b).

Fixpoint point_up (fuel : nat) (p : Z) : Z :=
  match fuel with
  | O => p
  | S fuel' =>
      let '(a, b) := scaled p in
      if b <=? a then point_up fuel' (p + 1) else p
  end.

Fixpoint point_down (fuel : nat) (p : Z) : Z :=
  match fuel with
  | O => p
  | S fuel' =>
      let '(a, b) := scaled (p - 1) in
      if a <? b then point_down fuel' (p - 1) else p
  end.

(** the least [p] with [m * 2 ^ e < 10 ^ p], searched from an
    estimate of the decimal logarithm *)
Definition decimal_point : Z :=
  let p0 := (Z.log2 (Zpos m) + e) * 30103 / 100000 in
  point_down 400 (point_up 400 p0).

(** Tries [n], [n + 1], ... significant digits; the result [(d, k)]
    stands for [d * 10 ^ k]. *)
Fixpoint shortest_from (fuel : nat) (n : Z) : Z * Z :=
  let k := decimal_point - n in
  let '(a, b) := scaled k in
  let lo := a / b in
  let r := a mod b in
  let hi := lo + 1 in
  let back d := float_eqb (float_of_decimal false d k) (S754_finite false m e) in
  let oklo := (0 <? lo) && back lo in
  let okhi := back hi in
  let pick :=
    if oklo && okhi then
      match 2 * r ?= b with
      | Lt => Some lo
      | Gt => Some hi
      | Eq => Some (if Z.even lo then lo else hi)
      end
    else if oklo then Some lo
    else if okhi then Some hi
    else None in
  match pick, fuel with
  | Some d, _ => (d, k)
  | None, S fuel' => shortest_from fuel' (n + 1)
  | None, O => (lo, k)
  end.

Definition shortest : Z * Z := shortest_from 16 1.
End Shortest.

(** [str(n)] for a natural number *)
Definition digits_of (n : Z) : string :=
  NilZero.string_of_uint (N.to_uint (Z.to_N n)).

Fixpoint zeros (n : nat) : string :=
  match n with
  | O => EmptyString
  | S k => String "0" (zeros k)
  end.

Definition pad2 (n : Z) : string :=
  if n <? 10 then String "0" (digits_of n) else digits_of n.

(** [format_float_short] with format code ['r'] *)
Definition format_digits (d k : Z) : string :=
  let full := digits_of d in
  let decpt := k + Z.of_nat (String.length full) in
  let ds := PyStr.rstrip_by (Ascii.eqb "0") full in
  let nd := Z.of_nat (String.length ds) in
  if (decpt <=? -4) || (16 <? decpt) then
    let e10 := decpt - 1 in
    let mant :=
      match ds with
      | String c EmptyString => ds
      | String c rest => String c (String "." rest)
      | EmptyString => ds
      end in
    mant ++ "e" ++ (if e10 <? 0 then "-" else "+") ++ pad2 (Z.abs e10)
  else if decpt <=? 0 then
    "0." ++ zeros (Z.to_nat (- decpt)) ++ ds
  else if nd <=? decpt then
    ds ++ zeros (Z.to_nat (decpt - nd)) ++ ".0"
  else
    substring 0 (Z.to_nat decpt) ds ++ "." ++ drop (Z.to_nat decpt) ds.

Definition float_repr (f : float) : string :=
  match f with
  | S754_nan => "nan"
  | S754_infinity s => if s then "-inf" else "inf"
  | S754_zero s => if s then "-0.0" else "0.0"
  | S754_finite s m e =>
      let '(d, k) := shortest m e in
      (if s then "-" else EmptyString) ++ format_digits d k
  end.

End PyFloat.

(** ** Cells and their text *)

Inductive cell : Type :=
| CNone
| CBool (b : bool)
| CInt (n : Z)
| CFloat (f : PyFloat.float)
| CStr (s : string).

(** [x is None or (isinstance(x, float) and np.isnan(x))] *)
Definition is_none_or_nan (x : cell) : bool :=
  match x with
  | CNone => true
  | CFloat f => PyFloat.isnan f
  | _ => false
  end.

(** [pd.isna] on one value *)
Definition isna (x : cell) : bool := is_none_or_nan x.

(** [str(n)] for an [int] *)
Definition str_of_int (n : Z) : string :=
  NilZero.string_of_int (Z.to_int n).

(** [str(x)] *)
Definition py_str (x : cell) : string :=
  match x with
  | CNone => "None"
  | CBool b => if b then "True" else "False"
  | CInt n => str_of_int n
  | CFloat f => PyFloat.float_repr f
  | CStr s => s
  end.

(** ** Numeric parsing

    [parse_messy_number], 01_audit_workbook.py lines 162-188 and, with
    the same body, 02_understand_pnl_sheets.py lines 23-47.  The result
    [None] is the absence marker. *)

(** the text handed to [float()]: trimmed, parentheses and commas
    removed, trimmed again *)
Definition numeric_token (s : string) : string :=
  let s := PyStr.remove_char ")" (PyStr.remove_char "(" s) in
  PyStr.strip (PyStr.remove_char "," s).

Definition parse_messy_number (x : cell) : result (option PyFloat.float) :=
  if is_none_or_nan x then Ok None
  else
    match x with
    | CBool b => f <- PyFloat.float_of_int (if b then 1 else 0) ;; Ok (Some f)
    | CInt n => f <- PyFloat.float_of_int n ;; Ok (Some f)
    | CFloat f => Ok (Some f)
    | CNone | CStr _ =>
        let s := PyStr.strip (py_str x) in
        if PyStr.mem s [EmptyString; "-"] then Ok None
        else
          let is_parens := PyStr.startswith "(" s && PyStr.endswith_char ")" s in
          let s := numeric_token s in
          match PyFloat.float_of_string s with
          | Some val => Ok (Some (if is_parens then PyFloat.neg val else val))
          | None => Ok None
          end
    end.

(** ** Data frames *)

Record DataFrame : Type := {
  columns : list string;
  rows : list (list cell)
}.

(** Every row has one cell per column label. *)
Definition rectangular (df : DataFrame) : Prop :=
  Forall (fun r => List.length r = List.length (columns df)) (rows df).

Definition column_at (j : nat) (rs : list (list cell)) : list cell :=
  map (fun r => nth j r CNone) rs.

Fixpoint positions_from (j : nat) (c : string) (labels : list string) : list nat :=
  match labels with
  | [] => []
  | l :: labels' =>
      (if String.eqb l c then [j] else []) ++ positions_from (S j) c labels'
  end.

(** What [df[c]] evaluates to: a Series when the label is unique, a frame
    of all the columns of that label when it is repeated. *)
Inductive selection : Type :=
| Series (col : list cell)
| SubFrame (cols : list (list cell)).

(** [df[c]] *)
Definition getitem (df : DataFrame) (c : string) : result selection :=
  match positions_from 0 c (columns df) with
  | [] => Raise KeyError
  | [j] => Ok (Series (column_at j (rows df)))
  | js => Ok (SubFrame (map (fun j => column_at j (rows df)) js))
  end.

(** [[x for x in xs if p(x)]] where [p] may raise *)
Fixpoint filterM {A : Type} (p : A -> result bool) (xs : list A) : result (list A) :=
  match xs with
  | [] => Ok []
  | x :: xs' =>
      b <- p x ;;
      ys <- filterM p xs' ;;
      Ok (if b then x :: ys else ys)
  end.

Fixpoint select {A : Type} (mask : list bool) (xs : list A) : list A :=
  match mask, xs with
  | b :: mask', x :: xs' => if b then x :: select mask' xs' else select mask' xs'
  | _, _ => []
  end.

(** a row has a value that is not missing *)
Definition has_value (r : list cell) : bool :=
  existsb (fun x => negb (isna x)) r.

(** [df.dropna(how='all')] *)
Definition dropna_all (df : DataFrame) : DataFrame :=
  {| columns := columns df; rows := filter has_value (rows df) |}.

(** [df.drop(columns=labels)], for labels that occur in [df] *)
Definition drop_columns (labels : list string) (df : DataFrame) : DataFrame :=
  let mask := map (fun c => negb (PyStr.mem c labels)) (columns df) in
  {| columns := select mask (columns df);
     rows := map (select mask) (rows df) |}.

(** A raw sheet read with [header=None, dtype=object]: its rows. *)
Definition RawGrid : Type := list (list cell).

(** [raw_df.iloc[i]] for an integer [i] *)
Definition iloc_row (raw_df : RawGrid) (i : Z) : result (list cell) :=
  let n := Z.of_nat (List.length raw_df) in
  if (i <? - n) || (n <=? i) then Raise IndexError
  else Ok (nth (Z.to_nat (if i <? 0 then i + n else i)) raw_df []).

(** [xs[start:]] *)
Definition slice_from {A : Type} (start : Z) (xs : list A) : list A :=
  let n := Z.of_nat (List.length xs) in
  let start := if start <? 0 then Z.max 0 (start + n) else start in
  skipn (Z.to_nat start) xs.

(** [sum(1 for v in xs if p(v))] *)
Definition count_if {A : Type} (p : A -> bool) (xs : list A) : Z :=
  Z.of_nat (List.length (filter p xs)).

(** [s.sum()] for a Series of booleans *)
Definition count_true (bs : list bool) : Z := count_if (fun b => b) bs.

(** [raw.shape[1]]: the number of columns of a grid, every row of which
    has that many cells *)
Definition width (raw : RawGrid) : Z :=
  match raw with
  | [] => 0
  | r :: _ => Z.of_nat (List.length r)
  end.

(** [[f(x) for x in xs]] where [f] may raise *)
Fixpoint mapM {A B : Type} (f : A -> result B) (xs : list A) : result (list B) :=
  match xs with
  | [] => Ok []
  | x :: xs' =>
      y <- f x ;;
      ys <- mapM f xs' ;;
      Ok (y :: ys)
  end.

(** The major version of pandas. *)
Inductive pandas : Type := Pandas2 | Pandas3.

(** [col.astype(str)].  Up to pandas 2 every value becomes its text, a
    missing one the text [nan] or [None]; from pandas 3 on the result
    has the [str] dtype, in which a missing value stays missing and is
    read back as NaN. *)
Definition astype_str (v : pandas) (col : list cell) : list cell :=
  match v with
  | Pandas2 => map (fun x => CStr (py_str x)) col
  | Pandas3 =>
      map (fun x => if isna x then CFloat PyFloat.nan else CStr (py_str x)) col
  end.

(** [df[c]] where a Series is needed: a repeated label gives a frame,
    on which the operations that follow fail, [ValueError] standing for
    whichever exception pandas raises *)
Definition series_of (df : DataFrame) (c : string) : result (list cell) :=
  col <- getitem df c ;;
  match col with
  | Series col => Ok col
  | SubFrame _ => Raise ValueError
  end.

(** * scripts/01_audit_workbook.py *)

Module Audit.

Definition MONTH_NAMES : list string :=
  ["JAN"; "FEB"; "MAR"; "APR"; "MAY"; "JUN";
   "JUL"; "AUG"; "SEP"; "OCT"; "NOV"; "DEC"].

(** [normalize_text], lines 29-32 *)
Definition normalize_text (x : cell) : string :=
  if is_none_or_nan x then EmptyString else PyStr.strip (py_str x).

(** [looks_like_account_code], lines 35-37: the pattern is three to six
    decimal digits, matched against the whole trimmed text *)
Definition looks_like_account_code (x : string) : bool :=
  let x := PyStr.strip x in
  let n := String.length x in
  ((3 <=? n) && (n <=? 6))%nat && PyStr.all_chars PyStr.is_digit x.

(** [col.astype(str).str.strip() == e] for the empty text [e], on one
    value *)
Definition blank_text (x : cell) : bool :=
  String.eqb (PyStr.strip (py_str x)) EmptyString.

(** [is_blank_col], lines 40-41.  On a frame, [col.isna().all()] is a
    Series and its truth value raises [ValueError]. *)
Definition is_blank_col (col : selection) : result bool :=
  match col with
  | Series col => Ok (forallb isna col || forallb blank_text col)
  | SubFrame _ => Raise ValueError
  end.

(** [row_score_for_header], lines 44-65 *)
Definition row_score_for_header (row_values : list string) : Z :=
  let upper := map PyStr.upper row_values in
  let score := 0 in
  let score :=
    if existsb (fun v => String.eqb v "ACCOUNT") upper then score + 4 else score in
  let score :=
    if existsb (fun v => PyStr.mem (PyStr.remove_char " " v) ["LINEITEM"; "LINEITEMS"]
                         || String.eqb v "LINE ITEM") upper
    then score + 4 else score in
  let months_found := count_if (fun v => PyStr.mem v MONTH_NAMES) upper in
  let score := score + months_found * 1 in
  let score :=
    if existsb (fun v => String.eqb v "TOTAL") upper then score + 2 else score in
  score.

(** One scored candidate: [(i, score, row_vals[:15])] *)
Definition candidate : Type := Z * Z * list string.

Definition cand_index (c : candidate) : Z := fst (fst c).
Definition cand_score (c : candidate) : Z := snd (fst c).

(** [sorted(xs, key=lambda t: t[1], reverse=True)]: Python's sort is
    stable, also in reverse, so candidates of equal score keep their
    order; insertion from the right into a descending list does the
    same. *)
Fixpoint insert_desc (x : candidate) (l : list candidate) : list candidate :=
  match l with
  | [] => [x]
  | y :: l' =>
      if cand_score y <=? cand_score x then x :: l
      else y :: insert_desc x l'
  end.

Fixpoint sorted_desc (l : list candidate) : list candidate :=
  match l with
  | [] => []
  | x :: l' => insert_desc x (sorted_desc l')
  end.

(** the header score of a raw row *)
Definition row_score (row : list cell) : Z :=
  row_score_for_header (map normalize_text row).

(** the loop over [range(n)], lines 75-80, from row index [i0] on *)
Fixpoint scan_rows (i0 : Z) (rs : list (list cell)) : list candidate :=
  match rs with
  | [] => []
  | row :: rs' =>
      let row_vals := map normalize_text row in
      let score := row_score_for_header row_vals in
      (if score >? 0 then [(i0, score, firstn 15 row_vals)] else [])
        ++ scan_rows (i0 + 1) rs'
  end.

Record header_debug : Type := {
  candidates_top10 : list candidate;
  best_row_index : option Z;
  best_score : option Z
}.

(** [detect_header_row], lines 68-89 *)
Definition detect_header_row (raw_df : RawGrid) (search_rows : Z)
  : option Z * header_debug :=
  let n := Z.min search_rows (Z.of_nat (List.length raw_df)) in
  let scores := scan_rows 0 (firstn (Z.to_nat n) raw_df) in
  let scores_sorted := sorted_desc scores in
  let best :=
    match scores_sorted with
    | c :: _ => Some (cand_index c)
    | [] => None
    end in
  let debug := {|
    candidates_top10 := firstn 10 scores_sorted;
    best_row_index := best;
    best_score :=
      match scores_sorted with
      | c :: _ => Some (cand_score c)
      | [] => None
      end |} in
  (best, debug).

(** Removal of blank rows and blank columns, lines 100-106 *)
Definition remove_blank (df : DataFrame) : result DataFrame :=
  let df := dropna_all df in
  blank_cols <- filterM (fun c => col <- getitem df c ;; is_blank_col col)
                        (columns df) ;;
  Ok (match blank_cols with
      | [] => df
      | _ => drop_columns blank_cols df
      end).

(** [extract_table_using_header], lines 92-108 *)
Definition extract_table_using_header (raw_df : RawGrid) (header_row : Z)
  : result DataFrame :=
  header <- iloc_row raw_df header_row ;;
  let df := {| columns := map normalize_text header;
               rows := slice_from (header_row + 1) raw_df |} in
  remove_blank df.

Record row_type_counts : Type := {
  rows_total : Z;
  rows_account : Z;
  rows_section_headers : Z;
  rows_subtotals : Z;
  rows_other_nonaccount : Z
}.

(** [re.search(r'^Total|Gross Profit|EBITDA|Net Income', line, re.I)] *)
Definition subtotal_pattern (line : string) : bool :=
  let l := PyStr.lower line in
  PyStr.startswith "total" l
  || PyStr.contains "gross profit" l
  || PyStr.contains "ebitda" l
  || PyStr.contains "net income" l.

(** [df[c].astype(str).map(lambda x: x.strip())]; the methods used on
    the result exist on a Series only, so that a repeated label ends in
    an exception, [ValueError] standing for whichever pandas raises.
    This is the operation under pandas 2, where [astype(str)] leaves
    texts only; [stripped_column_in] below covers pandas 3 as well. *)
Definition stripped_column (df : DataFrame) (c : string) : result (list string) :=
  col <- getitem df c ;;
  match col with
  | Series col => Ok (map (fun x => PyStr.strip (py_str x)) col)
  | SubFrame _ => Raise ValueError
  end.

(** [detect_pnl_row_types], lines 141-158 *)
Definition detect_pnl_row_types (df : DataFrame) (account_col line_col : string)
  : result row_type_counts :=
  acc <- stripped_column df account_col ;;
  line <- stripped_column df line_col ;;
  let is_account := map looks_like_account_code acc in
  let is_section :=
    map (fun '(a, l) => negb a && PyStr.isupper l && negb (String.eqb l EmptyString))
        (combine is_account line) in
  let is_subtotal :=
    map (fun '(a, l) => negb a && subtotal_pattern l) (combine is_account line) in
  Ok {| rows_total := Z.of_nat (List.length (rows df));
        rows_account := count_true is_account;
        rows_section_headers := count_true is_section;
        rows_subtotals := count_true is_subtotal;
        rows_other_nonaccount := count_true (map negb is_account) |}.

(** [x.strip()], a method of texts: on the float that a missing value
    is, the attribute does not exist *)
Definition strip_cell (x : cell) : result string :=
  match x with
  | CStr s => Ok (PyStr.strip s)
  | _ => Raise AttributeError
  end.

(** [df[c].astype(str).map(lambda x: x.strip())] under the major
    version [v] of pandas *)
Definition stripped_column_in (v : pandas) (df : DataFrame) (c : string)
  : result (list string) :=
  col <- getitem df c ;;
  match col with
  | Series col => mapM strip_cell (astype_str v col)
  | SubFrame _ => Raise ValueError
  end.

(** [detect_pnl_row_types], lines 141-158, under the major version [v]
    of pandas *)
Definition detect_pnl_row_types_in (v : pandas) (df : DataFrame)
    (account_col line_col : string) : result row_type_counts :=
  acc <- stripped_column_in v df account_col ;;
  line <- stripped_column_in v df line_col ;;
  let is_account := map looks_like_account_code acc in
  let is_section :=
    map (fun '(a, l) => negb a && PyStr.isupper l && negb (String.eqb l EmptyString))
        (combine is_account line) in
  let is_subtotal :=
    map (fun '(a, l) => negb a && subtotal_pattern l) (combine is_account line) in
  Ok {| rows_total := Z.of_nat (List.length (rows df));
        rows_account := count_true is_account;
        rows_section_headers := count_true is_section;
        rows_subtotals := count_true is_subtotal;
        rows_other_nonaccount := count_true (map negb is_account) |}.

(** [find_month_columns], lines 111-117, on labels that are texts *)
Definition find_month_columns (columns : list string) : list string :=
  filter (fun c => PyStr.mem (PyStr.upper (PyStr.strip c)) MONTH_NAMES) columns.

(** The blank columns that [audit_sheet] reports, lines 223-225: the
    columns of the raw grid, relabelled [Column1], [Column2], ..., that
    [is_blank_col] finds blank over all the rows of the grid. *)
Definition generic_labels (n : nat) : list string :=
  map (fun i => "Column" ++ str_of_int (Z.of_nat i + 1)) (seq 0 n).

Definition removed_blank_cols (raw : RawGrid) : result (list string) :=
  let temp := {| columns := generic_labels (Z.to_nat (width raw)); rows := raw |} in
  filterM (fun c => col <- getitem temp c ;; is_blank_col col) (columns temp).

(** [next((c for c in cols if p(c)), None)] is [find p cols]; lines
    236-237 of [audit_sheet] *)
Definition account_col (cols : list string) : option string :=
  find (fun c => String.eqb (PyStr.lower (PyStr.strip c)) "account") cols.

Definition line_col (cols : list string) : option string :=
  find (fun c =>
          PyStr.mem (PyStr.remove_char " " (PyStr.lower (PyStr.strip c)))
                    ["lineitem"; "lineitems"]
          || String.eqb (PyStr.lower (PyStr.strip c)) "line item") cols.

(** the truth value of an optional text: [None] and the empty text are
    false *)
Definition truthy (o : option string) : bool :=
  match o with
  | Some s => negb (String.eqb s EmptyString)
  | None => false
  end.

(** the row-type counts of [audit_sheet], lines 236-239, under the major
    version [v] of pandas: [None] when the table has no account column
    or no line item column *)
Definition pnl_counts (v : pandas) (df : DataFrame)
  : result (option row_type_counts) :=
  let cols := columns df in
  match account_col cols, line_col cols with
  | Some a, Some l =>
      if truthy (Some a) && truthy (Some l) then
        c <- detect_pnl_row_types_in v df a l ;; Ok (Some c)
      else Ok None
  | _, _ => Ok None
  end.

(** [re.sub(r'[^a-zA-Z0-9]+', '_', s)]: every maximal run of characters
    outside the class becomes one underscore; [in_run] tells that the
    character before belongs to such a run *)
Fixpoint sub_runs (in_run : bool) (s : string) : string :=
  match s with
  | EmptyString => EmptyString
  | String c s' =>
      if PyStr.is_alnum c then String c (sub_runs false s')
      else if in_run then sub_runs true s'
      else String "_" (sub_runs true s')
  end.

(** [safe_name], lines 267-268 *)
Definition safe_name (s : string) : string :=
  PyStr.lower (PyStr.strip_char "_" (sub_runs false s)).

End Audit.

(** * scripts/02_understand_pnl_sheets.py *)

Module PnlSheets.

Definition MONTHS : list string :=
  ["Jan"; "Feb"; "Mar"; "Apr"; "May"; "Jun";
   "Jul"; "Aug"; "Sep"; "Oct"; "Nov"; "Dec"].

Fixpoint lookup_from (i : Z) (ms : list string) (m : string) : option Z :=
  match ms with
  | [] => None
  | x :: ms' => if String.eqb x m then Some (i + 1) else lookup_from (i + 1) ms' m
  end.

(** [MONTH_TO_NUM = {m: i+1 for i, m in enumerate(MONTHS)}], as a
    lookup; [None] for a key that is absent *)
Definition MONTH_TO_NUM (m : string) : option Z := lookup_from 0 MONTHS m.

(** [infer_column_names], lines 61-74 *)
Definition infer_column_names (ncols : Z) : list string :=
  if ncols =? 15 then ["Account"; "Line Item"] ++ MONTHS ++ ["Total"]
  else if ncols =? 14 then ["Account"; "Line Item"] ++ MONTHS
  else
    ["Account"; "Line Item"]
      ++ map (fun i => "Col" ++ str_of_int (Z.of_nat i + 1))
             (seq 2 (Z.to_nat ncols - 2)).

(** The wide frame that [clean_wide_pnl] builds (lines 89-116): the
    columns of the sheet under the labels [wide_columns], and in every
    row the three columns added last, a boolean [IsAccountRow], the
    scenario and the year. *)
Record WideRow : Type := {
  cells : list cell;
  IsAccountRow : bool;
  Scenario : string;
  Year : Z
}.

Record WideFrame : Type := {
  wide_columns : list string;
  wide_rows : list WideRow
}.

(** [clean_wide_pnl] returns [pd.DataFrame()], a frame without rows and
    columns, when no account row is found, and a wide frame
    otherwise. *)
Inductive wide_table : Type :=
| EmptyFrame
| Wide (w : WideFrame).

(** [wide.columns] *)
Definition labels (w : WideFrame) : list string :=
  wide_columns w ++ ["IsAccountRow"; "Scenario"; "Year"].

(** the cells of a row, one per label *)
Definition row_cells (r : WideRow) : list cell :=
  cells r ++ [CBool (IsAccountRow r); CStr (Scenario r); CInt (Year r)].

Record LongFactRow : Type := {
  Account : cell;
  Line_Item : cell;
  Scenario_ : cell;
  Year_ : cell;
  Month : string;
  Amount : cell;
  MonthNumber : option Z;
  Quarter : string
}.

(** What [wide_to_long_fact] returns: its argument when that is empty,
    the long frame otherwise. *)
Inductive long_table : Type :=
| Unchanged (wide : wide_table)
| Long (facts : list LongFactRow).

(** the rows of the frame returned; an empty wide frame has none *)
Definition long_rows (t : long_table) : list LongFactRow :=
  match t with
  | Unchanged _ => []
  | Long facts => facts
  end.

(** [wide.empty] *)
Definition empty (wide : wide_table) : bool :=
  match wide with
  | EmptyFrame => true
  | Wide w => match wide_rows w with [] => true | _ => false end
  end.

(** the position of an id column of [melt]: [KeyError] for a label
    that is absent, [AttributeError] for a repeated one, whose
    [frame.pop] is a frame *)
Definition id_position (ls : list string) (c : string) : result nat :=
  match positions_from 0 c ls with
  | [] => Raise KeyError
  | [j] => Ok j
  | _ => Raise AttributeError
  end.

(** the quarter label, line 143 *)
Definition quarter_label (month_number : option Z) : string :=
  "Q" ++ match month_number with
         | Some k => str_of_int ((k - 1) / 3 + 1)
         | None => "<NA>"
         end.

(** one row of the melted frame with the columns added in lines
    137-143; [MonthStartDate] and [MonthEndDate], which pandas derives
    from the year and the month number, are not represented *)
Definition fact_row (ja jl js jy : nat) (m : string) (j : nat) (r : WideRow)
  : LongFactRow :=
  let c := row_cells r in
  {| Account := nth ja c CNone;
     Line_Item := nth jl c CNone;
     Scenario_ := nth js c CNone;
     Year_ := nth jy c CNone;
     Month := m;
     Amount := nth j c CNone;
     MonthNumber := MONTH_TO_NUM m;
     Quarter := quarter_label (MONTH_TO_NUM m) |}.

(** [wide_acc.melt(id_vars=[...], value_vars=month_cols,
    var_name='Month', value_name='Amount')]: one block of rows per
    value column, in the order of [value_vars] *)
Definition melt (ls : list string) (wide_acc : list WideRow)
                (month_cols : list string) : result (list LongFactRow) :=
  if PyStr.mem "Amount" ls then Raise ValueError
  else
    if negb (forallb (fun c => PyStr.mem c ls)
               ["Account"; "Line Item"; "Scenario"; "Year"])
    then Raise KeyError
    else
      ja <- id_position ls "Account" ;;
      jl <- id_position ls "Line Item" ;;
      js <- id_position ls "Scenario" ;;
      jy <- id_position ls "Year" ;;
      Ok (flat_map
            (fun m =>
               flat_map (fun j => map (fact_row ja jl js jy m j) wide_acc)
                        (positions_from 0 m ls))
            month_cols).

(** [wide_to_long_fact], lines 121-145 *)
Definition wide_to_long_fact (wide : wide_table) : result long_table :=
  if empty wide then Ok (Unchanged wide)
  else
    match wide with
    | EmptyFrame => Ok (Unchanged wide)
    | Wide w =>
        match positions_from 0 "IsAccountRow" (labels w) with
        | [_] =>
            let wide_acc := filter IsAccountRow (wide_rows w) in
            let month_cols :=
              filter (fun m => PyStr.mem m (labels w)) MONTHS in
            long <- melt (labels w) wide_acc month_cols ;;
            Ok (Long long)
        | _ => Raise ValueError
        end
    end.

(** *** Sheet selection *)

Fixpoint take (n : nat) (s : string) : option (string * string) :=
  match n, s with
  | O, _ => Some (EmptyString, s)
  | S k, String c s' =>
      match take k s' with
      | Some (p, r) => Some (String c p, r)
      | None => None
      end
  | S _, EmptyString => None
  end.

(** [(Actual|Budget)], ignoring case *)
Definition m_scenario (s : string) : option (string * string) :=
  match take 6 s with
  | Some (g, r) =>
      if PyStr.mem (PyStr.lower g) ["actual"; "budget"] then Some (g, r) else None
  | None => None
  end.

(** [\s+] before a token that does not start with white space *)
Definition m_spaces (s : string) : option string :=
  match s with
  | String c r => if PyStr.is_space c then Some (PyStr.lstrip_by PyStr.is_space r) else None
  | EmptyString => None
  end.

(** [P&L], ignoring case *)
Definition m_pnl (s : string) : option string :=
  match take 3 s with
  | Some (g, r) => if String.eqb (PyStr.lower g) "p&l" then Some r else None
  | None => None
  end.

(** [(\d{4})] *)
Definition m_year (s : string) : option (string * string) :=
  match take 4 s with
  | Some (g, r) => if PyStr.all_chars PyStr.is_digit g then Some (g, r) else None
  | None => None
  end.

(** [$]: the end of the text, or the line feed that ends it *)
Definition m_end (s : string) : bool :=
  match s with
  | EmptyString => true
  | String c EmptyString => Ascii.eqb c (ascii_of_nat 10)
  | _ => false
  end.

(** [pat.match(s)] for
    [pat = re.compile(r'^(Actual|Budget)\s+P&L\s+(\d{4})$', re.IGNORECASE)]:
    the two groups of a match *)
Definition pat_match (s : string) : option (string * string) :=
  match m_scenario s with
  | Some (g1, r1) =>
      match m_spaces r1 with
      | Some r2 =>
          match m_pnl r2 with
          | Some r3 =>
              match m_spaces r3 with
              | Some r4 =>
                  match m_year r4 with
                  | Some (g2, r5) => if m_end r5 then Some (g1, g2) else None
                  | None => None
                  end
              | None => None
              end
          | None => None
          end
      | None => None
      end
  | None => None
  end.

(** [int(s)] for a run of decimal digits *)
Definition int_of_digits (s : string) : Z :=
  fst (fst (PyFloat.read_digits 0 s)).

(** [detect_pnl_sheets], lines 148-162, on the sheet names of the
    workbook *)
Fixpoint detect_pnl_sheets (sheet_names : list string)
  : list (string * string * Z) :=
  match sheet_names with
  | [] => []
  | s :: rest =>
      match pat_match (PyStr.strip s) with
      | Some (g1, g2) =>
          let scenario := PyStr.title g1 in
          let year := int_of_digits g2 in
          (s, scenario, year) :: detect_pnl_sheets rest
      | None => detect_pnl_sheets rest
      end
  end.


(** *** Cleaning a wide sheet *)

(** [looks_like_account_code], lines 16-20 *)
Definition looks_like_account_code (x : cell) : bool :=
  if is_none_or_nan x then false
  else
    let s := PyStr.strip (py_str x) in
    let n := String.length s in
    ((3 <=? n) && (n <=? 6))%nat && PyStr.all_chars PyStr.is_digit s.

(** [raw.iat[i, j]] within row [i] of the grid, for [j] not negative *)
Definition iat (row : list cell) (j : nat) : result cell :=
  match nth_error row j with
  | Some x => Ok x
  | None => Raise IndexError
  end.

(** the loop of lines 55-57, from row index [i0] on *)
Fixpoint first_account_row (account_col_idx : nat) (i0 : Z) (rs : list (list cell))
  : result (option Z) :=
  match rs with
  | [] => Ok None
  | row :: rs' =>
      x <- iat row account_col_idx ;;
      if looks_like_account_code x then Ok (Some i0)
      else first_account_row account_col_idx (i0 + 1) rs'
  end.

(** [find_first_data_row], lines 50-58 *)
Definition find_first_data_row (raw : RawGrid) (account_col_idx : nat) (max_scan : Z)
  : result (option Z) :=
  let n := Z.min (Z.of_nat (List.length raw)) max_scan in
  first_account_row account_col_idx 0 (firstn (Z.to_nat n) raw).

(** [col.apply(parse_messy_number)]: pandas stores the results as
    floats, NaN standing for [None], as soon as one of them is a float,
    and leaves a column of [None] alone *)
Definition apply_parse (col : list cell) : result (list cell) :=
  vals <- mapM parse_messy_number col ;;
  let any_float :=
    existsb (fun v => match v with Some _ => true | None => false end) vals in
  Ok (map (fun v => match v with
                    | Some f => CFloat f
                    | None => if any_float then CFloat PyFloat.nan else CNone
                    end) vals).

(** [wide[c] = col] for the column at position [j] *)
Definition set_column (j : nat) (col : list cell) (rs : list (list cell))
  : list (list cell) :=
  map (fun '(r, x) => (firstn j r ++ x :: skipn (S j) r)%list) (combine rs col).

(** the loop of lines 100-101 over [num_cols]; the labels [ls] of the
    frame are those of [infer_column_names] and [IsAccountRow], none of
    them repeated *)
Fixpoint parse_columns (ls num_cols : list string) (rs : list (list cell))
  : result (list (list cell)) :=
  match num_cols with
  | [] => Ok rs
  | c :: num_cols' =>
      match positions_from 0 c ls with
      | [j] =>
          col <- apply_parse (column_at j rs) ;;
          parse_columns ls num_cols' (set_column j col rs)
      | [] => Raise KeyError
      | _ => Raise ValueError
      end
  end.

(** The dictionary [info] that [clean_wide_pnl] returns: the three
    entries of line 84, and either the entry [error] or the entries of
    lines 104-112. *)
Module Info.

Record summary : Type := {
  rows_after_start : Z;
  account_rows : Z;
  non_account_rows : Z;
  detected_month_cols : list string;
  has_total : bool;
  sample_accounts : list string;
  sample_lines : list string
}.

Inductive detail : Type :=
| Error (message : string)
| Summary (s : summary).

Record info : Type := {
  first_data_row_index : option Z;
  ncols : Z;
  nrows_raw : Z;
  rest : detail
}.

End Info.

(** [clean_wide_pnl], lines 77-118 *)
Definition clean_wide_pnl (raw : RawGrid) (year : Z) (scenario : string)
  : result (wide_table * Info.info) :=
  start <- find_first_data_row raw 0 80 ;;
  let mk_info := fun d =>
    {| Info.first_data_row_index := start;
       Info.ncols := width raw;
       Info.nrows_raw := Z.of_nat (List.length raw);
       Info.rest := d |} in
  match start with
  | None =>
      Ok (EmptyFrame,
          mk_info (Info.Error "Could not find an account-code row (e.g., 4001) in first 80 rows."))
  | Some start =>
      let names := infer_column_names (width raw) in
      if negb (Z.of_nat (List.length names) =? width raw) then Raise ValueError
      else
        let wide := dropna_all {| columns := names; rows := slice_from start raw |} in
        acc <- series_of wide "Account" ;;
        let is_account_row := map looks_like_account_code acc in
        let ls := (names ++ ["IsAccountRow"])%list in
        let num_cols :=
          (filter (fun c => PyStr.mem c ls) MONTHS
             ++ (if PyStr.mem "Total" ls then ["Total"] else []))%list in
        rs <- parse_columns ls num_cols (rows wide) ;;
        let parsed := {| columns := names; rows := rs |} in
        accounts <- series_of parsed "Account" ;;
        lines <- series_of parsed "Line Item" ;;
        let s := {|
          Info.rows_after_start := Z.of_nat (List.length rs);
          Info.account_rows := count_true is_account_row;
          Info.non_account_rows := count_true (map negb is_account_row);
          Info.detected_month_cols := filter (fun c => PyStr.mem c ls) MONTHS;
          Info.has_total := PyStr.mem "Total" ls;
          Info.sample_accounts := firstn 5 (map py_str (select is_account_row accounts));
          Info.sample_lines := firstn 5 (map py_str (select is_account_row lines)) |} in
        Ok (Wide {| wide_columns := names;
                    wide_rows :=
                      map (fun '(r, b) =>
                             {| cells := r; IsAccountRow := b;
                                Scenario := scenario; Year := year |})
                          (combine rs is_account_row) |},
            mk_info (Info.Summary s))
  end.

End PnlSheets.

(** * Vocabulary of the statements *)

(** the score of row [i] of a grid *)
Definition score_at (raw_df : RawGrid) (i : Z) : Z :=
  Audit.row_score (nth (Z.to_nat i) raw_df []).

(** the rows that [detect_header_row] scans *)
Definition scanned (raw_df : RawGrid) (search_rows i : Z) : Prop :=
  0 <= i < Z.min search_rows (Z.of_nat (List.length raw_df)).

(** a result that is the float of the integer [n] *)
Definition is_float_of (r : result (option PyFloat.float)) (n : Z) : Prop :=
  exists f, r = Ok (Some f)
            /\ valid_binary PyFloat.prec PyFloat.emax f = true
            /\ PyFloat.exact_Z f = Some n.

(** a result that is a finite float or the absence marker *)
Definition finite_or_absent (r : result (option PyFloat.float)) : Prop :=
  r = Ok None \/ exists f, r = Ok (Some f) /\ PyFloat.isfinite f = true.

(** an [int] cell holds a value that [float()] converts without
    overflow; any other cell qualifies *)
Definition in_float_range (x : cell) : bool :=
  match x with
  | CInt n => match PyFloat.float_of_int n with Ok _ => true | Raise _ => false end
  | _ => true
  end.

Definition is_paren (c : ascii) : bool := Ascii.eqb c "(" || Ascii.eqb c ")".

(** the text without its first character *)
Definition tail (s : string) : string :=
  match s with
  | EmptyString => EmptyString
  | String _ s' => s'
  end.

(** the text without its last character *)
Fixpoint init (s : string) : string :=
  match s with
  | EmptyString => EmptyString
  | String _ EmptyString => EmptyString
  | String c s' => String c (init s')
  end.

(** a text that starts with an opening parenthesis and does not end with
    a closing one, or that has a parenthesis elsewhere than at its two
    ends *)
Definition unbalanced_parens (s : string) : bool :=
  (PyStr.startswith "(" s && negb (PyStr.endswith_char ")" s))
  || PyStr.any_char is_paren (init (tail s)).

(** the test of [is_blank_col] on the cells of one column *)
Definition blank_column (col : list cell) : bool :=
  forallb isna col || forallb Audit.blank_text col.

(** the columns that [remove_blank] keeps, by position: those that are
    not blank over the rows that have a value *)
Definition keep_mask (df : DataFrame) : list bool :=
  map (fun j => negb (blank_column (column_at j (filter has_value (rows df)))))
      (seq 0 (List.length (columns df))).

(** a cell that holds text made of white space only *)
Definition whitespace_only (x : cell) : Prop :=
  exists s, x = CStr s /\ s <> EmptyString /\ PyStr.all_chars PyStr.is_space s = true.

(** the frame without columns and rows *)
Definition empty_frame : DataFrame := {| columns := []; rows := [] |}.

(** the labels and the rows of a wide table; the frame without columns
    has neither *)
Definition frame_labels (wide : PnlSheets.wide_table) : list string :=
  match wide with
  | PnlSheets.EmptyFrame => []
  | PnlSheets.Wide w => PnlSheets.labels w
  end.

Definition frame_rows (wide : PnlSheets.wide_table) : list PnlSheets.WideRow :=
  match wide with
  | PnlSheets.EmptyFrame => []
  | PnlSheets.Wide w => PnlSheets.wide_rows w
  end.

(** the rows classified as account rows *)
Definition account_rows (wide : PnlSheets.wide_table) : list PnlSheets.WideRow :=
  filter PnlSheets.IsAccountRow (frame_rows wide).

(** the month columns present, in calendar order *)
Definition month_columns (wide : PnlSheets.wide_table) : list string :=
  filter (fun m => PyStr.mem m (frame_labels wide)) PnlSheets.MONTHS.

(** the cell of row [r] in the column labelled [c] *)
Definition cell_under (wide : PnlSheets.wide_table) (r : PnlSheets.WideRow)
                      (c : string) : cell :=
  match positions_from 0 c (frame_labels wide) with
  | j :: _ => nth j (PnlSheets.row_cells r) CNone
  | [] => CNone
  end.

(** the fact row that belongs to the account row [r] and the month [m] *)
Definition fact_of (wide : PnlSheets.wide_table) (m : string)
                   (r : PnlSheets.WideRow) : PnlSheets.LongFactRow :=
  {| PnlSheets.Account := cell_under wide r "Account";
     PnlSheets.Line_Item := cell_under wide r "Line Item";
     PnlSheets.Scenario_ := cell_under wide r "Scenario";
     PnlSheets.Year_ := cell_under wide r "Year";
     PnlSheets.Month := m;
     PnlSheets.Amount := cell_under wide r m;
     PnlSheets.MonthNumber := PnlSheets.MONTH_TO_NUM m;
     PnlSheets.Quarter := PnlSheets.quarter_label (PnlSheets.MONTH_TO_NUM m) |}.

(** A wide table as [clean_wide_pnl] builds it: no label is repeated,
    the two identifying columns are there, and no column is called
    Amount. *)
Definition well_formed (wide : PnlSheets.wide_table) : Prop :=
  match wide with
  | PnlSheets.EmptyFrame => True
  | PnlSheets.Wide w =>
      NoDup (PnlSheets.labels w)
      /\ In "Account" (PnlSheets.wide_columns w)
      /\ In "Line Item" (PnlSheets.wide_columns w)
      /\ ~ In "Amount" (PnlSheets.wide_columns w)
  end.

(** a small wide table: two account rows around a subtotal row, two
    month columns *)
Definition sample_wide : PnlSheets.wide_table :=
  let row (a l : string) (jan feb tot : Z) (acc : bool) :=
    {| PnlSheets.cells :=
         [CStr a; CStr l;
          CFloat (PyFloat.float_of_decimal false jan 0);
          CFloat (PyFloat.float_of_decimal false feb 0);
          CFloat (PyFloat.float_of_decimal false tot 0)];
       PnlSheets.IsAccountRow := acc;
       PnlSheets.Scenario := "Actual";
       PnlSheets.Year := 2024 |} in
  PnlSheets.Wide
    {| PnlSheets.wide_columns := ["Account"; "Line Item"; "Jan"; "Feb"; "Total"];
       PnlSheets.wide_rows :=
         [row "4001" "Revenue - Core" 100 200 300 true;
          row "SECTIONTOTAL" "Total Revenue" 100 200 300 false;
          row "4002" "Revenue - Other" 10 20 30 true] |}.

(** a run of one or more white-space characters *)
Definition blank_run (ws : string) : Prop :=
  ws <> EmptyString /\ PyStr.all_chars PyStr.is_space ws = true.




(** the first character of a text, if any, fails the test [p] *)
Definition starts_outside (p : ascii -> bool) (r : string) : Prop :=
  match r with
  | EmptyString => True
  | String c _ => p c = false
  end.

(** a cell that is empty or holds white space only, in the words of the
    specification *)
Definition spec_blank (x : cell) : bool := isna x || Audit.blank_text x.

(** the blankness of each of the first [n] columns of some rows *)
Definition blank_columns (n : nat) (rs : list (list cell)) : list bool :=
  map (fun j => forallb spec_blank (column_at j rs)) (seq 0 n).

(** The removal as the specification words it: drop any row whose every
    cell is empty or whitespace-only, then drop any column whose every
    remaining cell is empty or whitespace-only. *)
Definition spec_remove_blank (df : DataFrame) : DataFrame :=
  let kept := filter (fun r => negb (forallb spec_blank r)) (rows df) in
  let mask := map negb (blank_columns (List.length (columns df)) kept) in
  {| columns := select mask (columns df);
     rows := map (select mask) kept |}.

(** rows that all have [n] cells *)
Definition rows_of_width (n : nat) (rs : list (list cell)) : Prop :=
  Forall (fun r => List.length r = n) rs.

(** no cell of the table is a text of white space only (or empty) *)
Definition no_blank_text (df : DataFrame) : Prop :=
  Forall (Forall (fun x => Audit.blank_text x = false)) (rows df).

(** a grid of ten rows: a title and blank rows, the header in row 5, an
    account row, a subtotal row, blank rows *)
Definition sample_grid : RawGrid :=
  let blank := repeat (CFloat PyFloat.nan) 6 in
  [ CStr "Profit and Loss" :: repeat (CFloat PyFloat.nan) 5;
    blank; blank; blank; blank;
    [CStr "Account"; CStr "Line Item"; CStr "Jan"; CStr "Feb"; CStr "Mar"; CStr "Total"];
    [CStr "4001"; CStr "Revenue - Core"; CInt 100; CInt 200; CInt 300; CInt 600];
    [CStr "SECTIONTOTAL"; CStr "Total Revenue"; CInt 100; CInt 200; CInt 300; CInt 600];
    blank; blank ].


(** a character that a safe name may hold: a lower-case letter, a digit
    or an underscore *)
Definition is_safe_char (c : ascii) : bool :=
  PyStr.is_lower c || PyStr.is_digit c || Ascii.eqb c "_".

(** the characters of a text that pass the test [p], in order *)
Fixpoint keep_chars (p : ascii -> bool) (s : string) : string :=
  match s with
  | EmptyString => EmptyString
  | String c s' => if p c then String c (keep_chars p s') else keep_chars p s'
  end.

(** the pieces into which the characters that are neither letters nor
    digits cut a text, one piece before each of them and one after the
    last; a piece may be empty *)
Fixpoint pieces (s : string) : list string :=
  match s with
  | EmptyString => [EmptyString]
  | String c s' =>
      if PyStr.is_alnum c then
        match pieces s' with
        | w :: ws => String c w :: ws
        | [] => [String c EmptyString]
        end
      else EmptyString :: pieces s'
  end.

Definition nonempty (w : string) : bool := negb (String.eqb w EmptyString).

(** the words of a text: its maximal runs of letters and digits *)
Definition words_of (s : string) : list string := filter nonempty (pieces s).

(** the texts of a list, each behind an underscore *)
Fixpoint underscored (ws : list string) : string :=
  match ws with
  | [] => EmptyString
  | w :: rest => "_" ++ w ++ underscored rest
  end.

(** the texts of a list joined by single underscores *)
Definition join_underscore (ws : list string) : string := String.concat "_" ws.

(** a cell that reads [t] once trimmed, in either case *)
Definition reads_as (t : string) (c : cell) : Prop :=
  PyStr.upper (Audit.normalize_text c) = t.

(** a cell that reads LINEITEM or LINEITEMS once trimmed and without
    its spaces, in either case *)
Definition reads_as_line_item (c : cell) : Prop :=
  In (PyStr.remove_char " " (PyStr.upper (Audit.normalize_text c)))
     ["LINEITEM"; "LINEITEMS"].

(** [b] is the bonus [w] if [P] holds and nothing otherwise *)
Definition bonus_for (P : Prop) (w b : Z) : Prop :=
  (P /\ b = w) \/ (~ P /\ b = 0).

(** a column labelled [c] holds a missing value *)
Definition missing_under (df : DataFrame) (c : string) : Prop :=
  exists j r,
    nth_error (columns df) j = Some c /\ In r (rows df)
    /\ isna (nth j r CNone) = true.

(** a sheet whose header is its first row and whose section row has no
    account code, and the table extracted from it *)
Definition section_grid : RawGrid :=
  [ [CStr "Account"; CStr "Line Item"; CStr "Jan"];
    [CFloat PyFloat.nan; CStr "REVENUE"; CFloat PyFloat.nan];
    [CStr "4001"; CStr "Sales"; CInt 7] ].

Definition section_table : DataFrame :=
  {| columns := ["Account"; "Line Item"; "Jan"];
     rows := [ [CFloat PyFloat.nan; CStr "REVENUE"; CFloat PyFloat.nan];
               [CStr "4001"; CStr "Sales"; CInt 7] ] |}.

(** the labels that row [h] of a grid gives the table: its cells as
    trimmed text *)
Definition header_labels (raw_df : RawGrid) (h : Z) : list string :=
  map Audit.normalize_text (nth (Z.to_nat h) raw_df []).

(** the rows below row [h] of a grid that hold a value *)
Definition data_rows (raw_df : RawGrid) (h : Z) : list (list cell) :=
  filter has_value (skipn (Z.to_nat (h + 1)) raw_df).

(** a grid all of whose rows have [width] cells *)
Definition rectangular_grid (raw_df : RawGrid) : Prop :=
  rows_of_width (Z.to_nat (width raw_df)) raw_df.

(** the number of columns that carry the label [c] *)
Definition occurrences (c : string) (ls : list string) : nat :=
  count_occ string_dec ls c.

(** the number that the digits [d] write after the digits that gave
    [acc] *)
Fixpoint uint_val (acc : Z) (d : Decimal.uint) : Z :=
  match d with
  | Decimal.Nil => acc
  | Decimal.D0 d => uint_val (10 * acc) d
  | Decimal.D1 d => uint_val (10 * acc + 1) d
  | Decimal.D2 d => uint_val (10 * acc + 2) d
  | Decimal.D3 d => uint_val (10 * acc + 3) d
  | Decimal.D4 d => uint_val (10 * acc + 4) d
  | Decimal.D5 d => uint_val (10 * acc + 5) d
  | Decimal.D6 d => uint_val (10 * acc + 6) d
  | Decimal.D7 d => uint_val (10 * acc + 7) d
  | Decimal.D8 d => uint_val (10 * acc + 8) d
  | Decimal.D9 d => uint_val (10 * acc + 9) d
  end.

(** the mark of a float in its text: a point, an exponent or the
    letter n of [inf] and [nan] *)
Definition float_mark (c : ascii) : bool :=
  Ascii.eqb c "." || Ascii.eqb c "e" || Ascii.eqb c "n".

(** the cell of row [i] and column [j] of a grid *)
Definition cell_at (raw : RawGrid) (i : Z) (j : nat) : cell :=
  nth j (nth (Z.to_nat i) raw []) CNone.

(** the rows that [find_first_data_row] scans *)
Definition scanned_for_data (raw : RawGrid) (max_scan i : Z) : Prop :=
  0 <= i < Z.min (Z.of_nat (List.length raw)) max_scan.

(** the value that [parse_messy_number] gives a cell; none, too, where
    it raises *)
Definition parsed (x : cell) : option PyFloat.float :=
  match parse_messy_number x with
  | Ok v => v
  | Raise _ => None
  end.

(** a cell that stores an optional float: the float itself, or a
    missing value *)
Definition stores (c : cell) (v : option PyFloat.float) : Prop :=
  match v with
  | Some f => c = CFloat f
  | None => isna c = true
  end.

(** the rows that [clean_wide_pnl] keeps: from row [start] on, those
    that hold a value *)
Definition kept_rows (raw : RawGrid) (start : Z) : list (list cell) :=
  filter has_value (skipn (Z.to_nat start) raw).

(** the labels of the columns that [clean_wide_pnl] parses: the months
    and [Total] *)
Definition numeric_label (c : string) : bool :=
  PyStr.mem c PnlSheets.MONTHS || String.eqb c "Total".

(** no integer of the grid is beyond the range of a double *)
Definition cells_in_float_range (raw : RawGrid) : Prop :=
  Forall (Forall (fun x => in_float_range x = true)) raw.

(** the cell that [apply_parse] puts in the place of [x] in the column
    [col] *)
Definition column_value (col : list cell) (x : cell) : cell :=
  match parsed x with
  | Some f => CFloat f
  | None =>
      if existsb (fun y => match parsed y with Some _ => true | None => false end) col
      then CFloat PyFloat.nan
      else CNone
  end.

(** the row [r] with [y] in the place of its cell [j] *)
Definition with_cell (j : nat) (y : cell) (r : list cell) : list cell :=
  (firstn j r ++ y :: skipn (S j) r)%list.

(** the loop of [parse_columns], by the positions of the columns *)
Fixpoint parse_at (js : list nat) (rs : list (list cell)) : result (list (list cell)) :=
  match js with
  | [] => Ok rs
  | j :: js' =>
      col <- PnlSheets.apply_parse (column_at j rs) ;;
      parse_at js' (PnlSheets.set_column j col rs)
  end.

(** the rows [rs] are the rows [kept] with the columns at the positions
    [js] parsed *)
Definition cells_parsed (js : list nat) (kept rs : list (list cell)) : Prop :=
  List.length rs = List.length kept
  /\ forall i, (i < List.length kept)%nat ->
       List.length (nth i rs []) = List.length (nth i kept [])
       /\ forall k,
            nth k (nth i rs []) CNone
            = if existsb (Nat.eqb k) js
              then column_value (column_at k kept) (nth k (nth i kept []) CNone)
              else nth k (nth i kept []) CNone.

(** the positions of the numeric columns of a sheet of [ncols] columns:
    the months, and [Total] when there are 15 columns *)
Definition numeric_positions (ncols : Z) : list nat :=
  if ncols =? 15 then seq 2 13
  else if ncols =? 14 then seq 2 12
  else [].

(** the row of the wide frame made of the cells [r] and the flag [b] *)
Definition wide_row (scenario : string) (year : Z) (rb : list cell * bool)
  : PnlSheets.WideRow :=
  {| PnlSheets.cells := fst rb;
     PnlSheets.IsAccountRow := snd rb;
     PnlSheets.Scenario := scenario;
     PnlSheets.Year := year |}.

(** the flags of the rows kept: whether the first cell looks like an
    account code *)
Definition account_flags (kept : list (list cell)) : list bool :=
  map PnlSheets.looks_like_account_code (column_at 0 kept).

(** the row [r'] of the wide frame against the row [r] of the sheet,
    under the labels [names]: the cells of the numeric columns store
    what [parse_messy_number] gives, the other cells are the same *)
Definition row_parsed (names : list string) (r r' : list cell) : Prop :=
  List.length r' = List.length r
  /\ forall k, (k < List.length names)%nat ->
       if numeric_label (nth k names EmptyString)
       then stores (nth k r' CNone) (parsed (nth k r CNone))
       else nth k r' CNone = nth k r CNone.

(** the months that a sheet of [ncols] columns has *)
Definition months_of_width (ncols : Z) : list string :=
  if (ncols =? 14) || (ncols =? 15) then PnlSheets.MONTHS else [].

(** a sheet of 14 columns: a title, an account row, a blank row, a
    subtotal row and a second account row *)
Definition sample_sheet : RawGrid :=
  let missing := CFloat PyFloat.nan in
  [ CStr "Profit and Loss 2024" :: repeat missing 13;
    [CInt 4001; CStr "Revenue"; CStr "1,000"; CInt 2; CInt 3; CInt 4; CInt 5; CInt 6;
     CInt 7; CInt 8; CInt 9; CInt 10; CInt 11; CStr "-"];
    repeat missing 14;
    [missing; CStr "Total Revenue"; CInt 1000; CInt 2; CInt 3; CInt 4; CInt 5; CInt 6;
     CInt 7; CInt 8; CInt 9; CInt 10; CInt 11; missing];
    [CStr "5001"; CStr "Costs"; CStr "(500)"; CInt 2; CInt 3; CInt 4; CInt 5; CInt 6;
     CInt 7; CInt 8; CInt 9; CInt 10; CInt 11; CInt 12] ].

(** a character of the text of an integer: a digit or the minus sign *)
Definition is_int_char (c : ascii) : bool := PyStr.is_digit c || Ascii.eqb c "-".

(** the sign turned, when there is a value *)
Definition negated (v : option PyFloat.float) : option PyFloat.float :=
  option_map PyFloat.neg v.
(** * Proofs *)

(** splits the conjunctions of a goal and nothing else *)
Ltac conjuncts := repeat match goal with |- _ /\ _ => split end.

(** * Integers that fit a double *)

Section SmallIntegers.

Lemma digits2_pos_iter_xO (m k : positive) :
  digits2_pos (Pos.iter xO m k) = (digits2_pos m + k)%positive.
Proof.
  induction k as [| k IH] using Pos.peano_ind.
  - simpl. now rewrite Pos.add_1_r.
  - rewrite Pos.iter_succ. simpl. rewrite IH. lia.
Qed.

Lemma iter_xO_value (m k : positive) :
  Zpos (Pos.iter xO m k) = Zpos m * 2 ^ Zpos k.
Proof.
  change (Pos.iter xO m k) with (shift_pos k m).
  rewrite shift_pos_correct. change (Z.pow_pos 2 k) with (2 ^ Zpos k). lia.
Qed.

(** a mantissa of 53 bits with an exponent between -52 and 0 is left as
    it is by the rounding *)
Lemma binary_round_aux_exact (s : bool) (mz : positive) (ez : Z) :
  Zpos (digits2_pos mz) = 53 -> -52 <= ez <= 0 ->
  binary_round_aux 53 1024 s (Zpos mz) ez loc_Exact
  = S754_finite s mz ez.
Proof.
  intros Hd He.
  unfold binary_round_aux, shr_fexp.
  cbn [Zdigits2 shr_record_of_loc].
  rewrite Hd.
  assert (E : fexp 53 1024 (53 + ez) - ez = 0).
  { unfold fexp, emin. lia. }
  rewrite E. cbn [shr shr_m loc_of_shr_record round_nearest_even Zdigits2
                  shr_record_of_loc].
  rewrite Hd, E. cbn [shr shr_m].
  replace (ez <=? 1024 - 53) with true by lia. reflexivity.
Qed.

Lemma binary_round_small (s : bool) (m : positive) :
  Zpos (digits2_pos m) <= 53 ->
  exists mz ez,
    binary_round 53 1024 s m 0 = S754_finite s mz ez
    /\ -52 <= ez <= 0
    /\ Zpos mz = Zpos m * 2 ^ (- ez).
Proof.
  intros Hd.
  unfold binary_round, shl_align.
  assert (E : fexp 53 1024 (Zpos (digits2_pos m) + 0) - 0
              = Zpos (digits2_pos m) - 53).
  { unfold fexp, emin. lia. }
  rewrite E.
  destruct (Zpos (digits2_pos m) - 53) as [| p | k] eqn:Ek; [| lia |].
  - exists m, 0.
    rewrite (binary_round_aux_exact s m 0) by lia.
    split; [reflexivity | split; [lia | simpl; lia]].
  - assert (Efexp : fexp 53 1024 (Zpos (digits2_pos m) + 0) = Zneg k).
    { unfold fexp, emin. lia. }
    rewrite Efexp.
    exists (Pos.iter xO m k), (Zneg k).
    rewrite (binary_round_aux_exact s (Pos.iter xO m k) (Zneg k)).
    + split; [reflexivity | split; [lia |]].
      rewrite iter_xO_value. reflexivity.
    + rewrite digits2_pos_iter_xO. lia.
    + lia.
Qed.

Lemma digits2_pos_bound (m : positive) (k : Z) :
  0 <= k -> Zpos m < 2 ^ k -> Zpos (digits2_pos m) <= k.
Proof.
  revert k. induction m as [m IH | m IH |]; intros k Hk Hm; simpl.
  - assert (0 < k) by (destruct (Z.eq_dec k 0); [subst; simpl in Hm; lia | lia]).
    replace k with (Z.succ (k - 1)) in Hm by lia.
    rewrite Z.pow_succ_r in Hm by lia.
    specialize (IH (k - 1)). lia.
  - assert (0 < k) by (destruct (Z.eq_dec k 0); [subst; simpl in Hm; lia | lia]).
    replace k with (Z.succ (k - 1)) in Hm by lia.
    rewrite Z.pow_succ_r in Hm by lia.
    specialize (IH (k - 1)). lia.
  - destruct (Z.eq_dec k 0); [subst; simpl in Hm; lia | lia].
Qed.

(** An integer below 2^53 in magnitude converts to the float that
    denotes it. *)
Lemma float_of_int_small (n : Z) :
  Z.abs n < 2 ^ 53 ->
  exists f, PyFloat.float_of_int n = Ok f /\ PyFloat.exact_Z f = Some n.
Proof.
  intros Hn.
  unfold PyFloat.float_of_int, binary_normalize, PyFloat.prec, PyFloat.emax.
  destruct n as [| m | m].
  - exists (S754_zero false). split; reflexivity.
  - destruct (binary_round_small false m) as (mz & ez & -> & He & Hv).
    { apply digits2_pos_bound; lia. }
    exists (S754_finite false mz ez). split; [reflexivity |].
    unfold PyFloat.exact_Z.
    destruct (Z.eq_dec ez 0) as [-> | Hne].
    + simpl in Hv. replace (0 <=? 0) with true by reflexivity.
      f_equal. simpl. lia.
    + replace (0 <=? ez) with false by lia.
      rewrite Hv, Z.mod_mul by (apply Z.pow_nonzero; lia).
      simpl Z.eqb. cbv iota. f_equal.
      rewrite Z.div_mul by (apply Z.pow_nonzero; lia). lia.
  - destruct (binary_round_small true m) as (mz & ez & -> & He & Hv).
    { apply digits2_pos_bound; lia. }
    exists (S754_finite true mz ez). split; [reflexivity |].
    unfold PyFloat.exact_Z.
    destruct (Z.eq_dec ez 0) as [-> | Hne].
    + simpl in Hv. replace (0 <=? 0) with true by reflexivity.
      f_equal. simpl. lia.
    + replace (0 <=? ez) with false by lia.
      rewrite Hv, Z.mod_mul by (apply Z.pow_nonzero; lia).
      simpl Z.eqb. cbv iota. f_equal.
      rewrite Z.div_mul by (apply Z.pow_nonzero; lia). lia.
Qed.

Lemma in_float_range_small (n : Z) :
  Z.abs n < 2 ^ 53 -> in_float_range (CInt n) = true.
Proof.
  intros Hn. destruct (float_of_int_small n Hn) as (f & Hf & _).
  unfold in_float_range. now rewrite Hf.
Qed.

End SmallIntegers.
(** * Header detection *)

Section HeaderDetection.
Import Audit.

Lemma count_if_nonneg {A : Type} (p : A -> bool) (xs : list A) :
  0 <= count_if p xs.
Proof. unfold count_if. lia. Qed.

Lemma row_score_for_header_nonneg (vals : list string) :
  0 <= row_score_for_header vals.
Proof.
  unfold row_score_for_header.
  pose proof (count_if_nonneg (fun v => PyStr.mem v MONTH_NAMES)
                (map PyStr.upper vals)).
  repeat match goal with
         | |- context [if ?b then _ else _] => destruct b
         end; lia.
Qed.

Lemma insert_desc_not_nil (x : candidate) (l : list candidate) :
  insert_desc x l <> [].
Proof. destruct l as [| y l]; simpl; [| destruct (_ <=? _)]; discriminate. Qed.

Lemma sorted_desc_nil (l : list candidate) :
  sorted_desc l = [] -> l = [].
Proof.
  destruct l as [| x l]; simpl; intros H; [reflexivity |].
  now apply insert_desc_not_nil in H.
Qed.

(** The first element of the sorted list splits the input: strictly
    smaller scores before it, no larger score after it. *)
Lemma sorted_desc_head (l : list candidate) (c : candidate) (rest : list candidate) :
  sorted_desc l = c :: rest ->
  exists l1 l2,
    l = (l1 ++ c :: l2)%list
    /\ Forall (fun x => cand_score x < cand_score c) l1
    /\ Forall (fun x => cand_score x <= cand_score c) l2.
Proof.
  revert c rest.
  induction l as [| x l IH]; simpl; intros c rest H; [discriminate |].
  destruct (sorted_desc l) as [| y ys] eqn:E.
  - apply sorted_desc_nil in E. subst l. simpl in H.
    injection H as <- _.
    exists [], []. repeat split; constructor.
  - destruct (IH y ys eq_refl) as (l1 & l2 & -> & H1 & H2).
    simpl in H.
    destruct (cand_score y <=? cand_score x) eqn:Le.
    + injection H as <- _.
      apply Z.leb_le in Le.
      exists [], (l1 ++ y :: l2)%list. repeat split; [constructor |].
      apply Forall_app. split.
      * eapply Forall_impl; [| exact H1]. simpl. intros; lia.
      * constructor; [exact Le |].
        eapply Forall_impl; [| exact H2]. simpl. intros; lia.
    + injection H as <- _.
      apply Z.leb_gt in Le.
      exists (x :: l1), l2. repeat split; [| exact H2].
      constructor; assumption.
Qed.

(** What the scan collects: the rows of positive score, with their
    indices, in increasing order of index. *)
Lemma scan_rows_In (i0 : Z) (rs : list (list cell)) (c : candidate) :
  In c (scan_rows i0 rs) ->
  exists k, (k < List.length rs)%nat
            /\ cand_index c = i0 + Z.of_nat k
            /\ cand_score c = row_score (nth k rs [])
            /\ 0 < cand_score c.
Proof.
  revert i0.
  induction rs as [| row rs IH]; simpl; intros i0 H; [contradiction |].
  apply in_app_or in H. destruct H as [H | H].
  - destruct (row_score_for_header (map normalize_text row) >? 0) eqn:Pos;
      [| contradiction].
    destruct H as [<- | []].
    exists 0%nat. unfold cand_index, cand_score, row_score. simpl.
    repeat split; lia.
  - destruct (IH _ H) as (k & Hk & Hi & Hs & Hp).
    exists (S k). simpl. repeat split; try assumption; lia.
Qed.

Lemma scan_rows_complete (i0 : Z) (rs : list (list cell)) (k : nat) :
  (k < List.length rs)%nat ->
  0 < row_score (nth k rs []) ->
  exists c, In c (scan_rows i0 rs)
            /\ cand_index c = i0 + Z.of_nat k
            /\ cand_score c = row_score (nth k rs []).
Proof.
  revert i0 k.
  induction rs as [| row rs IH]; simpl; intros i0 k Hk Hpos; [lia |].
  destruct k as [| k].
  - unfold row_score in Hpos.
    assert (E : (row_score_for_header (map normalize_text row) >? 0) = true)
      by (apply Z.gtb_lt; lia).
    rewrite E. eexists. split; [left; reflexivity |].
    unfold cand_index, cand_score, row_score. simpl. split; [lia | reflexivity].
  - destruct (IH (i0 + 1) k) as (c & Hin & Hi & Hs); [lia | assumption |].
    exists c. split; [apply in_or_app; right; exact Hin |].
    split; [lia | exact Hs].
Qed.

Lemma scan_rows_sorted (i0 : Z) (rs : list (list cell)) :
  StronglySorted (fun a b => cand_index a < cand_index b) (scan_rows i0 rs).
Proof.
  revert i0.
  induction rs as [| row rs IH]; simpl; intros i0; [constructor |].
  destruct (row_score_for_header (map normalize_text row) >? 0); simpl.
  - constructor; [apply IH |].
    apply Forall_forall. intros c Hc.
    destruct (scan_rows_In _ _ _ Hc) as (k & _ & Hi & _).
    unfold cand_index at 1. simpl. lia.
  - apply IH.
Qed.

Lemma sorted_after {A : Type} (R : A -> A -> Prop) (l1 l2 : list A) (c : A) :
  StronglySorted R (l1 ++ c :: l2)%list ->
  Forall (fun x => R x c) l1 /\ Forall (R c) l2.
Proof.
  induction l1 as [| x l1 IH]; simpl; intros H.
  - apply StronglySorted_inv in H. split; [constructor | apply H].
  - apply StronglySorted_inv in H. destruct H as [Hs Hall].
    destruct (IH Hs) as [H1 H2]. split; [| exact H2].
    constructor; [| exact H1].
    rewrite Forall_forall in Hall. apply Hall.
    apply in_or_app. right. left. reflexivity.
Qed.

Lemma nth_firstn_below {A : Type} (n k : nat) (l : list A) (d : A) :
  (k < n)%nat -> nth k (firstn n l) d = nth k l d.
Proof.
  revert k l. induction n as [| n IH]; intros k l Hk; [lia |].
  destruct l as [| x l]; simpl; [now destruct k |].
  destruct k as [| k]; [reflexivity | apply IH; lia].
Qed.

End HeaderDetection.

(** C2. [detect_header_row] returns the index of a scanned row of
    maximal score, rows of score 0 not being candidates; among rows of
    equal maximal score it returns the smallest index; and when no
    scanned row scores above 0 it returns [None], the function having no
    error outcome at all. *)
Theorem detect_header_row_first_maximum (raw_df : RawGrid) (search_rows : Z) :
  match fst (Audit.detect_header_row raw_df search_rows) with
  | Some i =>
      scanned raw_df search_rows i
      /\ 0 < score_at raw_df i
      /\ (forall j, scanned raw_df search_rows j ->
                    score_at raw_df j <= score_at raw_df i)
      /\ (forall j, scanned raw_df search_rows j ->
                    score_at raw_df j = score_at raw_df i -> i <= j)
  | None =>
      forall j, scanned raw_df search_rows j -> score_at raw_df j = 0
  end.
Proof.
  unfold Audit.detect_header_row, scanned, score_at. simpl.
  set (n := Z.to_nat (Z.min search_rows (Z.of_nat (List.length raw_df)))).
  set (rs := firstn n raw_df).
  assert (Hlen : List.length rs = n).
  { unfold rs. rewrite length_firstn. unfold n. lia. }
  assert (Hnth : forall k, (k < n)%nat -> nth k rs [] = nth k raw_df []).
  { intros k Hk. unfold rs. now apply nth_firstn_below. }
  assert (Hn : forall j, 0 <= j < Z.min search_rows (Z.of_nat (List.length raw_df)) ->
                         (Z.to_nat j < n)%nat).
  { intros j Hj. unfold n. lia. }
  destruct (Audit.sorted_desc (Audit.scan_rows 0 rs)) as [| c rest] eqn:E.
  - (* no candidate *)
    apply sorted_desc_nil in E.
    intros j Hj.
    pose proof (row_score_for_header_nonneg
                  (map Audit.normalize_text (nth (Z.to_nat j) raw_df []))) as Hnn.
    fold (Audit.row_score (nth (Z.to_nat j) raw_df [])) in Hnn.
    destruct (Z.eq_dec (Audit.row_score (nth (Z.to_nat j) raw_df [])) 0) as [|Hne];
      [assumption | exfalso].
    destruct (scan_rows_complete 0 rs (Z.to_nat j)) as (c & Hin & _).
    + rewrite Hlen. now apply Hn.
    + rewrite Hnth by now apply Hn. lia.
    + rewrite E in Hin. contradiction.
  - destruct (sorted_desc_head _ _ _ E) as (l1 & l2 & Hsplit & Hlt & Hle).
    pose proof (scan_rows_sorted 0 rs) as Hsorted.
    rewrite Hsplit in Hsorted.
    destruct (sorted_after _ _ _ _ Hsorted) as [Hbefore Hafter].
    assert (Hc : In c (Audit.scan_rows 0 rs)).
    { rewrite Hsplit. apply in_or_app. right. left. reflexivity. }
    destruct (scan_rows_In _ _ _ Hc) as (k & Hk & Hi & Hs & Hp).
    rewrite Hlen in Hk. rewrite Hnth in Hs by assumption.
    assert (Hik : Z.to_nat (Audit.cand_index c) = k) by lia.
    rewrite Hik, <- Hs.
    (* every scanned row of positive score is a candidate *)
    assert (Hcand : forall j,
               0 <= j < Z.min search_rows (Z.of_nat (List.length raw_df)) ->
               0 < Audit.row_score (nth (Z.to_nat j) raw_df []) ->
               exists c', In c' (l1 ++ c :: l2)%list
                          /\ Audit.cand_index c' = j
                          /\ Audit.cand_score c' =
                               Audit.row_score (nth (Z.to_nat j) raw_df [])).
    { intros j Hj Hpos.
      destruct (scan_rows_complete 0 rs (Z.to_nat j)) as (c' & Hin & Hi' & Hs').
      - rewrite Hlen. now apply Hn.
      - rewrite Hnth by now apply Hn. exact Hpos.
      - exists c'. rewrite <- Hsplit. split; [exact Hin |].
        rewrite Hnth in Hs' by now apply Hn. split; [lia | exact Hs']. }
    rewrite Forall_forall in Hlt, Hle, Hbefore, Hafter.
    repeat split.
    + lia.
    + unfold n in Hk. lia.
    + exact Hp.
    + intros j Hj.
      destruct (Z_lt_le_dec 0 (Audit.row_score (nth (Z.to_nat j) raw_df [])))
        as [Hpos | Hnp]; [| lia].
      destruct (Hcand j Hj Hpos) as (c' & Hin & _ & Hs').
      rewrite <- Hs'.
      apply in_app_or in Hin. destruct Hin as [Hin | [-> | Hin]].
      * specialize (Hlt _ Hin). lia.
      * lia.
      * exact (Hle _ Hin).
    + intros j Hj Heq.
      destruct (Hcand j Hj) as (c' & Hin & Hi' & Hs'); [lia |].
      apply in_app_or in Hin. destruct Hin as [Hin | [-> | Hin]].
      * specialize (Hlt _ Hin). lia.
      * lia.
      * specialize (Hafter _ Hin). lia.
Qed.

(** * Numeric parsing *)

Section NumericParsing.

Lemma any_char_remove_self (c : ascii) (s : string) :
  PyStr.any_char (fun a => Ascii.eqb a c) (PyStr.remove_char c s) = false.
Proof.
  induction s as [| a s IH]; simpl; [reflexivity |].
  destruct (Ascii.eqb a c) eqn:E; [exact IH |].
  simpl. rewrite IH, E. reflexivity.
Qed.

Lemma any_char_remove (p : ascii -> bool) (c : ascii) (s : string) :
  PyStr.any_char p s = false ->
  PyStr.any_char p (PyStr.remove_char c s) = false.
Proof.
  induction s as [| a s IH]; simpl; [reflexivity |].
  intros H. apply orb_false_iff in H. destruct H as [Ha Hs].
  destruct (Ascii.eqb a c); [now apply IH |].
  simpl. rewrite Ha. now apply IH.
Qed.

Lemma any_char_lstrip (p q : ascii -> bool) (s : string) :
  PyStr.any_char p s = false ->
  PyStr.any_char p (PyStr.lstrip_by q s) = false.
Proof.
  induction s as [| a s IH]; simpl; [reflexivity |].
  intros H. destruct (q a); [| exact H].
  apply orb_false_iff in H. now apply IH.
Qed.

Lemma any_char_rstrip (p q : ascii -> bool) (s : string) :
  PyStr.any_char p s = false ->
  PyStr.any_char p (PyStr.rstrip_by q s) = false.
Proof.
  induction s as [| a s IH]; simpl; [reflexivity |].
  intros H. apply orb_false_iff in H. destruct H as [Ha Hs].
  specialize (IH Hs).
  destruct (PyStr.rstrip_by q s) as [| b r].
  - destruct (q a); simpl; [reflexivity | now rewrite Ha].
  - simpl. rewrite Ha. exact IH.
Qed.

Lemma any_char_strip (p : ascii -> bool) (s : string) :
  PyStr.any_char p s = false -> PyStr.any_char p (PyStr.strip s) = false.
Proof.
  intros H. unfold PyStr.strip. now apply any_char_rstrip, any_char_lstrip.
Qed.

Lemma any_char_or (p q : ascii -> bool) (s : string) :
  PyStr.any_char (fun c => p c || q c) s
  = PyStr.any_char p s || PyStr.any_char q s.
Proof.
  induction s as [| a s IH]; simpl; [reflexivity |].
  rewrite IH. destruct (p a), (q a); simpl; try reflexivity.
  - now rewrite orb_true_r.
Qed.

(** No parenthesis is left in the text handed to [float()]. *)
Lemma numeric_token_no_paren (s : string) :
  PyStr.any_char is_paren (numeric_token s) = false.
Proof.
  unfold numeric_token, is_paren.
  apply any_char_strip, any_char_remove.
  rewrite any_char_or. apply orb_false_iff. split.
  - apply any_char_remove, any_char_remove_self.
  - apply any_char_remove_self.
Qed.

End NumericParsing.

(** C5. [parse_messy_number] maps the text [12,345] to the float 12345.0,
    the text [(2,119,020)] to -2119020.0, the text [-] and the empty text
    to the absence marker, and the integer 42 to the float 42.0. *)
Theorem parse_messy_number_examples :
  is_float_of (parse_messy_number (CStr "12,345")) 12345
  /\ is_float_of (parse_messy_number (CStr "(2,119,020)")) (-2119020)
  /\ parse_messy_number (CStr "-") = Ok None
  /\ parse_messy_number (CStr EmptyString) = Ok None
  /\ is_float_of (parse_messy_number (CInt 42)) 42.
Proof.
  repeat split;
    try (eexists; split; [vm_compute; reflexivity | split; vm_compute; reflexivity]);
    vm_compute; reflexivity.
Qed.

(** C6, as stated, fails: the text [inf] is parsed to an infinite float,
    which is neither a finite value nor the absence marker. *)
Lemma parse_messy_number_inf_not_finite :
  ~ finite_or_absent (parse_messy_number (CStr "inf")).
Proof.
  intros [H | (f & H & Hfin)]; vm_compute in H.
  - discriminate.
  - injection H as <-. discriminate.
Qed.

(** C6, amended. On every cell other than an integer beyond the range of
    a double, [parse_messy_number] returns, without raising, a float or
    the absence marker; and a text whose normalised token is not accepted
    by [float()] yields the absence marker.  The float need not be
    finite: the texts [1e999] and [nan] yield an infinity and NaN. *)
Theorem parse_messy_number_total (x : cell) :
  in_float_range x = true ->
  (exists r, parse_messy_number x = Ok r
             /\ (forall s, x = CStr s ->
                   PyFloat.float_of_string (numeric_token (PyStr.strip s)) = None ->
                   r = None))
  /\ parse_messy_number (CStr "1e999") = Ok (Some (S754_infinity false))
  /\ parse_messy_number (CStr "nan") = Ok (Some S754_nan).
Proof.
  intros Hrange.
  split; [| split; vm_compute; reflexivity].
  destruct x as [| b | n | f | s].
  - exists None. split; [reflexivity | discriminate].
  - destruct b; eexists; (split; [vm_compute; reflexivity | discriminate]).
  - cbv beta iota delta [in_float_range] in Hrange.
    cbv beta iota delta [parse_messy_number is_none_or_nan bind].
    destruct (PyFloat.float_of_int n) as [f | e]; [| discriminate].
    eexists. split; [reflexivity | discriminate].
  - cbv beta iota delta [parse_messy_number is_none_or_nan].
    destruct (PyFloat.isnan f); eexists; (split; [reflexivity | discriminate]).
  - cbv beta iota zeta delta [parse_messy_number is_none_or_nan py_str].
    destruct (PyStr.mem (PyStr.strip s) [EmptyString; "-"]).
    + eexists. split; [reflexivity | reflexivity].
    + destruct (PyFloat.float_of_string (numeric_token (PyStr.strip s))) as [v |] eqn:E.
      * eexists. split; [reflexivity |].
        intros s' Hs' Hnone. injection Hs' as <-. rewrite E in Hnone. discriminate.
      * eexists. split; [reflexivity | reflexivity].
Qed.

Lemma parse_messy_number_total_witness :
  in_float_range (CInt 42) = true
  /\ exists r, parse_messy_number (CInt 42) = Ok r
               /\ (forall s, CInt 42 = CStr s ->
                     PyFloat.float_of_string (numeric_token (PyStr.strip s)) = None ->
                     r = None).
Proof.
  split; [reflexivity |].
  apply (proj1 (parse_messy_number_total (CInt 42) eq_refl)).
Defined.

(** C10, as stated, fails: the text [((1,234)] has unbalanced
    parentheses, one of them elsewhere than at the two ends, and its
    value is negated. *)
Lemma parse_messy_number_unbalanced_negated :
  unbalanced_parens "((1,234)" = true
  /\ is_float_of (parse_messy_number (CStr "((1,234)")) (-1234).
Proof.
  split; [reflexivity |].
  eexists; split; [vm_compute; reflexivity | split; vm_compute; reflexivity].
Qed.

(** C10, amended. For every text that, once trimmed, is neither empty nor
    a lone dash and does not both start with an opening and end with a
    closing parenthesis, [parse_messy_number] removes every parenthesis
    and returns what [float()] reads in the remaining token, without
    negation; the text [(1,234] yields 1234.0. *)
Theorem parse_messy_number_unwrapped (s : string) :
  PyStr.mem (PyStr.strip s) [EmptyString; "-"] = false ->
  PyStr.startswith "(" (PyStr.strip s) && PyStr.endswith_char ")" (PyStr.strip s)
    = false ->
  parse_messy_number (CStr s)
    = Ok (PyFloat.float_of_string (numeric_token (PyStr.strip s)))
  /\ PyStr.any_char is_paren (numeric_token (PyStr.strip s)) = false
  /\ is_float_of (parse_messy_number (CStr "(1,234")) 1234.
Proof.
  intros Hmem Hwrap. split; [| split].
  - cbv beta iota zeta delta [parse_messy_number is_none_or_nan py_str].
    rewrite Hmem, Hwrap.
    now destruct (PyFloat.float_of_string _).
  - apply numeric_token_no_paren.
  - eexists; split; [vm_compute; reflexivity | split; vm_compute; reflexivity].
Qed.

Lemma parse_messy_number_unwrapped_witness :
  parse_messy_number (CStr "(1,234")
    = Ok (PyFloat.float_of_string (numeric_token (PyStr.strip "(1,234")))
  /\ PyStr.any_char is_paren (numeric_token (PyStr.strip "(1,234")) = false
  /\ is_float_of (parse_messy_number (CStr "(1,234")) 1234.
Proof.
  apply (parse_messy_number_unwrapped "(1,234"); reflexivity.
Defined.

(** * Row-type counts *)

Section RowTypes.
Import Audit.

Lemma count_true_nonneg (bs : list bool) : 0 <= count_true bs.
Proof. unfold count_true, count_if. lia. Qed.

Lemma count_true_cons (b : bool) (bs : list bool) :
  count_true (b :: bs) = (if b then 1 else 0) + count_true bs.
Proof.
  unfold count_true, count_if. cbn [filter].
  destruct b; cbn [List.length]; lia.
Qed.

(** a row is an account row or it is not *)
Lemma count_true_negb (bs : list bool) :
  count_true bs + count_true (map negb bs) = Z.of_nat (List.length bs).
Proof.
  induction bs as [| b bs IH]; [reflexivity |].
  simpl map. rewrite !count_true_cons. simpl List.length.
  destruct b; simpl negb; lia.
Qed.

(** rows counted under a condition that excludes account rows are
    among the rows that are not account rows *)
Lemma count_true_below (f : bool * string -> bool) (bs : list bool) (ls : list string) :
  (forall l, f (true, l) = false) ->
  count_true (map f (combine bs ls)) <= count_true (map negb bs).
Proof.
  intros Hf. revert ls.
  induction bs as [| b bs IH]; intros ls; [reflexivity |].
  destruct ls as [| l ls].
  - simpl combine. simpl map at 1.
    pose proof (count_true_nonneg (map negb (b :: bs))).
    unfold count_true at 1, count_if. cbn [filter List.length]. lia.
  - simpl combine. simpl map. rewrite !count_true_cons.
    specialize (IH ls).
    destruct b; simpl negb; [rewrite Hf; lia |].
    destruct (f (false, l)); lia.
Qed.

Lemma stripped_column_length (df : DataFrame) (c : string) (col : list string) :
  stripped_column df c = Ok col -> List.length col = List.length (rows df).
Proof.
  unfold stripped_column, getitem.
  destruct (positions_from 0 c (columns df)) as [| j [| j' js]]; simpl;
    intros H; try discriminate.
  injection H as <-. unfold column_at. now rewrite !length_map.
Qed.

End RowTypes.

(** C4, as stated, fails: on a table of one row, neither an account row
    nor a subtotal, whose line item is in capitals, the four counts add
    up to 2. *)
Lemma row_type_counts_not_partition :
  exists c,
    Audit.detect_pnl_row_types
      {| columns := ["Account"; "Line Item"];
         rows := [[CStr "x"; CStr "REVENUE"]] |} "Account" "Line Item" = Ok c
    /\ Audit.rows_account c + Audit.rows_section_headers c
       + Audit.rows_subtotals c + Audit.rows_other_nonaccount c
       <> Audit.rows_total c.
Proof. eexists. split; [vm_compute; reflexivity | vm_compute; discriminate]. Qed.

(** C4, amended. Whenever [detect_pnl_row_types] returns its counts, the
    account rows and the rows counted as [rows_other_nonaccount] add up
    to the total; the section-header count and the subtotal count are
    each taken among the rows that are not account rows, whose number
    [rows_other_nonaccount] is. *)
Theorem row_type_counts_account_split
    (df : DataFrame) (account_col line_col : string) (c : Audit.row_type_counts) :
  Audit.detect_pnl_row_types df account_col line_col = Ok c ->
  Audit.rows_account c + Audit.rows_other_nonaccount c = Audit.rows_total c
  /\ 0 <= Audit.rows_section_headers c <= Audit.rows_other_nonaccount c
  /\ 0 <= Audit.rows_subtotals c <= Audit.rows_other_nonaccount c.
Proof.
  unfold Audit.detect_pnl_row_types.
  destruct (Audit.stripped_column df account_col) as [acc | e] eqn:Ea;
    [| discriminate].
  destruct (Audit.stripped_column df line_col) as [line | e] eqn:El;
    [| discriminate].
  cbv beta iota zeta delta [bind]. intros H. injection H as <-.
  cbn [Audit.rows_account Audit.rows_other_nonaccount Audit.rows_total
       Audit.rows_section_headers Audit.rows_subtotals].
  apply stripped_column_length in Ea.
  split; [| split].
  - rewrite count_true_negb, length_map. now rewrite Ea.
  - split; [apply count_true_nonneg |].
    apply count_true_below. reflexivity.
  - split; [apply count_true_nonneg |].
    apply count_true_below. reflexivity.
Qed.

Lemma row_type_counts_account_split_witness :
  let df := {| columns := ["Account"; "Line Item"];
               rows := [[CInt 4001; CStr "Revenue - Core"];
                        [CStr "x"; CStr "REVENUE"];
                        [CNone; CStr "Total Revenue"]] |} in
  let c := {| Audit.rows_total := 3; Audit.rows_account := 1;
              Audit.rows_section_headers := 1; Audit.rows_subtotals := 1;
              Audit.rows_other_nonaccount := 2 |} in
  Audit.detect_pnl_row_types df "Account" "Line Item" = Ok c
  /\ Audit.rows_account c + Audit.rows_other_nonaccount c = Audit.rows_total c
  /\ 0 <= Audit.rows_section_headers c <= Audit.rows_other_nonaccount c
  /\ 0 <= Audit.rows_subtotals c <= Audit.rows_other_nonaccount c.
Proof.
  intros df c.
  split; [vm_compute; reflexivity |].
  apply (row_type_counts_account_split df "Account" "Line Item" c).
  vm_compute; reflexivity.
Defined.

(** * Table extraction *)

Section Extraction.
Import Audit.

Lemma positions_from_notin (j0 : nat) (c : string) (ls : list string) :
  ~ In c ls -> positions_from j0 c ls = [].
Proof.
  revert j0. induction ls as [| l ls IH]; intros j0 Hnot; [reflexivity |].
  simpl. destruct (String.eqb_spec l c) as [-> | Hne].
  - exfalso. apply Hnot. now left.
  - apply IH. intros Hin. apply Hnot. now right.
Qed.

(** a label that is not repeated is found at its one position *)
Lemma positions_from_nodup (j0 j : nat) (ls : list string) (d : string) :
  NoDup ls -> (j < List.length ls)%nat ->
  positions_from j0 (nth j ls d) ls = [(j0 + j)%nat].
Proof.
  intros Hnd. revert j0 j.
  induction Hnd as [| l ls Hnot Hnd IH]; intros j0 j Hj; simpl in Hj; [lia |].
  destruct j as [| j]; simpl.
  - rewrite String.eqb_refl, positions_from_notin by assumption.
    simpl. f_equal. lia.
  - destruct (String.eqb_spec l (nth j ls d)) as [E | _].
    + exfalso. apply Hnot. rewrite E. apply nth_In. lia.
    + simpl. rewrite IH by lia. f_equal. lia.
Qed.

Lemma filterM_select {A : Type} (p : A -> result bool) (xs : list A) (bs : list bool) :
  Forall2 (fun x b => p x = Ok b) xs bs ->
  filterM p xs = Ok (select bs xs).
Proof.
  induction 1 as [| x b xs bs Hx _ IH]; simpl; [reflexivity |].
  rewrite Hx. simpl. rewrite IH. simpl. reflexivity.
Qed.

Lemma Forall2_by_position {A B : Type} (R : A -> B -> Prop) (d : A)
      (q : nat -> B) (xs : list A) (j0 : nat) :
  (forall j, (j < List.length xs)%nat -> R (nth j xs d) (q (j0 + j)%nat)) ->
  Forall2 R xs (map q (seq j0 (List.length xs))).
Proof.
  revert j0. induction xs as [| x xs IH]; intros j0 H; simpl; [constructor |].
  constructor.
  - specialize (H 0%nat). simpl in H. rewrite Nat.add_0_r in H. apply H. lia.
  - apply IH. intros j Hj. specialize (H (S j)). simpl in H.
    rewrite Nat.add_succ_r in H. apply H. lia.
Qed.

Lemma select_In {A : Type} (bs : list bool) (xs : list A) (x : A) :
  In x (select bs xs) -> In x xs.
Proof.
  revert xs. induction bs as [| b bs IH]; intros [| y xs]; simpl; try tauto.
  destruct b; simpl; intros H.
  - destruct H as [-> | H]; [now left | right; now apply IH].
  - right. now apply IH.
Qed.

Lemma mem_In (c : string) (ls : list string) :
  PyStr.mem c ls = true <-> In c ls.
Proof.
  unfold PyStr.mem. rewrite existsb_exists. split.
  - intros (x & Hin & E). apply String.eqb_eq in E. now subst.
  - intros Hin. exists c. split; [exact Hin | apply String.eqb_refl].
Qed.

(** among labels that are not repeated, the selected ones are those
    the mask marks *)
Lemma mem_select_nodup (ls : list string) (bs : list bool) :
  NoDup ls -> List.length bs = List.length ls ->
  map (fun c => PyStr.mem c (select bs ls)) ls = bs.
Proof.
  intros Hnd. revert bs.
  induction Hnd as [| l ls Hnot Hnd IH]; intros [| b bs] Hlen;
    simpl in Hlen; try discriminate; [reflexivity |].
  injection Hlen as Hlen.
  cbn [map select]. f_equal.
  - destruct b.
    + unfold PyStr.mem. simpl. now rewrite String.eqb_refl.
    + destruct (PyStr.mem l (select bs ls)) eqn:E; [| reflexivity].
      exfalso. apply Hnot. apply mem_In in E. eapply select_In, E.
  - transitivity (map (fun c => PyStr.mem c (select bs ls)) ls);
      [| now apply IH].
    apply map_ext_in. intros c Hc.
    destruct b; [| reflexivity].
    unfold PyStr.mem. simpl.
    destruct (String.eqb_spec c l) as [-> | _]; [contradiction | reflexivity].
Qed.

Lemma select_all_true {A : Type} (n : nat) (xs : list A) :
  (List.length xs <= n)%nat -> select (repeat true n) xs = xs.
Proof.
  revert xs. induction n as [| n IH]; intros [| x xs] H; simpl in *;
    try reflexivity; [lia |].
  f_equal. apply IH. lia.
Qed.

Lemma select_all_false {A : Type} (n : nat) (xs : list A) :
  select (repeat false n) xs = [].
Proof.
  revert xs. induction n as [| n IH]; intros [| x xs]; simpl; auto.
Qed.

Lemma drop_columns_nil (df : DataFrame) :
  rectangular df -> drop_columns [] df = df.
Proof.
  intros Hrect. destruct df as [ls rs]. unfold drop_columns, rectangular in *.
  simpl in *. rewrite map_const. f_equal.
  - apply select_all_true. lia.
  - rewrite <- (map_id rs) at 2. apply map_ext_in. intros r Hr.
    rewrite Forall_forall in Hrect. apply select_all_true.
    rewrite (Hrect r Hr). lia.
Qed.

Lemma rectangular_dropna (df : DataFrame) :
  rectangular df -> rectangular (dropna_all df).
Proof.
  unfold rectangular, dropna_all. simpl. rewrite !Forall_forall.
  intros H r Hr. apply filter_In in Hr. now apply H.
Qed.

(** What the removal of blank rows and columns computes when no label
    is repeated: the rows that have a value, cut down to the columns
    that are not blank over those rows. *)
Lemma remove_blank_spec (df : DataFrame) :
  NoDup (columns df) -> rectangular df ->
  remove_blank df
  = Ok {| columns := select (keep_mask df) (columns df);
          rows := map (select (keep_mask df)) (filter has_value (rows df)) |}.
Proof.
  intros Hnd Hrect.
  unfold remove_blank.
  set (kept := filter has_value (rows df)).
  set (bmask := map (fun j => blank_column (column_at j kept))
                    (seq 0 (List.length (columns df)))).
  assert (Hsel : filterM (fun c => col <- getitem (dropna_all df) c ;; is_blank_col col)
                         (columns (dropna_all df))
                 = Ok (select bmask (columns df))).
  { apply filterM_select. unfold bmask. simpl columns.
    apply (Forall2_by_position _ EmptyString). intros j Hj.
    unfold getitem. simpl columns.
    rewrite (positions_from_nodup 0 j) by assumption. reflexivity. }
  rewrite Hsel. cbn [bind].
  assert (Hmask : keep_mask df = map negb bmask).
  { unfold keep_mask, bmask. now rewrite map_map. }
  assert (Hdrop : drop_columns (select bmask (columns df)) (dropna_all df)
                  = {| columns := select (keep_mask df) (columns df);
                       rows := map (select (keep_mask df)) kept |}).
  { unfold drop_columns. simpl columns. simpl rows.
    replace (map (fun c => negb (PyStr.mem c (select bmask (columns df)))) (columns df))
      with (map negb (map (fun c => PyStr.mem c (select bmask (columns df))) (columns df)))
      by now rewrite map_map.
    rewrite mem_select_nodup; [now rewrite Hmask | assumption |].
    unfold bmask. now rewrite length_map, length_seq. }
  destruct (select bmask (columns df)) eqn:E.
  - rewrite <- Hdrop. f_equal. symmetry. apply drop_columns_nil.
    now apply rectangular_dropna.
  - now rewrite Hdrop.
Qed.

Lemma iloc_row_valid (raw_df : RawGrid) (h : Z) :
  0 <= h < Z.of_nat (List.length raw_df) ->
  iloc_row raw_df h = Ok (nth (Z.to_nat h) raw_df []).
Proof.
  intros Hh. unfold iloc_row.
  replace (h <? - Z.of_nat (List.length raw_df)) with false by lia.
  replace (Z.of_nat (List.length raw_df) <=? h) with false by lia.
  replace (h <? 0) with false by lia. reflexivity.
Qed.

Lemma slice_from_nonneg {A : Type} (start : Z) (xs : list A) :
  0 <= start -> slice_from start xs = skipn (Z.to_nat start) xs.
Proof.
  intros H. unfold slice_from. now replace (start <? 0) with false by lia.
Qed.

End Extraction.

(** * Sheet selection *)

Section SheetSelection.
Import PnlSheets.

Lemma take_spec (n : nat) (s p r : string) :
  take n s = Some (p, r) -> s = p ++ r /\ String.length p = n.
Proof.
  revert s p r. induction n as [| n IH]; intros s p r H; simpl in H.
  - injection H as <- <-. split; reflexivity.
  - destruct s as [| c s]; [discriminate |].
    destruct (take n s) as [[p' r'] |] eqn:E; [| discriminate].
    injection H as <- <-. destruct (IH _ _ _ E) as [-> <-].
    split; reflexivity.
Qed.


Lemma lstrip_split (p : ascii -> bool) (s : string) :
  exists ws, s = ws ++ PyStr.lstrip_by p s /\ PyStr.all_chars p ws = true.
Proof.
  induction s as [| c s (ws & Hs & Hws)]; simpl.
  - exists EmptyString. split; reflexivity.
  - destruct (p c) eqn:E.
    + exists (String c ws). simpl. rewrite E, Hws. split; [now f_equal | reflexivity].
    + exists EmptyString. split; reflexivity.
Qed.


Lemma m_spaces_spec (s r : string) :
  m_spaces s = Some r -> exists ws, s = ws ++ r /\ blank_run ws.
Proof.
  unfold m_spaces. destruct s as [| c s]; [discriminate |].
  destruct (PyStr.is_space c) eqn:E; [| discriminate].
  intros H. injection H as <-.
  destruct (lstrip_split PyStr.is_space s) as (ws & Hs & Hws).
  exists (String c ws). split; [simpl; now f_equal |].
  split; [discriminate | simpl; now rewrite E, Hws].
Qed.




Lemma digit_not_space (c : ascii) :
  PyStr.is_digit c = true -> PyStr.is_space c = false.
Proof. destruct c as [[] [] [] [] [] [] [] []]; vm_compute; congruence. Qed.



Lemma append_nil_r (a : string) : a ++ EmptyString = a.
Proof. induction a as [| x a IH]; simpl; [reflexivity | now rewrite IH]. Qed.


(** what a match of the pattern says about the text *)
Lemma pat_match_sound (t g1 g2 : string) :
  pat_match t = Some (g1, g2) ->
  exists ws1 pl ws2 tl,
    t = g1 ++ ws1 ++ pl ++ ws2 ++ g2 ++ tl
    /\ (PyStr.lower g1 = "actual" \/ PyStr.lower g1 = "budget")
    /\ blank_run ws1
    /\ PyStr.lower pl = "p&l"
    /\ blank_run ws2
    /\ String.length g2 = 4%nat
    /\ PyStr.all_chars PyStr.is_digit g2 = true
    /\ m_end tl = true.
Proof.
  unfold pat_match, m_scenario, m_pnl, m_year.
  destruct (take 6 t) as [[ga r1] |] eqn:E1; [| discriminate].
  destruct (PyStr.mem (PyStr.lower ga) ["actual"; "budget"]) eqn:Hg; [| discriminate].
  destruct (m_spaces r1) as [r2 |] eqn:E2; [| discriminate].
  destruct (take 3 r2) as [[pl r3] |] eqn:E3; [| discriminate].
  destruct (String.eqb (PyStr.lower pl) "p&l") eqn:Hpl; [| discriminate].
  destruct (m_spaces r3) as [r4 |] eqn:E4; [| discriminate].
  destruct (take 4 r4) as [[gb r5] |] eqn:E5; [| discriminate].
  destruct (PyStr.all_chars PyStr.is_digit gb) eqn:Hd; [| discriminate].
  destruct (m_end r5) eqn:He; [| discriminate].
  intros H. injection H as <- <-.
  apply take_spec in E1, E3, E5.
  destruct E1 as [-> _], E3 as [-> _], E5 as [-> Hlen].
  apply m_spaces_spec in E2, E4.
  destruct E2 as (ws1 & -> & Hws1), E4 as (ws2 & -> & Hws2).
  exists ws1, pl, ws2, r5. conjuncts; try assumption.
  - reflexivity.
  - apply mem_In in Hg. simpl in Hg. intuition.
  - now apply String.eqb_eq.
Qed.













End SheetSelection.



(** * Blank cells *)

Section BlankCells.

Lemma any_char_app (p : ascii -> bool) (a b : string) :
  PyStr.any_char p (a ++ b) = PyStr.any_char p a || PyStr.any_char p b.
Proof.
  induction a as [| c a IH]; simpl; [reflexivity |].
  now rewrite IH, orb_assoc.
Qed.

Lemma rstrip_cons_outside (p : ascii -> bool) (c : ascii) (s : string) :
  p c = false -> PyStr.rstrip_by p (String c s) <> EmptyString.
Proof.
  intros Hc. simpl. destruct (PyStr.rstrip_by p s); [rewrite Hc |]; discriminate.
Qed.

(** a text with a character that is not white space does not strip to
    the empty text *)
Lemma strip_nonblank (s : string) :
  PyStr.any_char (fun c => negb (PyStr.is_space c)) s = true ->
  PyStr.strip s <> EmptyString.
Proof.
  unfold PyStr.strip. induction s as [| c s IH]; simpl; [discriminate |].
  destruct (PyStr.is_space c) eqn:E; simpl; intros H.
  - now apply IH.
  - fold (PyStr.rstrip_by PyStr.is_space (String c s)).
    now apply rstrip_cons_outside.
Qed.

Lemma rstrip_all (p : ascii -> bool) (s : string) :
  PyStr.all_chars p s = true -> PyStr.rstrip_by p s = EmptyString.
Proof.
  induction s as [| c s IH]; simpl; [reflexivity |].
  intros H. apply andb_prop in H. destruct H as [Hc Hs].
  now rewrite IH, Hc.
Qed.

(** a text strips to the empty text exactly when it is made of white
    space *)
Lemma strip_empty_iff (s : string) :
  PyStr.strip s = EmptyString <-> PyStr.all_chars PyStr.is_space s = true.
Proof.
  split.
  - intros H. induction s as [| c s IH]; [reflexivity |].
    simpl. destruct (PyStr.is_space c) eqn:E.
    + simpl. apply IH. unfold PyStr.strip in *. simpl in H. now rewrite E in H.
    + exfalso. revert H. apply strip_nonblank. simpl. now rewrite E.
  - intros H. unfold PyStr.strip.
    destruct (lstrip_split PyStr.is_space s) as (ws & Hs & Hws).
    apply rstrip_all.
    clear ws Hs Hws. induction s as [| c s IH]; [reflexivity |].
    simpl in *. apply andb_prop in H. destruct H as [Hc Hs].
    rewrite Hc. now apply IH.
Qed.

Lemma uint_text_head (d : Decimal.uint) :
  d <> Decimal.Nil ->
  exists c r, NilEmpty.string_of_uint d = String c r /\ PyStr.is_space c = false.
Proof.
  destruct d; intros H; try contradiction; simpl; eexists; eexists;
    (split; [reflexivity | reflexivity]).
Qed.

(** the text of an integer is not blank *)
Lemma str_of_int_nonblank (n : Z) :
  PyStr.strip (str_of_int n) <> EmptyString.
Proof.
  apply strip_nonblank. unfold str_of_int.
  assert (Hu : forall d, PyStr.any_char (fun c => negb (PyStr.is_space c))
                           (NilZero.string_of_uint d) = true).
  { intros d. unfold NilZero.string_of_uint.
    destruct d; try reflexivity;
      simpl; reflexivity. }
  unfold NilZero.string_of_int.
  destruct (Z.to_int n) as [d | d]; [apply Hu | reflexivity].
Qed.

(** the text of a float has a point, an exponent mark or letters *)
Lemma format_digits_nonblank (d k : Z) :
  PyStr.any_char (fun c => negb (PyStr.is_space c)) (PyFloat.format_digits d k) = true.
Proof.
  unfold PyFloat.format_digits.
  repeat match goal with
         | |- context [if ?b then _ else _] => destruct b
         end;
    rewrite ?any_char_app; simpl; rewrite ?orb_true_r; reflexivity.
Qed.

Lemma float_repr_nonblank (f : PyFloat.float) :
  PyStr.strip (PyFloat.float_repr f) <> EmptyString.
Proof.
  apply strip_nonblank. destruct f as [s | s | | s m e]; simpl.
  - now destruct s.
  - now destruct s.
  - reflexivity.
  - destruct (PyFloat.shortest m e) as [d k].
    rewrite any_char_app, format_digits_nonblank. apply orb_true_r.
Qed.

(** Only a text cell made of white space, or empty, counts as blank
    text. *)
Lemma blank_text_iff (x : cell) :
  Audit.blank_text x = true
  <-> exists s, x = CStr s /\ PyStr.all_chars PyStr.is_space s = true.
Proof.
  unfold Audit.blank_text. rewrite String.eqb_eq. split.
  - intros H. destruct x as [| b | n | f | s].
    + vm_compute in H. discriminate.
    + destruct b; vm_compute in H; discriminate.
    + now apply str_of_int_nonblank in H.
    + now apply float_repr_nonblank in H.
    + exists s. split; [reflexivity | now apply strip_empty_iff].
  - intros (s & -> & Hs). now apply strip_empty_iff.
Qed.

Lemma has_value_iff (r : list cell) :
  has_value r = true <-> exists x, In x r /\ isna x = false.
Proof.
  unfold has_value. rewrite existsb_exists. split.
  - intros (x & Hin & Hx). exists x. split; [exact Hin |].
    now apply negb_true_iff.
  - intros (x & Hin & Hx). exists x. split; [exact Hin |].
    now apply negb_true_iff.
Qed.

(** A column is blank when all of its cells are missing, or when all of
    them are texts of white space; not when it mixes the two. *)
Lemma blank_column_iff (col : list cell) :
  blank_column col = true
  <-> Forall (fun x => isna x = true) col
      \/ Forall (fun x => exists s, x = CStr s
                                    /\ PyStr.all_chars PyStr.is_space s = true) col.
Proof.
  unfold blank_column. rewrite orb_true_iff, !forallb_forall, !Forall_forall.
  split; (intros [H | H]; [left; exact H | right]);
    intros x Hx; apply blank_text_iff; now apply H.
Qed.

(** A row with a text cell, be it of white space only, has a value and
    is kept. *)
Lemma text_row_has_value (r : list cell) (s : string) :
  In (CStr s) r -> has_value r = true.
Proof. intros H. apply has_value_iff. now exists (CStr s). Qed.

End BlankCells.

(** * The removal of blank rows and columns, specified and as coded *)

Section SpecRemoval.

Lemma seq_shift_map {B : Type} (f : nat -> B) (n : nat) :
  map f (seq 1 n) = map (fun j => f (S j)) (seq 0 n).
Proof. now rewrite <- seq_shift, map_map. Qed.

Lemma column_at_succ (j : nat) (rs : list (list cell)) :
  column_at (S j) rs = column_at j (map (@tl cell) rs).
Proof.
  unfold column_at. rewrite map_map. apply map_ext.
  intros [| x r]; [now destruct j | reflexivity].
Qed.

Lemma blank_columns_succ (n : nat) (rs : list (list cell)) :
  blank_columns (S n) rs
  = forallb spec_blank (column_at 0 rs) :: blank_columns n (map (@tl cell) rs).
Proof.
  unfold blank_columns. cbn [seq map]. f_equal.
  rewrite seq_shift_map. apply map_ext. intros j. now rewrite column_at_succ.
Qed.

Lemma select_cons_row (b : bool) (mask : list bool) (r : list cell) :
  r <> [] ->
  select (b :: mask) r
  = if b then nth 0 r CNone :: select mask (tl r) else select mask (tl r).
Proof. destruct r as [| x r]; [contradiction | reflexivity]. Qed.

Lemma rows_of_width_tl (n : nat) (rs : list (list cell)) :
  rows_of_width (S n) rs -> rows_of_width n (map (@tl cell) rs).
Proof.
  unfold rows_of_width. rewrite !Forall_forall. intros H r Hr.
  apply in_map_iff in Hr. destruct Hr as (r' & <- & Hr').
  specialize (H r' Hr'). destruct r'; simpl in *; lia.
Qed.

Lemma select_length {A : Type} (mask : list bool) (r : list A) :
  List.length r = List.length mask ->
  List.length (select mask r) = List.length (filter (fun b => b) mask).
Proof.
  revert r. induction mask as [| b mask IH]; intros [| x r] H; simpl in *;
    try reflexivity; try discriminate.
  destruct b; simpl; rewrite IH by lia; reflexivity.
Qed.

(** the blankness of the columns that a mask selects *)
Lemma blank_columns_select (mask : list bool) (rs : list (list cell)) :
  rows_of_width (List.length mask) rs ->
  blank_columns (List.length (filter (fun b => b) mask)) (map (select mask) rs)
  = select mask (blank_columns (List.length mask) rs).
Proof.
  revert rs. induction mask as [| b mask IH]; intros rs Hw.
  - reflexivity.
  - cbn [List.length] in *. rewrite blank_columns_succ.
    assert (Hne : forall r, In r rs -> r <> []).
    { intros r Hr. unfold rows_of_width in Hw. rewrite Forall_forall in Hw.
      specialize (Hw r Hr). destruct r; [discriminate | discriminate]. }
    assert (Hsel : map (select (b :: mask)) rs
                   = map (fun r => if b then nth 0 r CNone :: select mask (tl r)
                                   else select mask (tl r)) rs).
    { apply map_ext_in. intros r Hr. apply select_cons_row. now apply Hne. }
    rewrite Hsel. specialize (IH _ (rows_of_width_tl _ _ Hw)).
    destruct b; cbn [filter List.length select].
    + rewrite blank_columns_succ. f_equal.
      * unfold column_at. now rewrite map_map.
      * rewrite <- IH. f_equal. rewrite !map_map. reflexivity.
    + rewrite <- IH. f_equal. rewrite !map_map. reflexivity.
Qed.

Lemma select_negb_self (v : list bool) :
  select (map negb v) v = repeat false (List.length (filter (fun b => b) (map negb v))).
Proof.
  induction v as [| b v IH]; [reflexivity |].
  destruct b; simpl; now rewrite IH.
Qed.

Lemma blank_columns_length (n : nat) (rs : list (list cell)) :
  List.length (blank_columns n rs) = n.
Proof. unfold blank_columns. now rewrite length_map, length_seq. Qed.

(** a row with a cell that is not blank, in a column that the mask
    keeps, is not blank after the selection *)
Lemma select_keeps_value (mask : list bool) (r : list cell) :
  List.length r = List.length mask ->
  (forall j, (j < List.length r)%nat ->
             spec_blank (nth j r CNone) = false -> nth j mask false = true) ->
  forallb spec_blank r = false ->
  forallb spec_blank (select mask r) = false.
Proof.
  revert r. induction mask as [| b mask IH]; intros [| x r] Hlen Hkeep Hr;
    simpl in *; try discriminate.
  apply andb_false_iff in Hr.
  assert (Htail : forallb spec_blank r = false ->
                  forallb spec_blank (select mask r) = false).
  { apply IH; [lia |]. intros j Hj. apply (Hkeep (S j)). lia. }
  destruct Hr as [Hx | Hr].
  - specialize (Hkeep 0%nat). simpl in Hkeep. rewrite Hkeep by (lia || assumption).
    simpl. now rewrite Hx.
  - destruct b; simpl; [| now apply Htail].
    rewrite (Htail Hr). apply andb_false_r.
Qed.

Lemma column_has_value (j : nat) (rs : list (list cell)) (r : list cell) :
  In r rs -> spec_blank (nth j r CNone) = false ->
  forallb spec_blank (column_at j rs) = false.
Proof.
  intros Hin Hx. apply not_true_is_false. intros H.
  rewrite forallb_forall in H.
  specialize (H (nth j r CNone)). rewrite Hx in H.
  assert (Hc : In (nth j r CNone) (column_at j rs)).
  { unfold column_at. apply in_map_iff. now exists r. }
  specialize (H Hc). discriminate.
Qed.

Lemma filter_all {A : Type} (p : A -> bool) (xs : list A) :
  (forall x, In x xs -> p x = true) -> filter p xs = xs.
Proof.
  induction xs as [| x xs IH]; simpl; intros H; [reflexivity |].
  rewrite (H x) by now left. f_equal. apply IH. intros y Hy. apply H. now right.
Qed.

(** The removal that the specification words is idempotent. *)
Lemma spec_remove_blank_idempotent (df : DataFrame) :
  rectangular df ->
  spec_remove_blank (spec_remove_blank df) = spec_remove_blank df.
Proof.
  intros Hrect. unfold spec_remove_blank at 1.
  set (df1 := spec_remove_blank df).
  set (kept := filter (fun r => negb (forallb spec_blank r)) (rows df)).
  set (n := List.length (columns df)).
  set (mask := map negb (blank_columns n kept)).
  assert (Hmask_len : List.length mask = n).
  { unfold mask. now rewrite length_map, blank_columns_length. }
  assert (Hkept_w : rows_of_width (List.length mask) kept).
  { rewrite Hmask_len. unfold rows_of_width, kept. apply Forall_forall.
    intros r Hr. apply filter_In in Hr. unfold rectangular in Hrect.
    rewrite Forall_forall in Hrect. now apply Hrect. }
  assert (Hrows1 : rows df1 = map (select mask) kept) by reflexivity.
  assert (Hcols1 : columns df1 = select mask (columns df)) by reflexivity.
  (* every row of the result still has a value *)
  assert (Hkept1 : filter (fun r => negb (forallb spec_blank r)) (rows df1) = rows df1).
  { apply filter_all. intros r1 Hr1. rewrite Hrows1 in Hr1.
    apply in_map_iff in Hr1. destruct Hr1 as (r & <- & Hr).
    apply negb_true_iff. apply select_keeps_value.
    - unfold rows_of_width in Hkept_w. rewrite Forall_forall in Hkept_w.
      now apply Hkept_w.
    - intros j Hj Hx. unfold mask.
      assert (Hjn : (j < n)%nat).
      { unfold rows_of_width in Hkept_w. rewrite Forall_forall in Hkept_w.
        rewrite (Hkept_w r Hr), Hmask_len in Hj. exact Hj. }
      rewrite (nth_indep _ false (negb true))
        by now rewrite length_map, blank_columns_length.
      rewrite map_nth. unfold blank_columns.
      rewrite (nth_indep _ true (forallb spec_blank (column_at 0 kept)))
        by now rewrite length_map, length_seq.
      rewrite (map_nth (fun j => forallb spec_blank (column_at j kept))).
      rewrite seq_nth by assumption. simpl.
      now rewrite (column_has_value j kept r Hr Hx).
    - unfold kept in Hr. apply filter_In in Hr. destruct Hr as [_ Hr].
      now apply negb_true_iff in Hr. }
  rewrite Hkept1.
  (* no column of the result is blank *)
  assert (Hlen1 : List.length (columns df1) = List.length (filter (fun b => b) mask)).
  { rewrite Hcols1. apply select_length. fold n. now rewrite Hmask_len. }
  assert (Hmask1 : map negb (blank_columns (List.length (columns df1)) (rows df1))
                   = repeat true (List.length (filter (fun b => b) mask))).
  { rewrite Hlen1, Hrows1, blank_columns_select by assumption.
    rewrite Hmask_len. unfold mask at 1. rewrite select_negb_self.
    fold mask. clear. induction (List.length (filter (fun b => b) mask)); simpl; congruence. }
  rewrite Hmask1.
  destruct df1 as [cols1 rows1] eqn:Edf1. cbn [columns rows] in *.
  f_equal.
  - apply select_all_true. lia.
  - rewrite <- (map_id rows1) at 2. apply map_ext_in. intros r1 Hr1.
    apply select_all_true. rewrite Hrows1 in Hr1.
    apply in_map_iff in Hr1. destruct Hr1 as (r & <- & Hr).
    rewrite (select_length mask); [lia |].
    unfold rows_of_width in Hkept_w. rewrite Forall_forall in Hkept_w.
    now apply Hkept_w.
Qed.

End SpecRemoval.

Section CodeAgainstSpec.

Lemma forallb_ext_in {A : Type} (p q : A -> bool) (xs : list A) :
  (forall x, In x xs -> p x = q x) -> forallb p xs = forallb q xs.
Proof.
  induction xs as [| x xs IH]; simpl; intros H; [reflexivity |].
  rewrite (H x) by now left. f_equal. apply IH. intros y Hy. apply H. now right.
Qed.

Lemma has_value_spec_blank (r : list cell) :
  Forall (fun x => Audit.blank_text x = false) r ->
  has_value r = negb (forallb spec_blank r).
Proof.
  unfold has_value. induction 1 as [| x r Hx _ IH]; [reflexivity |].
  cbn [existsb forallb]. rewrite IH.
  change (spec_blank x) with (isna x || Audit.blank_text x).
  rewrite Hx, orb_false_r.
  now destruct (isna x), (forallb spec_blank r).
Qed.

Lemma blank_column_spec_blank (col : list cell) :
  Forall (fun x => Audit.blank_text x = false) col ->
  blank_column col = forallb spec_blank col.
Proof.
  intros H. unfold blank_column.
  assert (E : forallb isna col = forallb spec_blank col).
  { apply forallb_ext_in. intros x Hx. rewrite Forall_forall in H.
    unfold spec_blank. now rewrite (H x Hx), orb_false_r. }
  rewrite E. destruct col as [| x col]; [reflexivity |].
  apply Forall_inv in H. cbn [forallb]. rewrite H. cbn [andb]. apply orb_false_r.
Qed.

Lemma column_at_cells (j : nat) (rs : list (list cell)) (x : cell) :
  In x (column_at j rs) -> x = CNone \/ exists r, In r rs /\ In x r.
Proof.
  unfold column_at. rewrite in_map_iff. intros (r & <- & Hr).
  destruct (nth_in_or_default j r CNone) as [H | H]; [right | now left].
  now exists r.
Qed.

(** On a table without texts of white space the code removes what the
    specification says. *)
Lemma remove_blank_meets_spec (df : DataFrame) :
  NoDup (columns df) -> rectangular df -> no_blank_text df ->
  Audit.remove_blank df = Ok (spec_remove_blank df).
Proof.
  intros Hnd Hrect Hnb. rewrite remove_blank_spec by assumption.
  unfold no_blank_text in Hnb. rewrite Forall_forall in Hnb.
  assert (Hkept : filter has_value (rows df)
                  = filter (fun r => negb (forallb spec_blank r)) (rows df)).
  { apply filter_ext_in. intros r Hr. apply has_value_spec_blank. now apply Hnb. }
  unfold spec_remove_blank, keep_mask. rewrite Hkept.
  set (kept := filter (fun r => negb (forallb spec_blank r)) (rows df)).
  assert (Hmask : map (fun j => negb (blank_column (column_at j kept)))
                      (seq 0 (List.length (columns df)))
                  = map negb (blank_columns (List.length (columns df)) kept)).
  { unfold blank_columns. rewrite map_map. apply map_ext. intros j. f_equal.
    apply blank_column_spec_blank. apply Forall_forall. intros x Hx.
    destruct (column_at_cells _ _ _ Hx) as [-> | (r & Hr & Hxr)]; [reflexivity |].
    unfold kept in Hr. apply filter_In in Hr. destruct Hr as [Hr _].
    specialize (Hnb r Hr). rewrite Forall_forall in Hnb. now apply Hnb. }
  now rewrite Hmask.
Qed.

Lemma select_NoDup {A : Type} (mask : list bool) (xs : list A) :
  NoDup xs -> NoDup (select mask xs).
Proof.
  intros H. revert mask. induction H as [| x xs Hx _ IH]; intros [| b mask];
    simpl; try constructor.
  destruct b; [| apply IH].
  constructor; [| apply IH]. intros Hin. apply Hx. eapply select_In, Hin.
Qed.

Lemma spec_remove_blank_rectangular (df : DataFrame) :
  rectangular df -> rectangular (spec_remove_blank df).
Proof.
  intros Hrect. unfold rectangular, spec_remove_blank. cbn [rows columns].
  apply Forall_forall. intros r1 Hr1.
  apply in_map_iff in Hr1. destruct Hr1 as (r & <- & Hr).
  apply filter_In in Hr. destruct Hr as [Hr _].
  unfold rectangular in Hrect. rewrite Forall_forall in Hrect.
  rewrite !select_length; [reflexivity | |].
  - now rewrite length_map, blank_columns_length.
  - rewrite length_map, blank_columns_length. now apply Hrect.
Qed.

Lemma spec_remove_blank_no_blank_text (df : DataFrame) :
  no_blank_text df -> no_blank_text (spec_remove_blank df).
Proof.
  unfold no_blank_text, spec_remove_blank. cbn [rows]. rewrite !Forall_forall.
  intros H r1 Hr1. apply in_map_iff in Hr1. destruct Hr1 as (r & <- & Hr).
  apply filter_In in Hr. destruct Hr as [Hr _]. specialize (H r Hr).
  rewrite Forall_forall in *. intros x Hx. apply H. eapply select_In, Hx.
Qed.

(** On a table without texts of white space the removal, as coded, is
    idempotent. *)
Lemma remove_blank_idempotent_without_blank_text (df : DataFrame) :
  NoDup (columns df) -> rectangular df -> no_blank_text df ->
  exists df1, Audit.remove_blank df = Ok df1 /\ Audit.remove_blank df1 = Ok df1.
Proof.
  intros Hnd Hrect Hnb. exists (spec_remove_blank df).
  split; [now apply remove_blank_meets_spec |].
  rewrite remove_blank_meets_spec.
  - now rewrite spec_remove_blank_idempotent.
  - now apply select_NoDup.
  - now apply spec_remove_blank_rectangular.
  - now apply spec_remove_blank_no_blank_text.
Qed.

(** Where a column of white space meets a row that holds nothing else,
    the code and the specification part: the specification drops that
    row at once. *)
Example remove_blank_departs_from_spec :
  let df0 := {| columns := ["A"; "B"];
                rows := [[CStr " "; CFloat PyFloat.nan]; [CStr " "; CStr "x"]] |} in
  spec_remove_blank df0 = {| columns := ["B"]; rows := [[CStr "x"]] |}
  /\ Audit.remove_blank df0 <> Ok (spec_remove_blank df0).
Proof. split; [vm_compute; reflexivity | vm_compute; discriminate]. Qed.

End CodeAgainstSpec.

(** What [extract_table_using_header] computes for a header row inside
    the grid whose labels are not repeated: the rows after the header
    that hold a value, under the columns that are not blank over those
    rows. *)
Lemma extract_table_spec (raw_df : RawGrid) (h : Z) :
  0 <= h < Z.of_nat (List.length raw_df) ->
  let header := nth (Z.to_nat h) raw_df [] in
  let df := {| columns := map Audit.normalize_text header;
               rows := skipn (Z.to_nat (h + 1)) raw_df |} in
  NoDup (columns df) -> rectangular df ->
  Audit.extract_table_using_header raw_df h
  = Ok {| columns := select (keep_mask df) (columns df);
          rows := map (select (keep_mask df)) (filter has_value (rows df)) |}.
Proof.
  intros Hh header df Hnd Hrect.
  unfold Audit.extract_table_using_header.
  rewrite iloc_row_valid by assumption. cbn [bind].
  rewrite slice_from_nonneg by lia.
  now apply remove_blank_spec.
Qed.

(** C3, on the code: a data row whose every cell is a text of white
    space only is not dropped; [dropna] removes a row only when all of
    its cells are missing. *)
Theorem extract_table_keeps_whitespace_row :
  Audit.extract_table_using_header
    [[CStr "A"; CStr "B"]; [CStr " "; CStr " "]; [CStr "x"; CStr "y"]] 0
  = Ok {| columns := ["A"; "B"];
          rows := [[CStr " "; CStr " "]; [CStr "x"; CStr "y"]] |}
  /\ Forall whitespace_only [CStr " "; CStr " "].
Proof.
  split; [vm_compute; reflexivity |].
  repeat constructor; exists " "; (split; [reflexivity | split; [discriminate | reflexivity]]).
Qed.

(** C7, as stated, fails: with the header index just beyond a grid of one
    row, no table is returned. *)
Lemma extract_table_beyond_grid_no_table :
  ~ exists df, Audit.extract_table_using_header [[CStr "A"]] 1 = Ok df.
Proof. intros (df & H). vm_compute in H. discriminate. Qed.

(** C7, amended. When the header index plus one exceeds the number of
    rows, [extract_table_using_header] raises [IndexError]; the empty
    table is what it returns when the header is the last row of the grid
    and its labels are not repeated. *)
Theorem extract_table_header_beyond_grid (raw_df : RawGrid) (h : Z) :
  (Z.of_nat (List.length raw_df) < h + 1 ->
   Audit.extract_table_using_header raw_df h = Raise IndexError)
  /\ (0 <= h -> h + 1 = Z.of_nat (List.length raw_df) ->
      NoDup (map Audit.normalize_text (nth (Z.to_nat h) raw_df [])) ->
      Audit.extract_table_using_header raw_df h = Ok empty_frame).
Proof.
  split.
  - intros Hh. unfold Audit.extract_table_using_header, iloc_row.
    replace (Z.of_nat (List.length raw_df) <=? h) with true by lia.
    now rewrite orb_true_r.
  - intros H0 Hlast Hnd.
    rewrite extract_table_spec; [| lia | assumption |].
    + replace (Z.to_nat (h + 1)) with (List.length raw_df) by lia.
      rewrite skipn_all. unfold keep_mask. cbn [rows columns filter map].
      unfold column_at. cbn [map].
      rewrite map_const, select_all_false. reflexivity.
    + unfold rectangular. cbn [rows].
      replace (Z.to_nat (h + 1)) with (List.length raw_df) by lia.
      rewrite skipn_all. constructor.
Qed.

Lemma extract_table_header_beyond_grid_witness :
  (Z.of_nat (List.length [[CStr "A"]]) < 1 + 1
   /\ Audit.extract_table_using_header [[CStr "A"]] 1 = Raise IndexError)
  /\ (0 <= 0 /\ 0 + 1 = Z.of_nat (List.length [[CStr "A"]])
      /\ Audit.extract_table_using_header [[CStr "A"]] 0 = Ok empty_frame).
Proof.
  split.
  - split; [simpl; lia |].
    apply (proj1 (extract_table_header_beyond_grid [[CStr "A"]] 1)). simpl; lia.
  - split; [lia | split; [reflexivity |]].
    apply (proj2 (extract_table_header_beyond_grid [[CStr "A"]] 0));
      [lia | reflexivity |].
    vm_compute. repeat constructor; simpl; tauto.
Defined.

(** C8, on the code: the removal is not idempotent.  The column of white
    space is blank and goes, which leaves the first row without a value;
    a second application drops that row. *)
Theorem remove_blank_twice_differs :
  let df0 := {| columns := ["A"; "B"];
                rows := [[CStr " "; CFloat PyFloat.nan]; [CStr " "; CStr "x"]] |} in
  let df1 := {| columns := ["B"];
                rows := [[CFloat PyFloat.nan]; [CStr "x"]] |} in
  let df2 := {| columns := ["B"]; rows := [[CStr "x"]] |} in
  Audit.remove_blank df0 = Ok df1
  /\ Audit.remove_blank df1 = Ok df2
  /\ df1 <> df2.
Proof.
  intros df0 df1 df2.
  split; [vm_compute; reflexivity |].
  split; [vm_compute; reflexivity | discriminate].
Qed.

(** * Unpivoting *)

Section Unpivot.
Import PnlSheets.

Lemma positions_from_unique (c : string) (ls : list string) :
  NoDup ls -> In c ls -> exists j, positions_from 0 c ls = [j].
Proof.
  intros Hnd Hin.
  destruct (In_nth _ _ EmptyString Hin) as (j & Hj & <-).
  exists j. now rewrite (positions_from_nodup 0 j).
Qed.

Lemma flat_map_blocks_length {A B C : Type} (F : A -> B -> C)
      (ms : list A) (rs : list B) :
  List.length (flat_map (fun m => map (F m) rs) ms)
  = (List.length ms * List.length rs)%nat.
Proof.
  induction ms as [| m ms IH]; simpl; [reflexivity |].
  now rewrite length_app, length_map, IH.
Qed.

(** block [k] of the melted frame holds column [k], row by row *)
Lemma flat_map_blocks_nth {A B C : Type} (F : A -> B -> C)
      (ms : list A) (rs : list B) (k i : nat) (dm : A) (dr : B) :
  (k < List.length ms)%nat -> (i < List.length rs)%nat ->
  nth_error (flat_map (fun m => map (F m) rs) ms) (k * List.length rs + i)
  = Some (F (nth k ms dm) (nth i rs dr)).
Proof.
  revert k. induction ms as [| m ms IH]; intros k Hk Hi; simpl in Hk; [lia |].
  simpl flat_map. destruct k as [| k].
  - simpl. rewrite nth_error_app1 by now rewrite length_map.
    rewrite nth_error_map, (nth_error_nth' rs dr) by assumption. reflexivity.
  - rewrite nth_error_app2 by (rewrite length_map; simpl; lia).
    rewrite length_map.
    replace (S k * List.length rs + i - List.length rs)%nat
      with (k * List.length rs + i)%nat by (simpl; lia).
    apply IH; [lia | assumption].
Qed.

Lemma flat_map_blocks_In {A B C : Type} (F : A -> B -> C)
      (ms : list A) (rs : list B) (x : C) :
  In x (flat_map (fun m => map (F m) rs) ms) ->
  exists m r, In m ms /\ In r rs /\ x = F m r.
Proof.
  rewrite in_flat_map. intros (m & Hm & Hx).
  apply in_map_iff in Hx. destruct Hx as (r & <- & Hr).
  now exists m, r.
Qed.

Lemma flat_map_ext_in {A B : Type} (f g : A -> list B) (xs : list A) :
  (forall x, In x xs -> f x = g x) -> flat_map f xs = flat_map g xs.
Proof.
  induction xs as [| x xs IH]; simpl; intros H; [reflexivity |].
  rewrite (H x) by now left. f_equal. apply IH. intros y Hy. apply H. now right.
Qed.

Lemma cell_under_position (w : WideFrame) (r : WideRow) (c : string) (j : nat) :
  positions_from 0 c (labels w) = [j] ->
  cell_under (Wide w) r c = nth j (row_cells r) CNone.
Proof. intros H. unfold cell_under. simpl. now rewrite H. Qed.

(** On a well-formed frame that has rows, [melt] is one block per
    month column present. *)
Lemma melt_blocks (w : WideFrame) (rs : list WideRow) :
  well_formed (Wide w) ->
  melt (labels w) rs (month_columns (Wide w))
  = Ok (flat_map (fun m => map (fact_of (Wide w) m) rs) (month_columns (Wide w))).
Proof.
  intros (Hnd & Hacc & Hline & Hamount).
  assert (Hin : forall c, In c ["Account"; "Line Item"; "Scenario"; "Year"] ->
                          In c (labels w)).
  { intros c Hc. unfold labels. apply in_or_app. simpl in Hc.
    destruct Hc as [<- | [<- | [<- | [<- | []]]]];
      [left; assumption | left; assumption | right | right]; simpl; tauto. }
  unfold melt.
  replace (PyStr.mem "Amount" (labels w)) with false.
  2:{ symmetry. apply not_true_is_false. intros E. apply mem_In in E.
      unfold labels in E. apply in_app_or in E. destruct E as [E | E];
        [contradiction |].
      simpl in E. destruct E as [E | [E | [E | []]]]; discriminate. }
  replace (forallb (fun c => PyStr.mem c (labels w))
                   ["Account"; "Line Item"; "Scenario"; "Year"]) with true.
  2:{ symmetry. apply forallb_forall. intros c Hc. apply mem_In. now apply Hin. }
  cbn [negb].
  destruct (positions_from_unique "Account" (labels w) Hnd) as (ja & Ea);
    [apply Hin; simpl; tauto |].
  destruct (positions_from_unique "Line Item" (labels w) Hnd) as (jl & El);
    [apply Hin; simpl; tauto |].
  destruct (positions_from_unique "Scenario" (labels w) Hnd) as (js & Es);
    [apply Hin; simpl; tauto |].
  destruct (positions_from_unique "Year" (labels w) Hnd) as (jy & Ey);
    [apply Hin; simpl; tauto |].
  unfold id_position. rewrite Ea, El, Es, Ey. cbn [bind]. f_equal.
  apply flat_map_ext_in. intros m Hm.
  unfold month_columns in Hm. apply filter_In in Hm. destruct Hm as [_ Hm].
  apply mem_In in Hm. simpl frame_labels in Hm.
  destruct (positions_from_unique m (labels w) Hnd Hm) as (jm & Em).
  rewrite Em. cbn [flat_map]. rewrite app_nil_r.
  apply map_ext. intros r. unfold fact_row, fact_of.
  now rewrite (cell_under_position w r _ _ Ea), (cell_under_position w r _ _ El),
    (cell_under_position w r _ _ Es), (cell_under_position w r _ _ Ey),
    (cell_under_position w r _ _ Em).
Qed.

(** What [wide_to_long_fact] returns on a well-formed table. *)
Lemma wide_to_long_fact_blocks (wide : wide_table) :
  well_formed wide ->
  exists t, wide_to_long_fact wide = Ok t
            /\ long_rows t
               = flat_map (fun m => map (fact_of wide m) (account_rows wide))
                          (month_columns wide).
Proof.
  intros Hwf. destruct wide as [| w].
  - exists (Unchanged EmptyFrame). split; reflexivity.
  - unfold wide_to_long_fact. destruct (empty (Wide w)) eqn:Eempty.
    + exists (Unchanged (Wide w)). split; [reflexivity |].
      unfold account_rows. simpl in *.
      destruct (wide_rows w); [| discriminate]. simpl.
      induction (month_columns (Wide w)); simpl; auto.
    + destruct (positions_from_unique "IsAccountRow" (labels w)) as (j & Ej).
      * apply Hwf.
      * unfold labels. apply in_or_app. right. simpl. tauto.
      * rewrite Ej.
        change (filter (fun m => PyStr.mem m (labels w)) MONTHS)
          with (month_columns (Wide w)).
        rewrite melt_blocks by assumption. cbn [bind].
        eexists. split; reflexivity.
Qed.

End Unpivot.

(** C1. On a wide table with [A] rows classified as account rows and [M]
    month columns present, [wide_to_long_fact] emits [A * M] fact rows;
    the row at place [k * A + i] belongs to month column [k] and account
    row [i] and carries the cell of that row in that column as its
    amount; and every fact row comes from a row classified as an account
    row. *)
Theorem wide_to_long_fact_account_rows_by_months (wide : PnlSheets.wide_table) :
  well_formed wide ->
  exists t,
    PnlSheets.wide_to_long_fact wide = Ok t
    /\ List.length (PnlSheets.long_rows t)
       = (List.length (account_rows wide) * List.length (month_columns wide))%nat
    /\ (forall k i r m,
          nth_error (month_columns wide) k = Some m ->
          nth_error (account_rows wide) i = Some r ->
          exists f,
            nth_error (PnlSheets.long_rows t)
                      (k * List.length (account_rows wide) + i) = Some f
            /\ f = fact_of wide m r
            /\ PnlSheets.Amount f = cell_under wide r m)
    /\ (forall f, In f (PnlSheets.long_rows t) ->
          exists m r, In m (month_columns wide)
                      /\ In r (frame_rows wide)
                      /\ PnlSheets.IsAccountRow r = true
                      /\ f = fact_of wide m r).
Proof.
  intros Hwf.
  destruct (wide_to_long_fact_blocks wide Hwf) as (t & Ht & Hrows).
  exists t. split; [exact Ht |]. rewrite Hrows. split; [| split].
  - rewrite flat_map_blocks_length. lia.
  - intros k i r m Hk Hi.
    exists (fact_of wide m r). split; [| split; reflexivity].
    assert (Hk' : (k < List.length (month_columns wide))%nat)
      by (apply nth_error_Some; congruence).
    assert (Hi' : (i < List.length (account_rows wide))%nat)
      by (apply nth_error_Some; congruence).
    rewrite (flat_map_blocks_nth _ _ _ k i m r Hk' Hi').
    now rewrite (nth_error_nth _ _ m Hk), (nth_error_nth _ _ r Hi).
  - intros f Hf.
    destruct (flat_map_blocks_In _ _ _ _ Hf) as (m & r & Hm & Hr & ->).
    unfold account_rows in Hr. apply filter_In in Hr. destruct Hr as [Hr Hacc].
    now exists m, r.
Qed.

Lemma wide_to_long_fact_account_rows_by_months_witness :
  well_formed sample_wide
  /\ exists t,
       PnlSheets.wide_to_long_fact sample_wide = Ok t
       /\ List.length (PnlSheets.long_rows t) = (2 * 2)%nat.
Proof.
  assert (Hwf : well_formed sample_wide).
  { simpl. split; [| split; [| split]].
    - repeat constructor; simpl; intuition discriminate.
    - simpl; tauto.
    - simpl; tauto.
    - simpl. intuition discriminate. }
  split; [exact Hwf |].
  destruct (wide_to_long_fact_account_rows_by_months sample_wide Hwf)
    as (t & Ht & Hlen & _).
  exists t. split; [exact Ht | exact Hlen].
Defined.

(** * The labels of the wide frame *)

Section WideLabels.
Import PnlSheets.

Lemma to_int_proper (n : Z) :
  Z.to_int n <> Decimal.Pos Decimal.Nil /\ Z.to_int n <> Decimal.Neg Decimal.Nil.
Proof.
  destruct n as [| p | p]; simpl; split; try discriminate;
    intros H; injection H as H; now apply DecimalPos.Unsigned.to_uint_nonnil in H.
Qed.

(** different integers have different texts *)
Lemma str_of_int_inj (n m : Z) : str_of_int n = str_of_int m -> n = m.
Proof.
  unfold str_of_int. intros H.
  apply DecimalZ.to_int_inj.
  destruct (to_int_proper n) as [Hn1 Hn2], (to_int_proper m) as [Hm1 Hm2].
  pose proof (NilZero.isi _ Hn1 Hn2) as En.
  pose proof (NilZero.isi _ Hm1 Hm2) as Em.
  rewrite H in En. rewrite En in Em. now injection Em.
Qed.

Lemma append_inj_l (p a b : string) : p ++ a = p ++ b -> a = b.
Proof. induction p as [| c p IH]; simpl; [auto | intros H; injection H; auto]. Qed.

Lemma col_names_NoDup (i0 k : nat) :
  NoDup (map (fun i => "Col" ++ str_of_int (Z.of_nat i + 1)) (seq i0 k)).
Proof.
  revert i0. induction k as [| k IH]; intros i0; simpl; constructor; [| apply IH].
  rewrite in_map_iff. intros (i & E & Hi).
  apply (append_inj_l "Col"), str_of_int_inj in E. apply in_seq in Hi. lia.
Qed.

Lemma col_names_start (i0 k : nat) (c : string) :
  In c (map (fun i => "Col" ++ str_of_int (Z.of_nat i + 1)) (seq i0 k)) ->
  PyStr.startswith "Col" c = true.
Proof. rewrite in_map_iff. intros (i & <- & _). reflexivity. Qed.

(** Whatever the number of columns, the labels that [infer_column_names]
    gives make a well-formed wide frame. *)
Lemma infer_column_names_well_formed (ncols : Z) (rs : list WideRow) :
  well_formed (Wide {| wide_columns := infer_column_names ncols; wide_rows := rs |}).
Proof.
  unfold well_formed, labels, infer_column_names. cbn [wide_columns].
  destruct (ncols =? 15); [| destruct (ncols =? 14)].
  - split; [| split; [| split]]; simpl; try tauto.
    + repeat constructor; simpl; intuition discriminate.
    + intuition discriminate.
  - split; [| split; [| split]]; simpl; try tauto.
    + repeat constructor; simpl; intuition discriminate.
    + intuition discriminate.
  - set (cols := map (fun i => "Col" ++ str_of_int (Z.of_nat i + 1))
                     (seq 2 (Z.to_nat ncols - 2))).
    assert (Hstart : forall c, In c cols -> PyStr.startswith "Col" c = true)
      by apply col_names_start.
    assert (Hother : forall c, In c ["IsAccountRow"; "Scenario"; "Year"] ->
                               PyStr.startswith "Col" c = false).
    { intros c [<- | [<- | [<- | []]]]; reflexivity. }
    split; [| split; [| split]].
    + rewrite <- app_assoc. apply NoDup_app.
      * repeat constructor; simpl; intuition discriminate.
      * apply NoDup_app.
        -- apply col_names_NoDup.
        -- repeat constructor; simpl; intuition discriminate.
        -- intros c Hc Hc'. apply Hstart in Hc. apply Hother in Hc'. congruence.
      * intros c Hc Hc'. simpl in Hc. apply in_app_or in Hc'.
        destruct Hc' as [Hc' | Hc'].
        -- apply Hstart in Hc'.
           destruct Hc as [<- | [<- | []]]; vm_compute in Hc'; discriminate.
        -- simpl in Hc'.
           destruct Hc as [<- | [<- | []]]; intuition discriminate.
    + simpl; tauto.
    + simpl; tauto.
    + simpl. intros [H | [H | H]]; try discriminate.
      apply Hstart in H. vm_compute in H. discriminate.
Qed.

End WideLabels.

(** * File names of the previews *)

Section SafeNames.
Import Audit.

Lemma alnum_not_underscore (c : ascii) :
  PyStr.is_alnum c = true -> Ascii.eqb c "_" = false.
Proof.
  intros H. destruct (Ascii.eqb_spec c "_") as [-> |]; [discriminate | reflexivity].
Qed.

Lemma sub_runs_chars (b : bool) (s : string) :
  PyStr.all_chars (fun c => PyStr.is_alnum c || Ascii.eqb c "_") (sub_runs b s) = true.
Proof.
  revert b. induction s as [| c s IH]; intros b; simpl; [reflexivity |].
  destruct (PyStr.is_alnum c) eqn:E.
  - simpl. now rewrite E, IH.
  - destruct b; [apply IH |]. simpl. apply IH.
Qed.

Lemma startswith_cons (x y : ascii) (u s : string) :
  PyStr.startswith (String x u) (String y s)
  = Ascii.eqb x y && PyStr.startswith u s.
Proof. reflexivity. Qed.

Lemma contains_cons (u : string) (y : ascii) (s : string) :
  PyStr.contains u (String y s)
  = PyStr.startswith u (String y s) || PyStr.contains u s.
Proof. reflexivity. Qed.

Lemma sub_runs_no_double (b : bool) (s : string) :
  PyStr.contains "__" (sub_runs b s) = false
  /\ (b = true -> PyStr.startswith "_" (sub_runs b s) = false).
Proof.
  revert b. induction s as [| c s IH]; intros b; cbn [sub_runs].
  - split; [reflexivity | intros _; reflexivity].
  - destruct (PyStr.is_alnum c) eqn:E.
    + destruct (IH false) as [H1 _].
      pose proof (alnum_not_underscore c E) as Hc.
      rewrite Ascii.eqb_sym in Hc.
      split; [| intros _]; rewrite ?contains_cons, startswith_cons, Hc;
        [exact H1 | reflexivity].
    + destruct b.
      * apply IH.
      * destruct (IH true) as [H1 H2]. specialize (H2 eq_refl).
        split; [| discriminate].
        rewrite contains_cons, startswith_cons, H1, H2. reflexivity.
Qed.

Lemma all_chars_lstrip (p q : ascii -> bool) (s : string) :
  PyStr.all_chars p s = true -> PyStr.all_chars p (PyStr.lstrip_by q s) = true.
Proof.
  induction s as [| a s IH]; simpl; [reflexivity |].
  intros H. destruct (q a); [| exact H].
  apply andb_prop in H. now apply IH.
Qed.

Lemma all_chars_rstrip (p q : ascii -> bool) (s : string) :
  PyStr.all_chars p s = true -> PyStr.all_chars p (PyStr.rstrip_by q s) = true.
Proof.
  induction s as [| a s IH]; simpl; [reflexivity |].
  intros H. apply andb_prop in H. destruct H as [Ha Hs]. specialize (IH Hs).
  destruct (PyStr.rstrip_by q s) as [| b r].
  - destruct (q a); simpl; [reflexivity | now rewrite Ha].
  - simpl. rewrite Ha. exact IH.
Qed.

Lemma contains_lstrip (u : string) (q : ascii -> bool) (s : string) :
  PyStr.contains u s = false -> PyStr.contains u (PyStr.lstrip_by q s) = false.
Proof.
  induction s as [| a s IH]; [auto |].
  intros H. cbn [PyStr.lstrip_by]. destruct (q a); [| exact H].
  apply IH. simpl in H. now apply orb_false_iff in H.
Qed.

(** [rstrip_by] leaves a prefix *)
Lemma rstrip_prefix (q : ascii -> bool) (s : string) :
  exists w, s = PyStr.rstrip_by q s ++ w.
Proof.
  induction s as [| a s [w Hw]]; simpl.
  - now exists EmptyString.
  - destruct (PyStr.rstrip_by q s) as [| b r] eqn:E.
    + destruct (q a).
      * exists (String a s). reflexivity.
      * exists w. simpl. now f_equal.
    + exists w. simpl. f_equal. exact Hw.
Qed.

Lemma startswith_app (u a w : string) :
  PyStr.startswith u a = true -> PyStr.startswith u (a ++ w) = true.
Proof.
  revert a. induction u as [| x u IH]; intros a; [reflexivity |].
  destruct a as [| y a]; simpl; [discriminate |].
  intros H. apply andb_prop in H. destruct H as [H1 H2].
  now rewrite H1, IH.
Qed.

Lemma contains_prefix (u a w : string) :
  PyStr.contains u (a ++ w) = false -> PyStr.contains u a = false.
Proof.
  induction a as [| y a IH]; intros H.
  - cbn [append] in H. cbn [PyStr.contains].
    destruct (PyStr.startswith u EmptyString) eqn:E; [| reflexivity].
    apply (startswith_app u EmptyString w) in E. cbn [append] in E.
    destruct w; cbn [PyStr.contains] in H; rewrite E in H; discriminate.
  - cbn [append PyStr.contains] in *.
    apply orb_false_iff in H. destruct H as [H1 H2].
    rewrite (IH H2), orb_false_r.
    destruct (PyStr.startswith u (String y a)) eqn:E; [| reflexivity].
    apply (startswith_app _ _ w) in E. cbn [append] in E. congruence.
Qed.

Lemma contains_rstrip (u : string) (q : ascii -> bool) (s : string) :
  PyStr.contains u s = false -> PyStr.contains u (PyStr.rstrip_by q s) = false.
Proof.
  intros H. destruct (rstrip_prefix q s) as [w Hw].
  rewrite Hw in H. now apply contains_prefix in H.
Qed.

Lemma lstrip_starts_outside (c : ascii) (s : string) :
  PyStr.startswith (String c EmptyString) (PyStr.lstrip_by (Ascii.eqb c) s) = false.
Proof.
  induction s as [| a s IH]; simpl; [reflexivity |].
  destruct (Ascii.eqb c a) eqn:E; [exact IH |]. simpl. now rewrite E.
Qed.

Lemma rstrip_keeps_start (u : string) (q : ascii -> bool) (s : string) :
  PyStr.startswith u s = false -> u <> EmptyString ->
  PyStr.startswith u (PyStr.rstrip_by q s) = false.
Proof.
  intros H Hu. destruct (rstrip_prefix q s) as [w Hw].
  destruct (PyStr.startswith u (PyStr.rstrip_by q s)) eqn:E; [| reflexivity].
  apply (startswith_app _ _ w) in E. rewrite <- Hw in E. congruence.
Qed.

Lemma rstrip_ends_outside (c : ascii) (s : string) :
  PyStr.endswith_char c (PyStr.rstrip_by (Ascii.eqb c) s) = false.
Proof.
  induction s as [| a s IH]; simpl; [reflexivity |].
  destruct (PyStr.rstrip_by (Ascii.eqb c) s) as [| b r].
  - destruct (Ascii.eqb c a) eqn:E; simpl; [reflexivity |].
    now rewrite Ascii.eqb_sym.
  - exact IH.
Qed.

Lemma lower_char_underscore (c : ascii) :
  Ascii.eqb (PyStr.lower_char c) "_" = Ascii.eqb c "_".
Proof. destruct c as [[] [] [] [] [] [] [] []]; reflexivity. Qed.

Lemma lower_char_safe (c : ascii) :
  PyStr.is_alnum c || Ascii.eqb c "_" = true ->
  is_safe_char (PyStr.lower_char c) = true.
Proof. destruct c as [[] [] [] [] [] [] [] []]; vm_compute; auto. Qed.

Lemma startswith_lower_underscores (u s : string) :
  PyStr.all_chars (Ascii.eqb "_") u = true ->
  PyStr.startswith u (PyStr.lower s) = PyStr.startswith u s.
Proof.
  revert s. induction u as [| x u IH]; intros s H; [reflexivity |].
  cbn [PyStr.all_chars] in H. apply andb_prop in H. destruct H as [Hx Hu].
  apply Ascii.eqb_eq in Hx. subst x.
  destruct s as [| c s]; [reflexivity |].
  cbn [PyStr.lower PyStr.map_chars PyStr.startswith].
  fold (PyStr.lower s). rewrite (IH _ Hu).
  f_equal. rewrite (Ascii.eqb_sym _ (PyStr.lower_char c)), lower_char_underscore.
  apply Ascii.eqb_sym.
Qed.

Lemma contains_lower_underscores (u s : string) :
  PyStr.all_chars (Ascii.eqb "_") u = true ->
  PyStr.contains u (PyStr.lower s) = PyStr.contains u s.
Proof.
  intros Hu. induction s as [| c s IH].
  - reflexivity.
  - change (PyStr.lower (String c s))
      with (String (PyStr.lower_char c) (PyStr.lower s)).
    cbn [PyStr.contains]. rewrite IH.
    change (String (PyStr.lower_char c) (PyStr.lower s))
      with (PyStr.lower (String c s)).
    now rewrite startswith_lower_underscores.
Qed.

Lemma endswith_lower_underscore (s : string) :
  PyStr.endswith_char "_" (PyStr.lower s) = PyStr.endswith_char "_" s.
Proof.
  induction s as [| c s IH]; [reflexivity |].
  change (PyStr.lower (String c s))
    with (String (PyStr.lower_char c) (PyStr.lower s)).
  destruct s as [| d s].
  - simpl. apply lower_char_underscore.
  - change (PyStr.lower (String d s))
      with (String (PyStr.lower_char d) (PyStr.lower s)) in *.
    exact IH.
Qed.

Lemma all_chars_lower_safe (s : string) :
  PyStr.all_chars (fun c => PyStr.is_alnum c || Ascii.eqb c "_") s = true ->
  PyStr.all_chars is_safe_char (PyStr.lower s) = true.
Proof.
  induction s as [| c s IH]; simpl; [reflexivity |].
  intros H. apply andb_prop in H. destruct H as [Hc Hs].
  fold (PyStr.lower s). now rewrite lower_char_safe, IH.
Qed.

Lemma safe_name_shaped (s : string) :
  PyStr.all_chars is_safe_char (safe_name s) = true
  /\ PyStr.startswith "_" (safe_name s) = false
  /\ PyStr.endswith_char "_" (safe_name s) = false
  /\ PyStr.contains "__" (safe_name s) = false.
Proof.
  unfold safe_name, PyStr.strip_char.
  destruct (sub_runs_no_double false s) as [Hd _].
  conjuncts.
  - apply all_chars_lower_safe, all_chars_rstrip, all_chars_lstrip, sub_runs_chars.
  - rewrite startswith_lower_underscores by reflexivity.
    apply rstrip_keeps_start; [apply lstrip_starts_outside | discriminate].
  - rewrite endswith_lower_underscore. apply rstrip_ends_outside.
  - rewrite contains_lower_underscores by reflexivity.
    now apply contains_rstrip, contains_lstrip.
Qed.

Lemma safe_not_alnum (c : ascii) :
  is_safe_char c = true -> PyStr.is_alnum c = false -> c = "_"%char.
Proof.
  unfold is_safe_char, PyStr.is_alnum. intros H1 H2.
  destruct (PyStr.is_lower c); [discriminate |].
  destruct (PyStr.is_digit c); [now rewrite orb_true_r in H2 |].
  now apply Ascii.eqb_eq.
Qed.

Lemma sub_runs_fixed (b : bool) (u : string) :
  PyStr.all_chars is_safe_char u = true ->
  PyStr.contains "__" u = false ->
  (b = true -> PyStr.startswith "_" u = false) ->
  sub_runs b u = u.
Proof.
  revert b. induction u as [| c u IH]; intros b Hs Hd Hb; [reflexivity |].
  cbn [PyStr.all_chars] in Hs. apply andb_prop in Hs. destruct Hs as [Hc Hs].
  rewrite contains_cons in Hd. apply orb_false_iff in Hd. destruct Hd as [Hd1 Hd2].
  cbn [sub_runs]. destruct (PyStr.is_alnum c) eqn:E.
  - f_equal. apply IH; [assumption | assumption | discriminate].
  - pose proof (safe_not_alnum c Hc E) as ->.
    destruct b.
    + specialize (Hb eq_refl). discriminate.
    + f_equal. apply IH; [assumption | assumption |].
      intros _. rewrite startswith_cons in Hd1. exact Hd1.
Qed.

Lemma lstrip_fixed (c : ascii) (u : string) :
  PyStr.startswith (String c EmptyString) u = false ->
  PyStr.lstrip_by (Ascii.eqb c) u = u.
Proof.
  destruct u as [| a u]; [reflexivity |].
  rewrite startswith_cons, andb_true_r. cbn [PyStr.lstrip_by]. now intros ->.
Qed.

Lemma rstrip_fixed (c : ascii) (u : string) :
  PyStr.endswith_char c u = false -> PyStr.rstrip_by (Ascii.eqb c) u = u.
Proof.
  induction u as [| a u IH]; [reflexivity |].
  destruct u as [| b r].
  - cbn [PyStr.endswith_char PyStr.rstrip_by]. rewrite Ascii.eqb_sym. now intros ->.
  - intros H. change (PyStr.endswith_char c (String b r) = false) in H.
    specialize (IH H). cbn [PyStr.rstrip_by] in *. now rewrite IH.
Qed.

Lemma lower_fixed (u : string) :
  PyStr.all_chars is_safe_char u = true -> PyStr.lower u = u.
Proof.
  induction u as [| c u IH]; [reflexivity |].
  cbn [PyStr.all_chars]. intros H. apply andb_prop in H. destruct H as [Hc Hu].
  change (PyStr.lower (String c u)) with (String (PyStr.lower_char c) (PyStr.lower u)).
  rewrite (IH Hu). f_equal.
  revert Hc. destruct c as [[] [] [] [] [] [] [] []]; vm_compute; auto; discriminate.
Qed.

Lemma keep_alnum_sub_runs (b : bool) (s : string) :
  keep_chars PyStr.is_alnum (sub_runs b s) = keep_chars PyStr.is_alnum s.
Proof.
  revert b. induction s as [| c s IH]; intros b; [reflexivity |].
  cbn [sub_runs keep_chars]. destruct (PyStr.is_alnum c) eqn:E.
  - cbn [keep_chars]. now rewrite E, IH.
  - destruct b; [apply IH |]. cbn [keep_chars].
    change (PyStr.is_alnum "_") with false. cbv iota. apply IH.
Qed.

Lemma keep_lstrip (p q : ascii -> bool) (s : string) :
  (forall c, q c = true -> p c = false) ->
  keep_chars p (PyStr.lstrip_by q s) = keep_chars p s.
Proof.
  intros H. induction s as [| c s IH]; [reflexivity |].
  cbn [PyStr.lstrip_by]. destruct (q c) eqn:E; [| reflexivity].
  cbn [keep_chars]. now rewrite (H c E).
Qed.

Lemma keep_rstrip (p q : ascii -> bool) (s : string) :
  (forall c, q c = true -> p c = false) ->
  keep_chars p (PyStr.rstrip_by q s) = keep_chars p s.
Proof.
  intros H. induction s as [| c s IH]; [reflexivity |].
  cbn [PyStr.rstrip_by keep_chars].
  destruct (PyStr.rstrip_by q s) as [| b r].
  - cbn [keep_chars] in IH. rewrite <- IH.
    destruct (q c) eqn:E.
    + now rewrite (H c E).
    + cbn [keep_chars]. reflexivity.
  - cbn [keep_chars] in *. now rewrite IH.
Qed.

Lemma keep_alnum_lower (s : string) :
  keep_chars PyStr.is_alnum (PyStr.lower s)
  = PyStr.lower (keep_chars PyStr.is_alnum s).
Proof.
  induction s as [| c s IH]; [reflexivity |].
  change (PyStr.lower (String c s)) with (String (PyStr.lower_char c) (PyStr.lower s)).
  cbn [keep_chars]. rewrite IH.
  assert (E : PyStr.is_alnum (PyStr.lower_char c) = PyStr.is_alnum c)
    by (destruct c as [[] [] [] [] [] [] [] []]; reflexivity).
  rewrite E. now destruct (PyStr.is_alnum c).
Qed.

(** ** The words of a name *)

Lemma concat_underscored (w : string) (rest : list string) :
  String.concat "_" (w :: rest) = w ++ underscored rest.
Proof.
  revert w. induction rest as [| r rest IH]; intros w.
  - cbn [String.concat underscored]. symmetry. apply append_nil_r.
  - change (String.concat "_" (w :: r :: rest))
      with (w ++ "_" ++ String.concat "_" (r :: rest)).
    now rewrite IH.
Qed.

Lemma pieces_cons (s : string) : exists w ws, pieces s = w :: ws.
Proof.
  destruct s as [| c s]; cbn [pieces]; [now eexists; eexists |].
  destruct (PyStr.is_alnum c); [| now eexists; eexists].
  destruct (pieces s); now eexists; eexists.
Qed.

Lemma rstrip_cons_keep (p : ascii -> bool) (c : ascii) (x : string) :
  p c = false ->
  PyStr.rstrip_by p (String c x) = String c (PyStr.rstrip_by p x).
Proof.
  intros H. cbn [PyStr.rstrip_by]. rewrite H.
  now destruct (PyStr.rstrip_by p x).
Qed.

Lemma rstrip_cons_drop (p : ascii -> bool) (c : ascii) (x : string) :
  p c = true ->
  PyStr.rstrip_by p (String c x)
  = match PyStr.rstrip_by p x with
    | EmptyString => EmptyString
    | String a r => String c (String a r)
    end.
Proof. intros H. cbn [PyStr.rstrip_by]. now rewrite H. Qed.

(** behind an underscore each, words are their joined text behind one
    underscore, if there is any *)
Lemma underscored_join (l : list string) :
  Forall (fun w => nonempty w = true) l ->
  underscored l
  = match join_underscore l with
    | EmptyString => EmptyString
    | String a r => String "_" (String a r)
    end.
Proof.
  unfold join_underscore.
  destruct l as [| w l]; [reflexivity |]. intros H.
  rewrite concat_underscored. cbn [underscored].
  apply Forall_inv in H. destruct w as [| a w]; [discriminate | reflexivity].
Qed.

Lemma words_nonempty (s : string) :
  Forall (fun w => nonempty w = true) (words_of s).
Proof. apply Forall_forall. intros w H. now apply filter_In in H. Qed.

(** the text after the substitution, without the underscores at its
    end: from the start of a word or of a run of other characters *)
Lemma sub_runs_words (s : string) :
  PyStr.rstrip_by (Ascii.eqb "_") (sub_runs false s)
  = hd EmptyString (pieces s) ++ underscored (filter nonempty (tl (pieces s)))
  /\ PyStr.rstrip_by (Ascii.eqb "_") (sub_runs true s)
     = join_underscore (words_of s).
Proof.
  induction s as [| c s [IH1 IH2]]; [split; reflexivity |].
  destruct (pieces_cons s) as (w0 & ws & Ep).
  unfold words_of in *. cbn [sub_runs pieces]. rewrite Ep in *.
  cbn [hd tl] in IH1.
  destruct (PyStr.is_alnum c) eqn:Ec.
  - pose proof (alnum_not_underscore c Ec) as Hc. rewrite Ascii.eqb_sym in Hc.
    rewrite !rstrip_cons_keep by exact Hc. rewrite IH1.
    cbn [hd tl filter nonempty String.eqb negb]. unfold join_underscore.
    rewrite concat_underscored. split; reflexivity.
  - cbn [hd tl filter nonempty String.eqb negb append]. split; [| exact IH2].
    rewrite rstrip_cons_drop by reflexivity. rewrite IH2.
    symmetry. apply underscored_join.
    apply Forall_forall. intros w H. now apply filter_In in H.
Qed.

(** the text after the substitution, without the underscores at either
    end *)
Lemma strip_sub_runs (b : bool) (s : string) :
  PyStr.strip_char "_" (sub_runs b s) = join_underscore (words_of s).
Proof.
  unfold PyStr.strip_char. revert b.
  induction s as [| c s IH]; intros b; [reflexivity |].
  destruct (PyStr.is_alnum c) eqn:Ec.
  - pose proof (alnum_not_underscore c Ec) as Hc. rewrite Ascii.eqb_sym in Hc.
    rewrite <- (proj2 (sub_runs_words (String c s))).
    cbn [sub_runs]. rewrite Ec. cbn [PyStr.lstrip_by]. now rewrite Hc.
  - assert (Ew : words_of (String c s) = words_of s).
    { unfold words_of. cbn [pieces]. now rewrite Ec. }
    rewrite Ew, <- (IH true). cbn [sub_runs]. rewrite Ec.
    destruct b; [reflexivity |]. cbn [PyStr.lstrip_by].
    now rewrite Ascii.eqb_refl.
Qed.

Lemma lower_append (a b : string) :
  PyStr.lower (a ++ b) = PyStr.lower a ++ PyStr.lower b.
Proof.
  unfold PyStr.lower. induction a as [| c a IH]; [reflexivity |].
  cbn [append PyStr.map_chars]. now rewrite IH.
Qed.

Lemma lower_underscored (l : list string) :
  PyStr.lower (underscored l) = underscored (map PyStr.lower l).
Proof.
  induction l as [| w l IH]; [reflexivity |].
  cbn [underscored map]. now rewrite !lower_append, IH.
Qed.

Lemma lower_join (l : list string) :
  PyStr.lower (join_underscore l) = join_underscore (map PyStr.lower l).
Proof.
  unfold join_underscore. destruct l as [| w l]; [reflexivity |].
  cbn [map]. now rewrite !concat_underscored, lower_append, lower_underscored.
Qed.

Lemma safe_name_words (s : string) :
  safe_name s = join_underscore (map PyStr.lower (words_of s)).
Proof. unfold safe_name. now rewrite strip_sub_runs, lower_join. Qed.

End SafeNames.

(** X1. The name that [safe_name] gives is made of lower-case letters,
    digits and underscores only, neither starts nor ends with an
    underscore, and has no two underscores in a row. *)
Theorem safe_name_shape (s : string) :
  PyStr.all_chars is_safe_char (Audit.safe_name s) = true
  /\ PyStr.startswith "_" (Audit.safe_name s) = false
  /\ PyStr.endswith_char "_" (Audit.safe_name s) = false
  /\ PyStr.contains "__" (Audit.safe_name s) = false.
Proof. apply safe_name_shaped. Qed.

(** X2. [safe_name] is idempotent: a safe name is its own safe name. *)
Theorem safe_name_idempotent (s : string) :
  Audit.safe_name (Audit.safe_name s) = Audit.safe_name s.
Proof.
  destruct (safe_name_shaped s) as (Hc & Hs & He & Hd).
  set (u := Audit.safe_name s) in *.
  unfold Audit.safe_name at 1. unfold PyStr.strip_char.
  rewrite (sub_runs_fixed false u Hc Hd) by discriminate.
  rewrite (lstrip_fixed "_" u Hs), (rstrip_fixed "_" u He).
  now apply lower_fixed.
Qed.

(** X3. [safe_name] gives the words of the text, its maximal runs of
    letters and digits, in lower case and joined by single
    underscores.  So it keeps the letters and digits of the text, all
    of them and in their order, and two names with the same words up
    to letter case, whatever stands between the words, before the
    first or after the last, get the same safe name. *)
Theorem safe_name_letters_and_digits (s : string) :
  Audit.safe_name s = join_underscore (map PyStr.lower (words_of s))
  /\ keep_chars PyStr.is_alnum (Audit.safe_name s)
     = PyStr.lower (keep_chars PyStr.is_alnum s)
  /\ (forall t,
        map PyStr.lower (words_of t) = map PyStr.lower (words_of s) ->
        Audit.safe_name t = Audit.safe_name s).
Proof.
  split; [apply safe_name_words | split].
  - unfold Audit.safe_name, PyStr.strip_char.
    assert (H : forall c, Ascii.eqb "_" c = true -> PyStr.is_alnum c = false).
    { intros c E. apply Ascii.eqb_eq in E. now subst c. }
    now rewrite keep_alnum_lower, keep_rstrip, keep_lstrip, keep_alnum_sub_runs.
  - intros t H. now rewrite !safe_name_words, H.
Qed.

Lemma safe_name_letters_and_digits_witness :
  Audit.safe_name "  actual_p-L..2024!" = Audit.safe_name "Actual P&L 2024".
Proof.
  apply (proj2 (proj2 (safe_name_letters_and_digits "Actual P&L 2024"))).
  reflexivity.
Defined.

(** * Header scores, month columns and the candidates kept for debugging *)

Section HeaderScores.
Import Audit.

Lemma upper_char_lower (c : ascii) :
  PyStr.upper_char (PyStr.lower_char c) = PyStr.upper_char c.
Proof. destruct c as [[] [] [] [] [] [] [] []]; reflexivity. Qed.

Lemma upper_char_upper (c : ascii) :
  PyStr.upper_char (PyStr.upper_char c) = PyStr.upper_char c.
Proof. destruct c as [[] [] [] [] [] [] [] []]; reflexivity. Qed.

Lemma upper_lower (s : string) : PyStr.upper (PyStr.lower s) = PyStr.upper s.
Proof.
  induction s as [| c s IH]; [reflexivity |].
  unfold PyStr.upper, PyStr.lower in *. cbn [PyStr.map_chars].
  now rewrite upper_char_lower, IH.
Qed.

Lemma upper_upper (s : string) : PyStr.upper (PyStr.upper s) = PyStr.upper s.
Proof.
  induction s as [| c s IH]; [reflexivity |].
  unfold PyStr.upper in *. cbn [PyStr.map_chars].
  now rewrite upper_char_upper, IH.
Qed.

(** the score is computed from the upper-cased cells *)
Lemma row_score_for_header_upper (vals vals' : list string) :
  map PyStr.upper vals = map PyStr.upper vals' ->
  row_score_for_header vals = row_score_for_header vals'.
Proof. unfold row_score_for_header. now intros ->. Qed.

Lemma lstrip_outside (p : ascii -> bool) (s : string) :
  starts_outside p (PyStr.lstrip_by p s).
Proof.
  induction s as [| c s IH]; simpl; [exact I |].
  destruct (p c) eqn:E; [exact IH | exact E].
Qed.

Lemma lstrip_same (p : ascii -> bool) (s : string) :
  starts_outside p s -> PyStr.lstrip_by p s = s.
Proof. destruct s as [| c s]; simpl; [reflexivity | now intros ->]. Qed.

Lemma rstrip_outside (p : ascii -> bool) (s : string) :
  starts_outside p s -> starts_outside p (PyStr.rstrip_by p s).
Proof.
  destruct s as [| c s]; simpl; [auto |]. intros H.
  destruct (PyStr.rstrip_by p s); [rewrite H |]; exact H.
Qed.

Lemma rstrip_rstrip (p : ascii -> bool) (s : string) :
  PyStr.rstrip_by p (PyStr.rstrip_by p s) = PyStr.rstrip_by p s.
Proof.
  induction s as [| c s IH]; [reflexivity |].
  cbn [PyStr.rstrip_by].
  destruct (PyStr.rstrip_by p s) as [| b r] eqn:E.
  - destruct (p c) eqn:Pc; [reflexivity |]. simpl. now rewrite Pc.
  - cbn [PyStr.rstrip_by]. cbn [PyStr.rstrip_by] in IH. now rewrite IH.
Qed.

(** trimming a trimmed text changes nothing *)
Lemma strip_strip (s : string) : PyStr.strip (PyStr.strip s) = PyStr.strip s.
Proof.
  unfold PyStr.strip.
  rewrite (lstrip_same PyStr.is_space) by apply rstrip_outside, lstrip_outside.
  apply rstrip_rstrip.
Qed.

Lemma normalize_text_stripped (x : cell) :
  PyStr.strip (normalize_text x) = normalize_text x.
Proof.
  unfold normalize_text. destruct (is_none_or_nan x); [reflexivity | apply strip_strip].
Qed.

(** on trimmed labels, [find_month_columns] finds the cells that the
    score counts as months *)
Lemma months_found (vals : list string) :
  Forall (fun v => PyStr.strip v = v) vals ->
  count_if (fun v => PyStr.mem v MONTH_NAMES) (map PyStr.upper vals)
  = Z.of_nat (List.length (find_month_columns vals)).
Proof.
  intros H. unfold count_if, find_month_columns. f_equal.
  induction H as [| v vals Hv _ IH]; [reflexivity |].
  cbn [map filter]. rewrite Hv.
  destruct (PyStr.mem (PyStr.upper v) MONTH_NAMES); cbn [List.length]; now rewrite IH.
Qed.

Lemma insert_desc_In (x c : candidate) (l : list candidate) :
  In c (insert_desc x l) <-> c = x \/ In c l.
Proof.
  induction l as [| y l IH]; simpl.
  - intuition.
  - destruct (cand_score y <=? cand_score x); simpl; [intuition |].
    rewrite IH. intuition.
Qed.

Lemma sorted_desc_In (c : candidate) (l : list candidate) :
  In c (sorted_desc l) <-> In c l.
Proof.
  induction l as [| x l IH]; simpl; [tauto |].
  rewrite insert_desc_In, IH. intuition.
Qed.

Lemma insert_desc_length (x : candidate) (l : list candidate) :
  List.length (insert_desc x l) = S (List.length l).
Proof.
  induction l as [| y l IH]; simpl; [reflexivity |].
  destruct (cand_score y <=? cand_score x); simpl; [reflexivity | now rewrite IH].
Qed.

Lemma sorted_desc_length (l : list candidate) :
  List.length (sorted_desc l) = List.length l.
Proof.
  induction l as [| x l IH]; simpl; [reflexivity |].
  now rewrite insert_desc_length, IH.
Qed.

Lemma insert_desc_sorted (x : candidate) (l : list candidate) :
  StronglySorted (fun a b => cand_score b <= cand_score a) l ->
  StronglySorted (fun a b => cand_score b <= cand_score a) (insert_desc x l).
Proof.
  induction 1 as [| y l Hs IH Hall]; simpl.
  - constructor; constructor.
  - destruct (cand_score y <=? cand_score x) eqn:Le.
    + apply Z.leb_le in Le. constructor; [now constructor |].
      constructor; [exact Le |].
      eapply Forall_impl; [| exact Hall]. simpl. intros; lia.
    + apply Z.leb_gt in Le. constructor; [exact IH |].
      apply Forall_forall. intros z Hz. apply insert_desc_In in Hz.
      destruct Hz as [-> | Hz]; [lia |].
      rewrite Forall_forall in Hall. now apply Hall.
Qed.

Lemma sorted_desc_sorted (l : list candidate) :
  StronglySorted (fun a b => cand_score b <= cand_score a) (sorted_desc l).
Proof.
  induction l as [| x l IH]; simpl; [constructor | now apply insert_desc_sorted].
Qed.

Lemma StronglySorted_firstn {A : Type} (R : A -> A -> Prop) (n : nat) (l : list A) :
  StronglySorted R l -> StronglySorted R (firstn n l).
Proof.
  intros H. revert n. induction H as [| x l Hs IH Hall]; intros [| n]; simpl;
    try constructor; [apply IH |].
  rewrite Forall_forall in *. intros y Hy. apply Hall.
  rewrite <- (firstn_skipn n l). apply in_or_app. now left.
Qed.

Lemma In_firstn {A : Type} (n : nat) (l : list A) (x : A) :
  In x (firstn n l) -> In x l.
Proof.
  intros H. rewrite <- (firstn_skipn n l). apply in_or_app. now left.
Qed.

(** a candidate of the scan carries the index of its row, the score of
    the row and the first fifteen trimmed cells *)
Lemma scan_rows_candidate (i0 : Z) (rs : list (list cell)) (c : candidate) :
  In c (scan_rows i0 rs) ->
  exists k, (k < List.length rs)%nat
            /\ c = (i0 + Z.of_nat k, row_score (nth k rs []),
                    firstn 15 (map normalize_text (nth k rs [])))
            /\ 0 < row_score (nth k rs []).
Proof.
  revert i0.
  induction rs as [| row rs IH]; simpl; intros i0 H; [contradiction |].
  apply in_app_or in H. destruct H as [H | H].
  - destruct (row_score_for_header (map normalize_text row) >? 0) eqn:Pos;
      [| contradiction].
    destruct H as [<- | []].
    exists 0%nat. unfold row_score. simpl.
    repeat split; [lia | do 2 f_equal; lia | lia].
  - destruct (IH _ H) as (k & Hk & -> & Hp).
    exists (S k). simpl. repeat split; [lia | do 2 f_equal; lia | assumption].
Qed.

(** the rows of positive score among some rows *)
Lemma scan_rows_length (i0 : Z) (rs : list (list cell)) :
  List.length (scan_rows i0 rs)
  = List.length (filter (fun row => row_score row >? 0) rs).
Proof.
  revert i0. induction rs as [| row rs IH]; intros i0; [reflexivity |].
  cbn [scan_rows filter]. rewrite length_app, IH. unfold row_score.
  now destruct (row_score_for_header (map normalize_text row) >? 0).
Qed.

(** a test on the upper-cased trimmed cells of a row, as a property of
    its cells *)
Lemma existsb_cells (test : string -> bool) (P : cell -> Prop) (row : list cell) :
  (forall c, test (PyStr.upper (normalize_text c)) = true <-> P c) ->
  (existsb test (map PyStr.upper (map normalize_text row)) = true
   <-> Exists P row).
Proof.
  intros H. rewrite existsb_exists, Exists_exists. split.
  - intros (v & Hv & Ht). apply in_map_iff in Hv. destruct Hv as (u & <- & Hu).
    apply in_map_iff in Hu. destruct Hu as (c & <- & Hc).
    exists c. split; [exact Hc | now apply H].
  - intros (c & Hc & Hp). exists (PyStr.upper (normalize_text c)).
    split; [now apply in_map, in_map | now apply H].
Qed.

Lemma bonus_for_test (b : bool) (P : Prop) (w : Z) :
  (b = true <-> P) -> bonus_for P w (if b then w else 0).
Proof.
  intros H. destruct b; [left | right]; (split; [| reflexivity]).
  - now apply H.
  - intros HP. apply H in HP. discriminate.
Qed.

(** the second test of line 55 adds nothing to the first *)
Lemma line_item_test (v : string) :
  PyStr.mem (PyStr.remove_char " " v) ["LINEITEM"; "LINEITEMS"]
  || String.eqb v "LINE ITEM" = true
  <-> In (PyStr.remove_char " " v) ["LINEITEM"; "LINEITEMS"].
Proof.
  rewrite orb_true_iff, mem_In. split; [| now left].
  intros [H | H]; [exact H |].
  apply String.eqb_eq in H. subst v. left. reflexivity.
Qed.

End HeaderScores.

(** X4. The header score of a row does not depend on the letter case of
    its cells: lower-casing or upper-casing every cell leaves the
    score as it is. *)
Theorem row_score_for_header_ignores_case (row_values : list string) :
  Audit.row_score_for_header (map PyStr.lower row_values)
  = Audit.row_score_for_header row_values
  /\ Audit.row_score_for_header (map PyStr.upper row_values)
     = Audit.row_score_for_header row_values.
Proof.
  split; apply row_score_for_header_upper; rewrite map_map; apply map_ext; intros v.
  - apply upper_lower.
  - apply upper_upper.
Qed.

(** X5. The header score of a grid row is the number of month columns
    that [find_month_columns] finds among its trimmed cells, plus 4 if
    a cell reads Account, plus 4 if a cell reads Line Item once its
    spaces are removed (LINEITEM or LINEITEMS), plus 2 if a cell reads
    Total, cells being trimmed and read in either case.  A row with a
    month cell is therefore a header candidate. *)
Theorem row_score_counts_month_columns (row : list cell) :
  let months :=
    Z.of_nat (List.length (Audit.find_month_columns (map Audit.normalize_text row))) in
  exists account line total,
    bonus_for (Exists (reads_as "ACCOUNT") row) 4 account
    /\ bonus_for (Exists reads_as_line_item row) 4 line
    /\ bonus_for (Exists (reads_as "TOTAL") row) 2 total
    /\ Audit.row_score row = account + line + months + total
    /\ (0 < months -> 0 < Audit.row_score row).
Proof.
  intros months. unfold Audit.row_score, Audit.row_score_for_header.
  rewrite months_found
    by (apply Forall_forall; intros v Hv; apply in_map_iff in Hv;
        destruct Hv as (x & <- & _); apply normalize_text_stripped).
  fold months. cbv zeta.
  set (upper := map PyStr.upper (map Audit.normalize_text row)).
  set (bA := existsb (fun v => String.eqb v "ACCOUNT") upper).
  set (bT := existsb (fun v => String.eqb v "TOTAL") upper).
  set (bL := existsb _ upper).
  exists (if bA then 4 else 0), (if bL then 4 else 0), (if bT then 2 else 0).
  assert (Hm : 0 <= months) by (subst months; lia).
  conjuncts.
  - apply bonus_for_test. apply existsb_cells. intros c. apply String.eqb_eq.
  - apply bonus_for_test. apply existsb_cells. intros c. apply line_item_test.
  - apply bonus_for_test. apply existsb_cells. intros c. apply String.eqb_eq.
  - destruct bA, bL, bT; lia.
  - destruct bA, bL, bT; lia.
Qed.

(** X6. The candidates that [detect_header_row] keeps for debugging are
    at most ten, in descending order of score; each is a scanned row
    with its positive score and its first fifteen trimmed cells; the
    best index reported is the one returned, and the best score
    reported is the score of that row. *)
Theorem detect_header_row_debug (raw_df : RawGrid) (search_rows : Z) :
  let best := fst (Audit.detect_header_row raw_df search_rows) in
  let debug := snd (Audit.detect_header_row raw_df search_rows) in
  Audit.best_row_index debug = best
  /\ Audit.best_score debug = option_map (score_at raw_df) best
  /\ (List.length (Audit.candidates_top10 debug) <= 10)%nat
  /\ StronglySorted (fun a b => Audit.cand_score b <= Audit.cand_score a)
                    (Audit.candidates_top10 debug)
  /\ (forall c, In c (Audit.candidates_top10 debug) ->
        scanned raw_df search_rows (Audit.cand_index c)
        /\ Audit.cand_score c = score_at raw_df (Audit.cand_index c)
        /\ 0 < Audit.cand_score c
        /\ snd c = firstn 15 (map Audit.normalize_text
                                  (nth (Z.to_nat (Audit.cand_index c)) raw_df []))).
Proof.
  intros best debug. subst best debug. unfold Audit.detect_header_row.
  cbn [fst snd Audit.best_row_index Audit.best_score Audit.candidates_top10].
  set (n := Z.min search_rows (Z.of_nat (List.length raw_df))).
  set (rs := firstn (Z.to_nat n) raw_df).
  assert (Hcand : forall c, In c (Audit.sorted_desc (Audit.scan_rows 0 rs)) ->
            scanned raw_df search_rows (Audit.cand_index c)
            /\ Audit.cand_score c = score_at raw_df (Audit.cand_index c)
            /\ 0 < Audit.cand_score c
            /\ snd c = firstn 15 (map Audit.normalize_text
                                      (nth (Z.to_nat (Audit.cand_index c)) raw_df []))).
  { intros c Hc. apply sorted_desc_In, scan_rows_candidate in Hc.
    destruct Hc as (k & Hk & -> & Hp).
    assert (Hlen : (List.length rs <= Z.to_nat n)%nat) by apply firstn_le_length.
    assert (Hlen' : (List.length rs <= List.length raw_df)%nat).
    { unfold rs. rewrite length_firstn. lia. }
    unfold Audit.cand_index, Audit.cand_score, score_at, scanned. cbn [fst snd].
    fold n. replace (Z.to_nat (0 + Z.of_nat k)) with k by lia.
    assert (E : nth k rs [] = nth k raw_df []) by (apply nth_firstn_below; lia).
    rewrite <- E. repeat split; try lia; try reflexivity. }
  conjuncts.
  - reflexivity.
  - destruct (Audit.sorted_desc (Audit.scan_rows 0 rs)) as [| c l] eqn:E;
      [reflexivity |].
    cbn [option_map]. f_equal. apply Hcand. now left.
  - apply firstn_le_length.
  - apply StronglySorted_firstn, sorted_desc_sorted.
  - intros c Hc. apply Hcand. eapply In_firstn, Hc.
Qed.

(** * Extraction: repeated labels, invariants, and the steps of the audit *)

Section ExtractionOutcome.
Import Audit.

Lemma positions_from_length (j0 : nat) (c : string) (ls : list string) :
  List.length (positions_from j0 c ls) = occurrences c ls.
Proof.
  unfold occurrences. revert j0.
  induction ls as [| l ls IH]; intros j0; [reflexivity |].
  cbn [positions_from count_occ]. rewrite length_app, IH.
  destruct (string_dec l c) as [E | E].
  - apply String.eqb_eq in E. now rewrite E.
  - apply String.eqb_neq in E. now rewrite E.
Qed.

Lemma repeated_label_exists (ls : list string) :
  ~ NoDup ls -> exists c, In c ls /\ (2 <= occurrences c ls)%nat.
Proof.
  unfold occurrences.
  induction ls as [| l ls IH]; intros H; [exfalso; apply H; constructor |].
  destruct (in_dec string_dec l ls) as [Hin | Hnot].
  - exists l. split; [now left |]. cbn [count_occ].
    destruct (string_dec l l); [| contradiction].
    apply (count_occ_In string_dec) in Hin. lia.
  - destruct IH as (c & Hc & Hocc).
    { intros Hnd. apply H. now constructor. }
    exists c. split; [now right |]. cbn [count_occ].
    destruct (string_dec l c); lia.
Qed.

Lemma NoDup_occurrences (ls : list string) (c : string) :
  NoDup ls -> In c ls -> occurrences c ls = 1%nat.
Proof.
  intros Hnd Hin. unfold occurrences.
  apply (NoDup_count_occ' string_dec); assumption.
Qed.

(** what [is_blank_col(df[c])] gives, by the number of columns
    labelled [c] *)
Lemma blank_test_outcome (df : DataFrame) (c : string) :
  In c (columns df) ->
  (occurrences c (columns df) = 1%nat ->
   exists b, (col <- getitem df c ;; is_blank_col col) = Ok b)
  /\ ((2 <= occurrences c (columns df))%nat ->
      (col <- getitem df c ;; is_blank_col col) = Raise ValueError).
Proof.
  intros Hin. unfold getitem. rewrite <- (positions_from_length 0).
  destruct (positions_from 0 c (columns df)) as [| j [| j' js]]; cbn [List.length bind].
  - split; intros; lia.
  - split; [intros _; eexists; reflexivity | intros; lia].
  - split; [intros; lia | intros _; reflexivity].
Qed.

Lemma filterM_raise {A : Type} (p : A -> result bool) (e : exn) (xs : list A) :
  (forall x, In x xs -> (exists b, p x = Ok b) \/ p x = Raise e) ->
  (exists x, In x xs /\ p x = Raise e) ->
  filterM p xs = Raise e.
Proof.
  induction xs as [| x xs IH]; intros Hall (y & Hy & Ey); [contradiction |].
  cbn [filterM].
  destruct (Hall x (or_introl eq_refl)) as [(b & Eb) | Ex].
  - rewrite Eb. cbn [bind].
    destruct Hy as [-> | Hy]; [congruence |].
    rewrite IH; [reflexivity | | now exists y].
    intros z Hz. apply Hall. now right.
  - now rewrite Ex.
Qed.

Lemma filterM_ok {A : Type} (p : A -> result bool) (xs : list A) :
  (forall x, In x xs -> exists b, p x = Ok b) ->
  exists ys, filterM p xs = Ok ys /\ incl ys xs.
Proof.
  induction xs as [| x xs IH]; intros Hall.
  - exists []. split; [reflexivity | apply incl_refl].
  - destruct (Hall x (or_introl eq_refl)) as (b & Eb).
    destruct IH as (ys & Eys & Hincl); [intros z Hz; apply Hall; now right |].
    cbn [filterM]. rewrite Eb. cbn [bind]. rewrite Eys. cbn [bind].
    eexists. split; [reflexivity |].
    destruct b; [apply incl_cons; [now left | now apply incl_tl] | now apply incl_tl].
Qed.

(** a repeated label stops the removal of blank columns *)
Lemma remove_blank_repeated (df : DataFrame) :
  ~ NoDup (columns df) -> remove_blank df = Raise ValueError.
Proof.
  intros H. unfold remove_blank.
  rewrite (filterM_raise _ ValueError); [reflexivity | |].
  - intros c Hc. cbn [dropna_all columns] in Hc.
    destruct (blank_test_outcome (dropna_all df) c Hc) as [H1 H2].
    assert (Hpos : (0 < occurrences c (columns df))%nat)
      by now apply (count_occ_In string_dec).
    destruct (Nat.eq_dec (occurrences c (columns df)) 1) as [E | E].
    + left. now apply H1.
    + right. apply H2. cbn [dropna_all columns]. lia.
  - destruct (repeated_label_exists _ H) as (c & Hc & Hocc).
    exists c. split; [exact Hc |].
    now apply (blank_test_outcome (dropna_all df) c Hc).
Qed.

Lemma select_sublist {A : Type} (mask : list bool) (xs : list A) :
  incl (select mask xs) xs.
Proof. intros x. apply select_In. Qed.

(** without repeated labels the removal returns a table, whose labels
    are among those of the table given and are not repeated either *)
Lemma remove_blank_distinct (df : DataFrame) :
  NoDup (columns df) ->
  exists df', remove_blank df = Ok df'
              /\ NoDup (columns df') /\ incl (columns df') (columns df)
              /\ List.length (rows df') = List.length (filter has_value (rows df)).
Proof.
  intros Hnd. unfold remove_blank.
  destruct (filterM_ok (fun c => col <- getitem (dropna_all df) c ;; is_blank_col col)
                       (columns (dropna_all df))) as (bl & -> & _).
  { intros c Hc. apply (blank_test_outcome (dropna_all df) c Hc).
    now apply NoDup_occurrences. }
  cbn [bind]. eexists. split; [reflexivity |].
  destruct bl as [| b bl].
  - cbn [dropna_all columns rows]. repeat split; [assumption | apply incl_refl].
  - unfold drop_columns. cbn [dropna_all columns rows].
    repeat split; [now apply select_NoDup | apply select_sublist | apply length_map].
Qed.

Lemma missing_cells_same_label (row : list cell) (i j : nat) (x y : cell) :
  i <> j -> nth_error row i = Some x -> nth_error row j = Some y ->
  isna x = true -> isna y = true ->
  ~ NoDup (map normalize_text row).
Proof.
  intros Hij Hx Hy Nx Ny Hnd. unfold isna in Nx, Ny.
  assert (Ex : normalize_text x = EmptyString) by (unfold normalize_text; now rewrite Nx).
  assert (Ey : normalize_text y = EmptyString) by (unfold normalize_text; now rewrite Ny).
  apply Hij. rewrite NoDup_nth_error in Hnd. apply Hnd.
  - apply nth_error_Some. rewrite nth_error_map, Hx. discriminate.
  - rewrite !nth_error_map, Hx, Hy. cbn [option_map]. congruence.
Qed.

(** the columns of the rows cut down by a mask *)
Lemma columns_succ {B : Type} (f : list cell -> B) (n : nat) (rs : list (list cell)) :
  map (fun j => f (column_at j rs)) (seq 0 (S n))
  = f (column_at 0 rs) :: map (fun j => f (column_at j (map (@tl cell) rs))) (seq 0 n).
Proof.
  cbn [seq map]. f_equal.
  rewrite seq_shift_map. apply map_ext. intros j. now rewrite column_at_succ.
Qed.

Lemma columns_select {B : Type} (f : list cell -> B) (mask : list bool)
      (rs : list (list cell)) :
  rows_of_width (List.length mask) rs ->
  map (fun j => f (column_at j (map (select mask) rs)))
      (seq 0 (List.length (filter (fun b => b) mask)))
  = select mask (map (fun j => f (column_at j rs)) (seq 0 (List.length mask))).
Proof.
  revert rs. induction mask as [| b mask IH]; intros rs Hw.
  - reflexivity.
  - cbn [List.length] in *. rewrite (columns_succ f (List.length mask)).
    assert (Hne : forall r, In r rs -> r <> []).
    { intros r Hr. unfold rows_of_width in Hw. rewrite Forall_forall in Hw.
      specialize (Hw r Hr). destruct r; discriminate. }
    assert (Hsel : map (select (b :: mask)) rs
                   = map (fun r => if b then nth 0 r CNone :: select mask (tl r)
                                   else select mask (tl r)) rs).
    { apply map_ext_in. intros r Hr. apply select_cons_row. now apply Hne. }
    rewrite Hsel. specialize (IH _ (rows_of_width_tl _ _ Hw)).
    destruct b; cbn [filter List.length select].
    + rewrite columns_succ. f_equal.
      * unfold column_at. now rewrite map_map.
      * rewrite <- IH. do 3 f_equal. rewrite !map_map. reflexivity.
    + rewrite <- IH. do 3 f_equal. rewrite !map_map. reflexivity.
Qed.

Lemma select_self (v : list bool) :
  select v v = repeat true (List.length (filter (fun b => b) v)).
Proof.
  induction v as [| b v IH]; [reflexivity |].
  destruct b; simpl; now rewrite IH.
Qed.

Lemma nth_repeat_true (n j : nat) : (j < n)%nat -> nth j (repeat true n) false = true.
Proof.
  revert j. induction n as [| n IH]; intros [| j] H; simpl; try lia;
    try reflexivity.
  apply IH. lia.
Qed.

(** the frame that the extraction starts from is rectangular when the
    grid is *)
Lemma rectangular_below_header (raw_df : RawGrid) (h : Z) :
  rectangular_grid raw_df -> 0 <= h < Z.of_nat (List.length raw_df) ->
  rectangular {| columns := header_labels raw_df h;
                 rows := skipn (Z.to_nat (h + 1)) raw_df |}.
Proof.
  unfold rectangular_grid, rows_of_width, rectangular, header_labels.
  cbn [columns rows]. rewrite !Forall_forall. intros Hw Hh r Hr.
  rewrite length_map.
  assert (Hr' : In r raw_df).
  { rewrite <- (firstn_skipn (Z.to_nat (h + 1)) raw_df). apply in_or_app. now right. }
  rewrite (Hw r Hr'). symmetry. apply Hw. apply nth_In. lia.
Qed.

Lemma keep_mask_length (df : DataFrame) :
  List.length (keep_mask df) = List.length (columns df).
Proof. unfold keep_mask. now rewrite length_map, length_seq. Qed.

Lemma generic_labels_NoDup (n : nat) : NoDup (generic_labels n).
Proof.
  unfold generic_labels. generalize 0%nat as i0.
  induction n as [| n IH]; intros i0; simpl; constructor; [| apply IH].
  rewrite in_map_iff. intros (i & E & Hi).
  apply (append_inj_l "Column"), str_of_int_inj in E. apply in_seq in Hi. lia.
Qed.

Lemma generic_labels_length (n : nat) : List.length (generic_labels n) = n.
Proof. unfold generic_labels. now rewrite length_map, length_seq. Qed.

(** the columns that the audit reports as blank *)
Lemma removed_blank_cols_spec (raw : RawGrid) :
  let w := Z.to_nat (width raw) in
  removed_blank_cols raw
  = Ok (select (map (fun j => blank_column (column_at j raw)) (seq 0 w))
               (generic_labels w)).
Proof.
  intros w. unfold removed_blank_cols. fold w. cbn [columns].
  apply filterM_select.
  rewrite <- (generic_labels_length w) at 2.
  apply (Forall2_by_position _ EmptyString). intros j Hj.
  unfold getitem. cbn [columns rows].
  rewrite (positions_from_nodup 0 j) by (apply generic_labels_NoDup || assumption).
  reflexivity.
Qed.

(** among labels that are not repeated, the label at a position is
    selected exactly when the mask marks the position *)
Lemma mem_select_nth (ls : list string) (bs : list bool) (j : nat) :
  NoDup ls -> List.length bs = List.length ls -> (j < List.length ls)%nat ->
  PyStr.mem (nth j ls EmptyString) (select bs ls) = nth j bs false.
Proof.
  intros Hnd Hlen Hj.
  pose proof (mem_select_nodup ls bs Hnd Hlen) as H.
  apply (f_equal (fun l => nth j l false)) in H.
  rewrite <- H.
  rewrite (nth_indep _ false (PyStr.mem EmptyString (select bs ls)))
    by (rewrite length_map; lia).
  now rewrite (map_nth (fun c => PyStr.mem c (select bs ls))).
Qed.

Lemma blank_column_sub (col col' : list cell) :
  incl col' col -> blank_column col = true -> blank_column col' = true.
Proof.
  unfold blank_column. intros Hincl H.
  apply orb_true_iff in H. apply orb_true_iff.
  destruct H as [H | H]; [left | right]; rewrite forallb_forall in *;
    intros x Hx; apply H, Hincl, Hx.
Qed.

Lemma column_at_incl (j : nat) (rs rs' : list (list cell)) :
  incl rs' rs -> incl (column_at j rs') (column_at j rs).
Proof.
  unfold column_at. intros H x Hx. apply in_map_iff in Hx.
  destruct Hx as (r & <- & Hr).
  apply (in_map (fun r => nth j r CNone)). now apply H.
Qed.

Lemma find_account_col (cols : list string) (a : string) :
  account_col cols = Some a -> In a cols /\ truthy (Some a) = true.
Proof.
  unfold account_col. intros H. apply find_some in H. destruct H as [Hin E].
  split; [exact Hin |]. destruct a; [discriminate | reflexivity].
Qed.

Lemma find_line_col (cols : list string) (l : string) :
  line_col cols = Some l -> In l cols /\ truthy (Some l) = true.
Proof.
  unfold line_col. intros H. apply find_some in H. destruct H as [Hin E].
  split; [exact Hin |]. destruct l; [discriminate | reflexivity].
Qed.

(** the positions at which a label stands *)
Lemma positions_from_spec (j0 : nat) (c : string) (ls : list string) (j : nat) :
  In j (positions_from j0 c ls)
  <-> (j0 <= j)%nat /\ nth_error ls (j - j0) = Some c.
Proof.
  revert j0. induction ls as [| l ls IH]; intros j0; cbn [positions_from].
  - split; [contradiction | intros [_ H]]. now destruct (j - j0)%nat.
  - rewrite in_app_iff, IH.
    destruct (Nat.eq_dec j j0) as [-> | Hne].
    + rewrite Nat.sub_diag. cbn [nth_error].
      destruct (String.eqb_spec l c) as [-> | Hlc]; cbn [In].
      * split; [intros _; split; [lia | reflexivity] | intros _; left; now left].
      * split; [intros [[] | [H _]]; lia | intros [_ H]; congruence].
    + destruct (le_lt_dec j0 j) as [Hle | Hlt].
      * replace (j - j0)%nat with (S (j - S j0)) by lia. cbn [nth_error].
        split.
        -- intros [H | [_ H]]; [| split; [lia | exact H]].
           destruct (String.eqb l c); cbn [In] in H; [| contradiction].
           destruct H as [H | []]. congruence.
        -- intros [_ H]. right. split; [lia | exact H].
      * split; [| intros [H _]; lia].
        intros [H | [H _]]; [| lia].
        destruct (String.eqb l c); cbn [In] in H; [| contradiction].
        destruct H as [H | []]. congruence.
Qed.

(** under a label that stands once, a missing value is one of the
    column at its position *)
Lemma missing_under_once (df : DataFrame) (c : string) (j : nat) :
  positions_from 0 c (columns df) = [j] ->
  (missing_under df c <-> existsb isna (column_at j (rows df)) = true).
Proof.
  intros Hj. rewrite existsb_exists. unfold missing_under, column_at. split.
  - intros (j' & r & Hn & Hr & Hna).
    assert (Hin : In j' (positions_from 0 c (columns df))).
    { apply positions_from_spec. rewrite Nat.sub_0_r. split; [lia | exact Hn]. }
    rewrite Hj in Hin. destruct Hin as [<- | []].
    exists (nth j r CNone). split; [| exact Hna].
    now apply (in_map (fun r => nth j r CNone)).
  - intros (x & Hx & Hna). apply in_map_iff in Hx. destruct Hx as (r & <- & Hr).
    exists j, r. split; [| now split].
    assert (Hin : In j (positions_from 0 c (columns df))) by (rewrite Hj; now left).
    apply positions_from_spec in Hin. rewrite Nat.sub_0_r in Hin. tauto.
Qed.

(** [x.strip()] over a column converted by [astype(str)] *)
Lemma strip_cells_outcome (v : pandas) (col : list cell) :
  mapM strip_cell (astype_str v col)
  = match v with
    | Pandas2 => Ok (map (fun x => PyStr.strip (py_str x)) col)
    | Pandas3 =>
        if existsb isna col then Raise AttributeError
        else Ok (map (fun x => PyStr.strip (py_str x)) col)
    end.
Proof.
  destruct v; induction col as [| x col IH]; try reflexivity;
    cbn [astype_str map mapM existsb] in *.
  - cbn [strip_cell bind]. now rewrite IH.
  - destruct (isna x); cbn [strip_cell bind orb]; [reflexivity |].
    rewrite IH. now destruct (existsb isna col).
Qed.

Lemma stripped_column_in_2 (df : DataFrame) (c : string) :
  stripped_column_in Pandas2 df c = stripped_column df c.
Proof.
  unfold stripped_column_in, stripped_column.
  destruct (getitem df c) as [[col | cols] | e]; cbn [bind]; try reflexivity.
  apply (strip_cells_outcome Pandas2).
Qed.

Lemma detect_pnl_row_types_in_2 (df : DataFrame) (a l : string) :
  detect_pnl_row_types_in Pandas2 df a l = detect_pnl_row_types df a l.
Proof.
  unfold detect_pnl_row_types_in, detect_pnl_row_types.
  now rewrite !stripped_column_in_2.
Qed.

(** the stripped column under a label, by the number of columns that
    carry the label and, from pandas 3 on, by the missing values *)
Lemma stripped_column_in_outcome (v : pandas) (df : DataFrame) (c : string) :
  (occurrences c (columns df) = 0%nat ->
   stripped_column_in v df c = Raise KeyError)
  /\ (occurrences c (columns df) = 1%nat ->
      (v = Pandas3 /\ missing_under df c
       /\ stripped_column_in v df c = Raise AttributeError)
      \/ ((v = Pandas2 \/ ~ missing_under df c)
          /\ exists col, stripped_column_in v df c = Ok col
                         /\ stripped_column df c = Ok col))
  /\ ((2 <= occurrences c (columns df))%nat ->
      stripped_column_in v df c = Raise ValueError).
Proof.
  unfold stripped_column_in, stripped_column.
  pose proof (missing_under_once df c) as Hm. revert Hm.
  unfold getitem. rewrite <- (positions_from_length 0).
  destruct (positions_from 0 c (columns df)) as [| j [| j' js]];
    cbn [List.length bind]; intros Hm.
  - repeat split; try discriminate; intros; lia.
  - specialize (Hm j eq_refl). rewrite strip_cells_outcome.
    repeat split; try discriminate; try (intros; lia). intros _.
    destruct v.
    + right. split; [now left |]. eexists. split; reflexivity.
    + destruct (existsb isna (column_at j (rows df))) eqn:E.
      * left. repeat split. now apply Hm.
      * right. split; [right; intros H; apply Hm in H; discriminate |].
        eexists. split; reflexivity.
  - repeat split; try discriminate; intros; lia.
Qed.

Lemma occurrences_cases (c : string) (ls : list string) :
  occurrences c ls = 0%nat \/ occurrences c ls = 1%nat
  \/ (2 <= occurrences c ls)%nat.
Proof. lia. Qed.

(** the outcomes of [detect_pnl_row_types] under either version *)
Lemma detect_pnl_row_types_in_ok (v : pandas) (df : DataFrame) (a l : string) :
  occurrences a (columns df) = 1%nat -> occurrences l (columns df) = 1%nat ->
  (v = Pandas2 \/ (~ missing_under df a /\ ~ missing_under df l)) ->
  exists c, detect_pnl_row_types_in v df a l = Ok c
            /\ detect_pnl_row_types df a l = Ok c.
Proof.
  intros Ha Hl Hv. unfold detect_pnl_row_types_in, detect_pnl_row_types.
  destruct (stripped_column_in_outcome v df a) as (_ & Ha1 & _).
  destruct (stripped_column_in_outcome v df l) as (_ & Hl1 & _).
  destruct (Ha1 Ha) as [(-> & Hma & _) | (_ & ca & -> & ->)].
  { destruct Hv as [Hv | [Hv _]]; [discriminate | contradiction]. }
  destruct (Hl1 Hl) as [(-> & Hml & _) | (_ & cl & -> & ->)].
  { destruct Hv as [Hv | [_ Hv]]; [discriminate | contradiction]. }
  cbn [bind]. eexists. split; reflexivity.
Qed.

Lemma detect_pnl_row_types_in_missing (df : DataFrame) (a l : string) :
  occurrences a (columns df) = 1%nat ->
  (missing_under df a
   \/ (occurrences l (columns df) = 1%nat /\ missing_under df l)) ->
  detect_pnl_row_types_in Pandas3 df a l = Raise AttributeError.
Proof.
  intros Ha Hm. unfold detect_pnl_row_types_in.
  destruct (stripped_column_in_outcome Pandas3 df a) as (_ & Ha1 & _).
  destruct (stripped_column_in_outcome Pandas3 df l) as (_ & Hl1 & _).
  destruct (Ha1 Ha) as [(_ & _ & ->) | ([Hv | Hna] & ca & -> & _)];
    [reflexivity | discriminate |].
  cbn [bind]. destruct Hm as [Hm | [Hl Hm]]; [contradiction |].
  destruct (Hl1 Hl) as [(_ & _ & ->) | ([Hv | Hnl] & _)];
    [reflexivity | discriminate | contradiction].
Qed.

Lemma detect_pnl_row_types_in_returns
      (v : pandas) (df : DataFrame) (a l : string) (c : row_type_counts) :
  detect_pnl_row_types_in v df a l = Ok c ->
  occurrences a (columns df) = 1%nat /\ occurrences l (columns df) = 1%nat
  /\ (v = Pandas3 -> ~ missing_under df a /\ ~ missing_under df l).
Proof.
  unfold detect_pnl_row_types_in. intros E.
  destruct (stripped_column_in_outcome v df a) as (Ha0 & Ha1 & Ha2).
  destruct (stripped_column_in_outcome v df l) as (Hl0 & Hl1 & Hl2).
  destruct (occurrences_cases a (columns df)) as [Ha | [Ha | Ha]];
    [rewrite (Ha0 Ha) in E; discriminate | | rewrite (Ha2 Ha) in E; discriminate].
  destruct (Ha1 Ha) as [(_ & _ & Ea) | (Hva & ca & Ea & _)];
    rewrite Ea in E; [discriminate |]. cbn [bind] in E.
  destruct (occurrences_cases l (columns df)) as [Hl | [Hl | Hl]];
    [rewrite (Hl0 Hl) in E; discriminate | | rewrite (Hl2 Hl) in E; discriminate].
  destruct (Hl1 Hl) as [(_ & _ & El) | (Hvl & cl & El & _)];
    rewrite El in E; [discriminate |].
  split; [exact Ha | split; [exact Hl |]].
  intros ->. split.
  - destruct Hva as [Hva | Hva]; [discriminate | exact Hva].
  - destruct Hvl as [Hvl | Hvl]; [discriminate | exact Hvl].
Qed.

Lemma detect_pnl_row_types_in_absent
      (v : pandas) (df : DataFrame) (a l : string) :
  (~ In a (columns df) -> detect_pnl_row_types_in v df a l = Raise KeyError)
  /\ (occurrences a (columns df) = 1%nat -> ~ In l (columns df) ->
      v = Pandas2 \/ ~ missing_under df a ->
      detect_pnl_row_types_in v df a l = Raise KeyError).
Proof.
  assert (Hzero : forall c, ~ In c (columns df) -> occurrences c (columns df) = 0%nat).
  { intros c Hc. now apply (count_occ_not_In string_dec). }
  destruct (stripped_column_in_outcome v df a) as (Ha0 & Ha1 & _).
  destruct (stripped_column_in_outcome v df l) as (Hl0 & _ & _).
  unfold detect_pnl_row_types_in. split.
  - intros Hnot. now rewrite (Ha0 (Hzero _ Hnot)).
  - intros Ha Hnot Hv.
    destruct (Ha1 Ha) as [(-> & Hm & _) | (_ & ca & -> & _)].
    + destruct Hv as [Hv | Hv]; [discriminate | contradiction].
    + cbn [bind]. now rewrite (Hl0 (Hzero _ Hnot)).
Qed.

End ExtractionOutcome.

(** X7. For a header row inside the grid, [extract_table_using_header]
    returns a table when the trimmed cells of that row are all
    different, and raises [ValueError] when two of them are equal; in
    particular when two cells of the header row are missing, both
    giving the empty label. *)
Theorem extract_table_repeated_label (raw_df : RawGrid) (h : Z) :
  0 <= h < Z.of_nat (List.length raw_df) ->
  (NoDup (header_labels raw_df h) ->
   exists df, Audit.extract_table_using_header raw_df h = Ok df)
  /\ (~ NoDup (header_labels raw_df h) ->
      Audit.extract_table_using_header raw_df h = Raise ValueError)
  /\ (forall i j x y,
        i <> j ->
        nth_error (nth (Z.to_nat h) raw_df []) i = Some x ->
        nth_error (nth (Z.to_nat h) raw_df []) j = Some y ->
        isna x = true -> isna y = true ->
        Audit.extract_table_using_header raw_df h = Raise ValueError).
Proof.
  intros Hh. unfold Audit.extract_table_using_header.
  rewrite iloc_row_valid by assumption. cbn [bind].
  fold (header_labels raw_df h).
  assert (Hdup : ~ NoDup (header_labels raw_df h) ->
                 Audit.remove_blank
                   {| columns := header_labels raw_df h;
                      rows := slice_from (h + 1) raw_df |} = Raise ValueError)
    by (intros H; now apply remove_blank_repeated).
  conjuncts.
  - intros Hnd.
    destruct (remove_blank_distinct
                {| columns := header_labels raw_df h;
                   rows := slice_from (h + 1) raw_df |} Hnd) as (df & E & _).
    now exists df.
  - exact Hdup.
  - intros i j x y Hij Hx Hy Nx Ny. apply Hdup.
    now apply (missing_cells_same_label _ i j x y).
Qed.

Lemma extract_table_repeated_label_witness :
  Audit.extract_table_using_header
    [[CStr "Account"; CFloat PyFloat.nan; CFloat PyFloat.nan]; [CStr "4001"; CInt 1; CInt 2]] 0
  = Raise ValueError.
Proof.
  refine (proj2 (proj2 (extract_table_repeated_label _ 0 _)) 1%nat 2%nat
                (CFloat PyFloat.nan) (CFloat PyFloat.nan) _ _ _ _ _);
    [simpl; lia | discriminate | reflexivity | reflexivity | reflexivity | reflexivity].
Defined.

(** X8. For a rectangular grid and a header row inside it whose trimmed
    cells are all different, the table that
    [extract_table_using_header] returns is rectangular, its labels are
    labels of the header row and are all different, it has one row for
    each grid row below the header that holds a value, and none of its
    columns is blank in the sense of [is_blank_col]. *)
Theorem extract_table_invariants (raw_df : RawGrid) (h : Z) :
  rectangular_grid raw_df ->
  0 <= h < Z.of_nat (List.length raw_df) ->
  NoDup (header_labels raw_df h) ->
  exists df,
    Audit.extract_table_using_header raw_df h = Ok df
    /\ rectangular df
    /\ NoDup (columns df)
    /\ incl (columns df) (header_labels raw_df h)
    /\ List.length (rows df) = List.length (data_rows raw_df h)
    /\ (forall j, (j < List.length (columns df))%nat ->
                  blank_column (column_at j (rows df)) = false).
Proof.
  intros Hgrid Hh Hnd.
  pose proof (rectangular_below_header raw_df h Hgrid Hh) as Hrect.
  set (df0 := {| columns := header_labels raw_df h;
                 rows := skipn (Z.to_nat (h + 1)) raw_df |}) in *.
  eexists. split; [apply (extract_table_spec raw_df h Hh Hnd Hrect) |].
  fold (header_labels raw_df h). fold df0.
  cbn [columns rows].
  assert (Hkept : rows_of_width (List.length (keep_mask df0)) (filter has_value (rows df0))).
  { rewrite keep_mask_length. unfold rows_of_width. apply Forall_forall.
    intros r Hr. apply filter_In in Hr. destruct Hr as [Hr _].
    unfold rectangular in Hrect. rewrite Forall_forall in Hrect. now apply Hrect. }
  assert (Hcount : List.length (select (keep_mask df0) (columns df0))
                   = List.length (filter (fun b => b) (keep_mask df0))).
  { apply select_length. now rewrite keep_mask_length. }
  conjuncts.
  - unfold rectangular. cbn [columns rows]. apply Forall_forall.
    intros r Hr. apply in_map_iff in Hr. destruct Hr as (r0 & <- & Hr0).
    rewrite Hcount. apply select_length.
    unfold rows_of_width in Hkept. rewrite Forall_forall in Hkept. now apply Hkept.
  - now apply select_NoDup.
  - apply select_sublist.
  - now rewrite length_map.
  - intros j Hj. rewrite Hcount in Hj.
    pose proof (columns_select (fun col => negb (blank_column col))
                  (keep_mask df0) _ Hkept) as Hsel.
    cbv beta in Hsel.
    assert (Hself : map (fun j => negb (blank_column
                                   (column_at j (filter has_value (rows df0)))))
                        (seq 0 (List.length (keep_mask df0)))
                    = keep_mask df0).
    { rewrite keep_mask_length. reflexivity. }
    rewrite Hself, select_self in Hsel.
    apply (f_equal (fun l => nth j l false)) in Hsel.
    rewrite nth_repeat_true in Hsel by assumption.
    rewrite (nth_indep _ false
               (negb (blank_column
                  (column_at 0 (map (select (keep_mask df0))
                                    (filter has_value (rows df0)))))))
      in Hsel by (rewrite length_map, length_seq; assumption).
    rewrite (map_nth (fun j => negb (blank_column
               (column_at j (map (select (keep_mask df0))
                                 (filter has_value (rows df0))))))) in Hsel.
    rewrite seq_nth in Hsel by assumption. cbn [Nat.add] in Hsel.
    now apply negb_true_iff in Hsel.
Qed.

Lemma extract_table_invariants_witness :
  exists df,
    Audit.extract_table_using_header sample_grid 5 = Ok df
    /\ rectangular df
    /\ NoDup (columns df)
    /\ incl (columns df) (header_labels sample_grid 5)
    /\ List.length (rows df) = List.length (data_rows sample_grid 5)
    /\ (forall j, (j < List.length (columns df))%nat ->
                  blank_column (column_at j (rows df)) = false).
Proof.
  apply (extract_table_invariants sample_grid 5).
  - repeat constructor.
  - simpl. lia.
  - repeat constructor; simpl; intuition discriminate.
Defined.

(** * The steps of [audit_sheet] *)

Section AuditSteps.
Import Audit.

Lemma NoDup_decide (ls : list string) : {NoDup ls} + {~ NoDup ls}.
Proof.
  induction ls as [| l ls [IH | IH]].
  - left. constructor.
  - destruct (in_dec string_dec l ls) as [Hin | Hnot].
    + right. intros H. apply NoDup_cons_iff in H. tauto.
    + left. now constructor.
  - right. intros H. apply NoDup_cons_iff in H. tauto.
Qed.

(** a table is extracted only from a header row without repeated
    labels *)
Lemma extracted_labels_distinct (raw_df : RawGrid) (h : Z) (df : DataFrame) :
  0 <= h < Z.of_nat (List.length raw_df) ->
  extract_table_using_header raw_df h = Ok df ->
  NoDup (header_labels raw_df h).
Proof.
  intros Hh E. destruct (NoDup_decide (header_labels raw_df h)) as [H | H]; [exact H |].
  exfalso. unfold extract_table_using_header in E.
  rewrite iloc_row_valid in E by assumption. cbn [bind] in E.
  fold (header_labels raw_df h) in E.
  rewrite remove_blank_repeated in E by exact H. discriminate.
Qed.

Lemma header_labels_length (raw_df : RawGrid) (h : Z) :
  rectangular_grid raw_df -> 0 <= h < Z.of_nat (List.length raw_df) ->
  List.length (header_labels raw_df h) = Z.to_nat (width raw_df).
Proof.
  unfold rectangular_grid, rows_of_width, header_labels. rewrite Forall_forall.
  intros Hw Hh. rewrite length_map. apply Hw, nth_In. lia.
Qed.

Lemma data_rows_incl (raw_df : RawGrid) (h : Z) : incl (data_rows raw_df h) raw_df.
Proof.
  unfold data_rows. intros r Hr. apply filter_In in Hr. destruct Hr as [Hr _].
  rewrite <- (firstn_skipn (Z.to_nat (h + 1)) raw_df). apply in_or_app. now right.
Qed.

(** the row that [detect_header_row] returns was scanned and has a
    positive score *)
Lemma detect_header_row_scanned (raw_df : RawGrid) (search_rows h : Z) :
  fst (detect_header_row raw_df search_rows) = Some h ->
  scanned raw_df search_rows h /\ 0 < score_at raw_df h.
Proof.
  unfold detect_header_row. cbn [fst].
  set (n := Z.min search_rows (Z.of_nat (List.length raw_df))).
  set (rs := firstn (Z.to_nat n) raw_df).
  destruct (sorted_desc (scan_rows 0 rs)) as [| c l] eqn:E; [discriminate |].
  intros H. injection H as <-.
  assert (Hc : In c (scan_rows 0 rs)) by (apply sorted_desc_In; rewrite E; now left).
  apply scan_rows_candidate in Hc. destruct Hc as (k & Hk & -> & Hp).
  assert (Hlen : (List.length rs <= Z.to_nat n)%nat) by apply firstn_le_length.
  assert (Hlen' : (List.length rs <= List.length raw_df)%nat).
  { unfold rs. rewrite length_firstn. lia. }
  unfold cand_index, score_at, scanned. cbn [fst snd]. fold n.
  replace (Z.to_nat (0 + Z.of_nat k)) with k by lia.
  assert (E' : nth k rs [] = nth k raw_df []) by (apply nth_firstn_below; lia).
  rewrite <- E'. split; [lia | exact Hp].
Qed.

Lemma pnl_counts_outcome (v : pandas) (df : DataFrame) :
  NoDup (columns df) ->
  match account_col (columns df), line_col (columns df) with
  | Some a, Some l =>
      pnl_counts v df = (c <- detect_pnl_row_types_in v df a l ;; Ok (Some c))
      /\ occurrences a (columns df) = 1%nat
      /\ occurrences l (columns df) = 1%nat
  | _, _ => pnl_counts v df = Ok None
  end.
Proof.
  intros Hnd. unfold pnl_counts.
  destruct (account_col (columns df)) as [a |] eqn:Ea; [| reflexivity].
  destruct (line_col (columns df)) as [l |] eqn:El; [| reflexivity].
  apply find_account_col in Ea. apply find_line_col in El.
  destruct Ea as [Ha Ta], El as [Hl Tl]. rewrite Ta, Tl. cbn [andb].
  split; [reflexivity |]. split; now apply NoDup_occurrences.
Qed.

End AuditSteps.

(** X9. For a rectangular grid and a header row inside it from which a
    table is extracted, the blank columns that [audit_sheet] reports,
    computed over the whole grid, header rows included, are obtained
    without error; every column reported is blank over the grid and its
    header label is absent from the table extracted. *)
Theorem reported_blank_columns_are_removed (raw : RawGrid) (h : Z) (df : DataFrame) :
  rectangular_grid raw ->
  0 <= h < Z.of_nat (List.length raw) ->
  Audit.extract_table_using_header raw h = Ok df ->
  exists reported,
    Audit.removed_blank_cols raw = Ok reported
    /\ forall j, (j < Z.to_nat (width raw))%nat ->
         In (nth j (Audit.generic_labels (Z.to_nat (width raw))) EmptyString) reported ->
         blank_column (column_at j raw) = true
         /\ ~ In (nth j (header_labels raw h) EmptyString) (columns df).
Proof.
  intros Hgrid Hh E.
  pose proof (extracted_labels_distinct raw h df Hh E) as Hnd.
  pose proof (rectangular_below_header raw h Hgrid Hh) as Hrect.
  pose proof (header_labels_length raw h Hgrid Hh) as Hlen.
  rewrite (extract_table_spec raw h Hh Hnd Hrect) in E. injection E as <-.
  fold (header_labels raw h). cbn [columns].
  set (w := Z.to_nat (width raw)) in *.
  eexists. split; [apply removed_blank_cols_spec |]. fold w.
  intros j Hj Hin.
  assert (Hb : blank_column (column_at j raw) = true).
  { apply mem_In in Hin.
    rewrite mem_select_nth in Hin;
      [| apply generic_labels_NoDup
       | now rewrite length_map, length_seq, generic_labels_length
       | now rewrite generic_labels_length].
    rewrite (nth_indep _ false (blank_column (column_at 0 raw))) in Hin
      by (rewrite length_map, length_seq; exact Hj).
    rewrite (map_nth (fun j => blank_column (column_at j raw))) in Hin.
    now rewrite seq_nth in Hin by exact Hj. }
  split; [exact Hb |].
  intros Hc. apply mem_In in Hc.
  rewrite mem_select_nth in Hc;
    [| exact Hnd | apply keep_mask_length | cbn [columns]; lia].
  unfold keep_mask in Hc. cbn [columns rows] in Hc. rewrite Hlen in Hc.
  rewrite (nth_indep _ false
             (negb (blank_column
                (column_at 0 (filter has_value (skipn (Z.to_nat (h + 1)) raw))))))
    in Hc by (rewrite length_map, length_seq; exact Hj).
  rewrite (map_nth (fun j => negb (blank_column
             (column_at j (filter has_value (skipn (Z.to_nat (h + 1)) raw))))))
    in Hc.
  rewrite seq_nth in Hc by exact Hj. cbn [Nat.add] in Hc.
  apply negb_true_iff in Hc.
  rewrite (blank_column_sub (column_at j raw)) in Hc; [discriminate | | exact Hb].
  apply column_at_incl. apply (data_rows_incl raw h).
Qed.

Lemma reported_blank_columns_are_removed_witness :
  exists reported,
    Audit.removed_blank_cols
      [[CStr "Account"; CFloat PyFloat.nan; CStr "Jan"];
       [CStr "4001"; CFloat PyFloat.nan; CInt 7]] = Ok reported
    /\ In "Column2" reported.
Proof.
  destruct (reported_blank_columns_are_removed
              [[CStr "Account"; CFloat PyFloat.nan; CStr "Jan"];
               [CStr "4001"; CFloat PyFloat.nan; CInt 7]] 0
              {| columns := ["Account"; "Jan"];
                 rows := [[CStr "4001"; CInt 7]] |}) as (reported & E & _).
  - repeat constructor.
  - simpl. lia.
  - reflexivity.
  - exists reported. split; [exact E |].
    vm_compute in E. injection E as <-. now left.
Defined.

(** X10. [detect_pnl_row_types] and its two labels.  Under pandas 2 it
    returns its counts exactly when each label names one column of the
    table and only one.  Under pandas 3, where [astype(str)] keeps a
    missing value missing and [x.strip()] then fails on it, it returns
    its counts exactly when, besides, neither column holds a missing
    value, the counts being those of pandas 2; with a missing value in
    the account column, or in the line column when the account column
    has none, it raises [AttributeError].  A label that names no column
    raises [KeyError] under both versions, unless under pandas 3 a
    missing value of the account column is met first. *)
Theorem detect_pnl_row_types_labels
        (df : DataFrame) (account_col line_col : string) :
  let once c := occurrences c (columns df) = 1%nat in
  let run v := Audit.detect_pnl_row_types_in v df account_col line_col in
  ((exists c, run Pandas2 = Ok c) <-> once account_col /\ once line_col)
  /\ ((exists c, run Pandas3 = Ok c)
      <-> once account_col /\ once line_col
          /\ ~ missing_under df account_col /\ ~ missing_under df line_col)
  /\ (forall c, run Pandas3 = Ok c -> run Pandas2 = Ok c)
  /\ (once account_col ->
      missing_under df account_col
      \/ (once line_col /\ missing_under df line_col) ->
      run Pandas3 = Raise AttributeError)
  /\ (forall v, ~ In account_col (columns df) -> run v = Raise KeyError)
  /\ (forall v, once account_col -> ~ In line_col (columns df) ->
      v = Pandas2 \/ ~ missing_under df account_col ->
      run v = Raise KeyError)
  /\ run Pandas2 = Audit.detect_pnl_row_types df account_col line_col.
Proof.
  intros once run. subst once run. cbv beta.
  conjuncts.
  - split.
    + intros [c E]. apply detect_pnl_row_types_in_returns in E. tauto.
    + intros [Ha Hl].
      destruct (detect_pnl_row_types_in_ok Pandas2 df account_col line_col Ha Hl)
        as (c & E & _); [now left | now exists c].
  - split.
    + intros [c E]. apply detect_pnl_row_types_in_returns in E.
      destruct E as (Ha & Hl & Hm). destruct (Hm eq_refl). tauto.
    + intros (Ha & Hl & Hma & Hml).
      destruct (detect_pnl_row_types_in_ok Pandas3 df account_col line_col Ha Hl)
        as (c & E & _); [right; now split | now exists c].
  - intros c E. pose proof (detect_pnl_row_types_in_returns _ _ _ _ _ E)
      as (Ha & Hl & Hm).
    destruct (detect_pnl_row_types_in_ok Pandas3 df account_col line_col Ha Hl)
      as (c' & E' & E2); [right; now apply Hm |].
    rewrite detect_pnl_row_types_in_2. congruence.
  - intros Ha Hm. now apply detect_pnl_row_types_in_missing.
  - intros v. apply detect_pnl_row_types_in_absent.
  - intros v. apply detect_pnl_row_types_in_absent.
  - apply detect_pnl_row_types_in_2.
Qed.

Lemma detect_pnl_row_types_labels_witness :
  Audit.detect_pnl_row_types_in Pandas3 section_table "Account" "Line Item"
  = Raise AttributeError
  /\ Audit.detect_pnl_row_types_in Pandas3 section_table "Line Item" "Total"
     = Raise KeyError.
Proof.
  pose proof (detect_pnl_row_types_labels section_table "Account" "Line Item")
    as (_ & _ & _ & Hattr & _).
  pose proof (detect_pnl_row_types_labels section_table "Line Item" "Total")
    as (_ & _ & _ & _ & _ & Hkey & _).
  split.
  - apply Hattr; [reflexivity |].
    left. exists 0%nat, [CFloat PyFloat.nan; CStr "REVENUE"; CFloat PyFloat.nan].
    repeat split. now left.
  - apply Hkey; [reflexivity | |].
    + simpl. intuition discriminate.
    + right. intros (j & r & Hj & Hr & Hna).
      destruct j as [| [| [| j]]]; simpl in Hj; try discriminate;
        try (destruct j; discriminate).
      simpl in Hr. destruct Hr as [<- | [<- | []]]; discriminate.
Defined.

(** X11. The steps of [audit_sheet] on a grid in which a header row is
    detected: that row lies inside the grid, so the extraction raises
    no [IndexError].  On the table extracted, the row-type counts are
    computed without error under pandas 2: they are given when the
    table has an account column and a line item column, and left out
    otherwise.  Under pandas 3 the outcome is the same unless one of
    these two columns holds a missing value, an empty Account cell
    say; the audit then ends in [AttributeError]. *)
Theorem audit_steps_outcome (raw : RawGrid) (h : Z) :
  fst (Audit.detect_header_row raw 60) = Some h ->
  0 <= h < Z.of_nat (List.length raw)
  /\ Audit.extract_table_using_header raw h <> Raise IndexError
  /\ (forall df,
        Audit.extract_table_using_header raw h = Ok df ->
        (exists counts,
           Audit.pnl_counts Pandas2 df = Ok counts
           /\ (counts = None <->
               Audit.account_col (columns df) = None
               \/ Audit.line_col (columns df) = None))
        /\ (forall a l,
              Audit.account_col (columns df) = Some a ->
              Audit.line_col (columns df) = Some l ->
              (missing_under df a \/ missing_under df l ->
               Audit.pnl_counts Pandas3 df = Raise AttributeError)
              /\ (~ missing_under df a -> ~ missing_under df l ->
                  Audit.pnl_counts Pandas3 df = Audit.pnl_counts Pandas2 df))
        /\ (Audit.account_col (columns df) = None
            \/ Audit.line_col (columns df) = None ->
            Audit.pnl_counts Pandas3 df = Ok None)).
Proof.
  intros Hdet. apply detect_header_row_scanned in Hdet.
  destruct Hdet as [Hs _]. unfold scanned in Hs.
  assert (Hh : 0 <= h < Z.of_nat (List.length raw)) by lia.
  split; [exact Hh |]. split.
  - unfold Audit.extract_table_using_header.
    rewrite iloc_row_valid by assumption. cbn [bind].
    fold (header_labels raw h).
    destruct (NoDup_decide (header_labels raw h)) as [Hnd | Hdup].
    + destruct (remove_blank_distinct
                  {| columns := header_labels raw h;
                     rows := slice_from (h + 1) raw |} Hnd) as (df & -> & _).
      discriminate.
    + rewrite remove_blank_repeated by exact Hdup. discriminate.
  - intros df E.
    pose proof (extracted_labels_distinct raw h df Hh E) as Hnd.
    unfold Audit.extract_table_using_header in E.
    rewrite iloc_row_valid in E by assumption. cbn [bind] in E.
    fold (header_labels raw h) in E.
    destruct (remove_blank_distinct
                {| columns := header_labels raw h;
                   rows := slice_from (h + 1) raw |} Hnd)
      as (df' & E' & Hnd' & _).
    rewrite E' in E. injection E as ->.
    pose proof (pnl_counts_outcome Pandas2 df Hnd') as H2.
    pose proof (pnl_counts_outcome Pandas3 df Hnd') as H3.
    destruct (Audit.account_col (columns df)) as [a |];
      [destruct (Audit.line_col (columns df)) as [l |] |].
    + destruct H2 as (E2 & Ha & Hl), H3 as (E3 & _ & _).
      destruct (detect_pnl_row_types_in_ok Pandas2 df a l Ha Hl) as (c & Ec & _);
        [now left |].
      split; [| split].
      * exists (Some c). rewrite E2, Ec. cbn [bind].
        split; [reflexivity |].
        split; [discriminate | intros [H | H]; discriminate].
      * intros a' l' Ea El. injection Ea as <-. injection El as <-. split.
        -- intros Hm. rewrite E3.
           rewrite detect_pnl_row_types_in_missing; [reflexivity | exact Ha |].
           destruct Hm as [Hm | Hm]; [now left | right; now split].
        -- intros Hma Hml. rewrite E3, E2, Ec.
           destruct (detect_pnl_row_types_in_ok Pandas3 df a l Ha Hl)
             as (c3 & Ec3 & Ec3'); [right; now split |].
           rewrite Ec3. rewrite detect_pnl_row_types_in_2 in Ec. congruence.
      * intros [H | H]; discriminate.
    + split; [| split].
      * exists None. split; [exact H2 | split; auto].
      * intros a' l' _ El. discriminate.
      * intros _. exact H3.
    + split; [| split].
      * exists None. split; [exact H2 | split; auto].
      * intros a' l' Ea. discriminate.
      * intros _. exact H3.
Qed.

Lemma audit_steps_outcome_witness :
  Audit.extract_table_using_header section_grid 0 = Ok section_table
  /\ (exists counts, Audit.pnl_counts Pandas2 section_table = Ok counts)
  /\ Audit.pnl_counts Pandas3 section_table = Raise AttributeError.
Proof.
  assert (E : Audit.extract_table_using_header section_grid 0 = Ok section_table)
    by reflexivity.
  destruct (audit_steps_outcome section_grid 0 eq_refl) as (_ & _ & H).
  destruct (H section_table E) as ((counts & E2 & _) & H3 & _).
  split; [exact E |]. split; [now exists counts |].
  apply (H3 "Account" "Line Item" eq_refl eq_refl).
  left. exists 0%nat, [CFloat PyFloat.nan; CStr "REVENUE"; CFloat PyFloat.nan].
  repeat split. now left.
Defined.

(** * The decimal text of integers *)

Section DecimalText.

Lemma read_digits_uint (d : Decimal.uint) (acc : Z) :
  PyFloat.read_digits acc (NilEmpty.string_of_uint d)
  = (uint_val acc d, Z.of_nat (Decimal.nb_digits d), EmptyString).
Proof.
  revert acc.
  induction d as [| d IH | d IH | d IH | d IH | d IH | d IH | d IH | d IH | d IH | d IH];
    intros acc; [reflexivity | ..];
    cbn [NilEmpty.string_of_uint PyFloat.read_digits Decimal.nb_digits uint_val];
    match goal with
    | |- context [PyStr.is_digit ?c] => change (PyStr.is_digit c) with true
    end;
    cbv iota;
    match goal with
    | |- context [PyFloat.digit_val ?c] =>
        let v := eval vm_compute in (PyFloat.digit_val c) in
        change (PyFloat.digit_val c) with v
    end;
    rewrite ?Z.add_0_r, IH; f_equal; f_equal; lia.
Qed.

Lemma uint_val_acc (d : Decimal.uint) (acc : Z) :
  uint_val acc d = acc * 10 ^ Z.of_nat (Decimal.nb_digits d) + uint_val 0 d.
Proof.
  revert acc.
  induction d as [| d IH | d IH | d IH | d IH | d IH | d IH | d IH | d IH | d IH | d IH];
    intros acc; cbn [uint_val Decimal.nb_digits];
    [simpl; lia | ..];
    rewrite Nat2Z.inj_succ, Z.pow_succ_r by lia;
    rewrite IH; rewrite (IH (10 * 0 + _)) || rewrite (IH (10 * 0)); ring.
Qed.

Lemma uint_val_bounds (d : Decimal.uint) :
  0 <= uint_val 0 d < 10 ^ Z.of_nat (Decimal.nb_digits d).
Proof.
  induction d as [| d IH | d IH | d IH | d IH | d IH | d IH | d IH | d IH | d IH | d IH];
    cbn [uint_val Decimal.nb_digits];
    [simpl; lia | ..];
    rewrite Nat2Z.inj_succ, Z.pow_succ_r by lia;
    rewrite uint_val_acc; lia.
Qed.

Lemma of_uint_acc_val (d : Decimal.uint) (acc : positive) :
  Zpos (Pos.of_uint_acc d acc) = uint_val (Zpos acc) d.
Proof.
  revert acc.
  induction d as [| d IH | d IH | d IH | d IH | d IH | d IH | d IH | d IH | d IH | d IH];
    intros acc; cbn [Pos.of_uint_acc uint_val]; [reflexivity | ..];
    rewrite IH; f_equal; lia.
Qed.

Lemma of_uint_val (d : Decimal.uint) : Z.of_N (Pos.of_uint d) = uint_val 0 d.
Proof.
  induction d as [| d IH | d IH | d IH | d IH | d IH | d IH | d IH | d IH | d IH | d IH];
    cbn [Pos.of_uint uint_val]; [reflexivity | exact IH | ..];
    cbn [Z.of_N]; rewrite of_uint_acc_val; reflexivity.
Qed.

Lemma to_uint_val (p : positive) : uint_val 0 (Pos.to_uint p) = Zpos p.
Proof. now rewrite <- of_uint_val, DecimalPos.Unsigned.of_to. Qed.

(** the digits of a positive number do not start with a zero *)
Lemma to_uint_head (p : positive) :
  match Pos.to_uint p with
  | Decimal.Nil | Decimal.D0 _ => False
  | _ => True
  end.
Proof.
  pose proof (DecimalPos.Unsigned.to_of (Pos.to_uint p)) as H.
  rewrite DecimalPos.Unsigned.of_to in H. cbn [N.to_uint] in H.
  pose proof (DecimalPos.Unsigned.to_uint_nonzero p) as Hz.
  destruct (Pos.to_uint p) as [| d | d | d | d | d | d | d | d | d | d] eqn:E;
    try exact I.
  - discriminate.
  - destruct d as [| d | d | d | d | d | d | d | d | d | d];
      [now apply Hz | ..];
      match type of H with
      | _ = Decimal.unorm (Decimal.D0 ?u) =>
          assert (Hu : u <> Decimal.Nil) by discriminate;
          pose proof (Stdlib.Numbers.DecimalFacts.nb_digits_unorm u Hu) as Hle;
          change (Decimal.unorm (Decimal.D0 u)) with (Decimal.unorm u) in H;
          rewrite <- H in Hle; cbn [Decimal.nb_digits] in Hle; lia
      end.
Qed.

Lemma string_of_uint_length (d : Decimal.uint) :
  String.length (NilEmpty.string_of_uint d) = Decimal.nb_digits d.
Proof. induction d; simpl; congruence. Qed.

Lemma string_of_uint_digits (d : Decimal.uint) :
  PyStr.all_chars PyStr.is_digit (NilEmpty.string_of_uint d) = true.
Proof. induction d; simpl; auto. Qed.

(** the text of a positive number: its digits, as many as its size
    asks for *)
Lemma str_of_pos (p : positive) :
  str_of_int (Zpos p) = NilEmpty.string_of_uint (Pos.to_uint p)
  /\ 10 ^ (Z.of_nat (String.length (str_of_int (Zpos p))) - 1) <= Zpos p
     < 10 ^ Z.of_nat (String.length (str_of_int (Zpos p))).
Proof.
  pose proof (to_uint_head p) as Hh. pose proof (to_uint_val p) as Hv.
  assert (E : str_of_int (Zpos p) = NilEmpty.string_of_uint (Pos.to_uint p)).
  { unfold str_of_int. cbn [Z.to_int NilZero.string_of_int].
    unfold NilZero.string_of_uint. now destruct (Pos.to_uint p). }
  split; [exact E |]. rewrite E, string_of_uint_length.
  destruct (Pos.to_uint p) as [| d | d | d | d | d | d | d | d | d | d];
    try contradiction;
    cbn [uint_val Decimal.nb_digits] in *;
    rewrite uint_val_acc in Hv; pose proof (uint_val_bounds d) as Hb;
    rewrite Nat2Z.inj_succ;
    replace (Z.succ (Z.of_nat (Decimal.nb_digits d)) - 1)
      with (Z.of_nat (Decimal.nb_digits d)) by lia;
    rewrite Z.pow_succ_r by lia; nia.
Qed.

Lemma strip_without_space (s : string) :
  PyStr.any_char PyStr.is_space s = false -> PyStr.strip s = s.
Proof.
  intros H. unfold PyStr.strip.
  assert (Hl : PyStr.lstrip_by PyStr.is_space s = s).
  { destruct s as [| c s]; [reflexivity |]. simpl in *.
    apply orb_false_iff in H. now rewrite (proj1 H). }
  rewrite Hl. clear Hl.
  induction s as [| c s IH]; [reflexivity |].
  cbn [PyStr.any_char] in H. apply orb_false_iff in H. destruct H as [Hc Hs].
  cbn [PyStr.rstrip_by]. rewrite (IH Hs).
  destruct s; [now rewrite Hc | reflexivity].
Qed.

Lemma digits_without_space (s : string) :
  PyStr.all_chars PyStr.is_digit s = true -> PyStr.any_char PyStr.is_space s = false.
Proof.
  induction s as [| c s IH]; [reflexivity |].
  cbn [PyStr.all_chars PyStr.any_char]. intros H.
  apply andb_prop in H. destruct H as [Hc Hs].
  rewrite (digit_not_space c Hc). now apply IH.
Qed.

End DecimalText.

(** * Account codes *)

Section AccountCodes.
Import PnlSheets.

Lemma any_char_lstrip_outside (q p : ascii -> bool) (s : string) :
  (forall c, p c = true -> q c = false) ->
  PyStr.any_char q (PyStr.lstrip_by p s) = PyStr.any_char q s.
Proof.
  intros H. induction s as [| c s IH]; [reflexivity |].
  cbn [PyStr.lstrip_by]. destruct (p c) eqn:E; [| reflexivity].
  cbn [PyStr.any_char]. now rewrite (H c E).
Qed.

Lemma any_char_rstrip_outside (q p : ascii -> bool) (s : string) :
  (forall c, p c = true -> q c = false) ->
  PyStr.any_char q (PyStr.rstrip_by p s) = PyStr.any_char q s.
Proof.
  intros H. induction s as [| c s IH]; [reflexivity |].
  cbn [PyStr.rstrip_by PyStr.any_char].
  destruct (PyStr.rstrip_by p s) as [| b r].
  - cbn [PyStr.any_char] in IH. rewrite <- IH.
    destruct (p c) eqn:E.
    + now rewrite (H c E).
    + cbn [PyStr.any_char]. reflexivity.
  - cbn [PyStr.any_char] in *. now rewrite IH.
Qed.

Lemma any_char_strip_outside (q : ascii -> bool) (s : string) :
  (forall c, PyStr.is_space c = true -> q c = false) ->
  PyStr.any_char q (PyStr.strip s) = PyStr.any_char q s.
Proof.
  intros H. unfold PyStr.strip.
  now rewrite any_char_rstrip_outside, any_char_lstrip_outside.
Qed.

Lemma not_all_digits (q : ascii -> bool) (s : string) :
  (forall c, q c = true -> PyStr.is_digit c = false) ->
  PyStr.any_char q s = true -> PyStr.all_chars PyStr.is_digit s = false.
Proof.
  intros H. induction s as [| c s IH]; [discriminate |].
  cbn [PyStr.any_char PyStr.all_chars]. intros Hq.
  destruct (q c) eqn:E; [now rewrite (H c E) |].
  rewrite (IH Hq). apply andb_false_r.
Qed.

Lemma format_digits_mark (d k : Z) :
  PyStr.any_char float_mark (PyFloat.format_digits d k) = true.
Proof.
  unfold PyFloat.format_digits.
  repeat match goal with
         | |- context [if ?b then _ else _] => destruct b
         end;
    rewrite ?any_char_app; simpl; rewrite ?orb_true_r; reflexivity.
Qed.

Lemma float_repr_mark (f : PyFloat.float) :
  PyStr.any_char float_mark (PyFloat.float_repr f) = true.
Proof.
  destruct f as [s | s | | s m e]; simpl.
  - now destruct s.
  - now destruct s.
  - reflexivity.
  - destruct (PyFloat.shortest m e) as [d k].
    rewrite any_char_app, format_digits_mark. apply orb_true_r.
Qed.

Lemma float_mark_outside (c : ascii) :
  float_mark c = true -> PyStr.is_digit c = false /\ PyStr.is_space c = false.
Proof.
  unfold float_mark. intros H.
  apply orb_true_iff in H. destruct H as [H | H];
    [apply orb_true_iff in H; destruct H as [H | H] |];
    apply Ascii.eqb_eq in H; subst c; split; reflexivity.
Qed.

Lemma looks_like_account_code_float (f : PyFloat.float) :
  looks_like_account_code (CFloat f) = false.
Proof.
  unfold looks_like_account_code. destruct (is_none_or_nan (CFloat f)); [reflexivity |].
  cbn [py_str].
  rewrite (not_all_digits float_mark); [apply andb_false_r | |].
  - intros c Hc. now apply float_mark_outside.
  - rewrite any_char_strip_outside; [apply float_repr_mark |].
    intros c Hc. destruct (float_mark c) eqn:E; [| reflexivity].
    apply float_mark_outside in E. destruct E as [_ E]. congruence.
Qed.

Lemma looks_like_account_code_int (n : Z) :
  looks_like_account_code (CInt n) = (100 <=? n) && (n <=? 999999).
Proof.
  destruct n as [| p | p].
  - reflexivity.
  - unfold looks_like_account_code. cbn [is_none_or_nan py_str].
    destruct (str_of_pos p) as [E Hb].
    assert (Hd : PyStr.all_chars PyStr.is_digit (str_of_int (Zpos p)) = true)
      by (rewrite E; apply string_of_uint_digits).
    rewrite strip_without_space by now apply digits_without_space.
    rewrite Hd, andb_true_r.
    set (L := String.length (str_of_int (Z.pos p))) in *.
    destruct L as [| [| [| [| [| [| [| L]]]]]]];
      try (cbn in Hb; cbn [Nat.leb andb]; lia).
    assert (H6 : 10 ^ 6 <= 10 ^ (Z.of_nat (S (S (S (S (S (S (S L))))))) - 1))
      by (apply Z.pow_le_mono_r; lia).
    change (10 ^ 6) with 1000000 in H6.
    cbn [Nat.leb andb]. lia.
  - unfold looks_like_account_code. cbn [is_none_or_nan py_str].
    assert (E : str_of_int (Zneg p)
                = String "-" (NilEmpty.string_of_uint (Pos.to_uint p))).
    { unfold str_of_int. cbn [Z.to_int NilZero.string_of_int].
      unfold NilZero.string_of_uint.
      pose proof (to_uint_head p). now destruct (Pos.to_uint p). }
    rewrite E, strip_without_space.
    + cbn [PyStr.all_chars]. change (PyStr.is_digit "-") with false.
      cbn [andb]. rewrite andb_false_r. reflexivity.
    + cbn [PyStr.any_char]. change (PyStr.is_space "-") with false.
      apply digits_without_space, string_of_uint_digits.
Qed.

End AccountCodes.

(** X12. What [looks_like_account_code] of the second script accepts,
    by the kind of the cell: an integer exactly when it lies between
    100 and 999999; a text exactly when [looks_like_account_code] of
    the first script accepts it, that is when its trimmed form is three
    to six digits; and never a float, a boolean or a missing value, so
    that the number 4001.0 held as a float is not an account code. *)
Theorem looks_like_account_code_by_kind (x : cell) :
  PnlSheets.looks_like_account_code x
  = match x with
    | CInt n => (100 <=? n) && (n <=? 999999)
    | CStr s => Audit.looks_like_account_code s
    | CNone | CBool _ | CFloat _ => false
    end.
Proof.
  destruct x as [| b | n | f | s].
  - reflexivity.
  - now destruct b.
  - apply looks_like_account_code_int.
  - apply looks_like_account_code_float.
  - reflexivity.
Qed.

(** * The first data row and the labels of a wide sheet *)

Section FirstDataRow.
Import PnlSheets.

Lemma first_account_row_spec (j : nat) (i0 : Z) (rs : list (list cell)) :
  Forall (fun r => (j < List.length r)%nat) rs ->
  match first_account_row j i0 rs with
  | Ok (Some i) =>
      exists k, (k < List.length rs)%nat /\ i = i0 + Z.of_nat k
        /\ looks_like_account_code (nth j (nth k rs []) CNone) = true
        /\ forall k', (k' < k)%nat ->
             looks_like_account_code (nth j (nth k' rs []) CNone) = false
  | Ok None =>
      forall k, (k < List.length rs)%nat ->
        looks_like_account_code (nth j (nth k rs []) CNone) = false
  | Raise _ => False
  end.
Proof.
  intros H. revert i0. induction H as [| r rs Hr _ IH]; intros i0.
  - cbn. intros k Hk. lia.
  - cbn [first_account_row]. unfold iat.
    destruct (nth_error r j) as [x |] eqn:E;
      [| apply nth_error_None in E; lia].
    cbn [bind]. pose proof (nth_error_nth r j CNone E) as Ex.
    destruct (looks_like_account_code x) eqn:Lx.
    + exists 0%nat. cbn [List.length nth]. rewrite Ex.
      repeat split; [lia | lia | exact Lx | intros k' Hk'; lia].
    + specialize (IH (i0 + 1)).
      destruct (first_account_row j (i0 + 1) rs) as [[i |] | e]; [| | exact IH].
      * destruct IH as (k & Hk & -> & Hlook & Hbefore).
        exists (S k). cbn [List.length nth].
        repeat split; [lia | lia | exact Hlook |].
        intros [| k'] Hk'; [now rewrite Ex | apply Hbefore; lia].
      * intros [| k] Hk; cbn [nth]; [now rewrite Ex |].
        apply IH. cbn [List.length] in Hk. lia.
Qed.

Lemma first_account_row_narrow (j : nat) (i0 : Z) (r : list cell) (rs : list (list cell)) :
  (List.length r <= j)%nat -> first_account_row j i0 (r :: rs) = Raise IndexError.
Proof.
  intros H. cbn [first_account_row]. unfold iat.
  now rewrite (proj2 (nth_error_None r j) H).
Qed.

Lemma infer_column_names_count (ncols : Z) :
  Z.of_nat (List.length (infer_column_names ncols)) = Z.max ncols 2.
Proof.
  unfold infer_column_names.
  destruct (ncols =? 15) eqn:E15; [apply Z.eqb_eq in E15; now subst |].
  destruct (ncols =? 14) eqn:E14; [apply Z.eqb_eq in E14; now subst |].
  rewrite length_app, length_map, length_seq. cbn [List.length]. lia.
Qed.

Lemma month_not_col (m : string) :
  In m MONTHS -> PyStr.startswith "Col" m = false.
Proof.
  intros H. repeat (destruct H as [<- | H]; [reflexivity |]). contradiction.
Qed.

(** the month columns among the labels of [infer_column_names]: all
    twelve for 14 or 15 columns, none otherwise *)
Lemma infer_column_names_months (ncols : Z) (extra : list string) :
  (forall c, In c extra -> ~ In c MONTHS) ->
  filter (fun m => PyStr.mem m (infer_column_names ncols ++ extra)%list) MONTHS
  = if (ncols =? 14) || (ncols =? 15) then MONTHS else [].
Proof.
  intros Hextra.
  assert (Hin : forall l, (forall m, In m MONTHS -> In m l) ->
                  filter (fun m => PyStr.mem m l) MONTHS = MONTHS).
  { intros l H. apply filter_all. intros m Hm. apply mem_In. now apply H. }
  assert (Hout : forall l, (forall m, In m MONTHS -> ~ In m l) ->
                  filter (fun m => PyStr.mem m l) MONTHS = []).
  { intros l H.
    destruct (filter (fun m => PyStr.mem m l) MONTHS) as [| m ms] eqn:E;
      [reflexivity |].
    assert (Hm : In m (filter (fun m => PyStr.mem m l) MONTHS))
      by (rewrite E; now left).
    apply filter_In in Hm. destruct Hm as [Hm1 Hm2]. apply mem_In in Hm2.
    now apply H in Hm2. }
  unfold infer_column_names.
  destruct (ncols =? 15) eqn:E15; [| destruct (ncols =? 14) eqn:E14].
  - rewrite orb_true_r. apply Hin. intros m Hm.
    apply in_or_app. left. apply in_or_app. right. apply in_or_app. now left.
  - cbn [orb]. apply Hin. intros m Hm.
    apply in_or_app. left. apply in_or_app. now right.
  - cbn [orb]. apply Hout. intros m Hm Hc.
    apply in_app_or in Hc. destruct Hc as [Hc | Hc]; [| now apply (Hextra m)].
    destruct Hc as [<- | [<- | Hc]].
    + revert Hm. cbn. intuition discriminate.
    + revert Hm. cbn. intuition discriminate.
    + apply col_names_start in Hc. rewrite (month_not_col m Hm) in Hc. discriminate.
Qed.

End FirstDataRow.

(** X13. On a grid all of whose rows reach column [account_col_idx],
    [find_first_data_row] raises nothing and returns the first of the
    scanned rows, the first [max_scan] rows of the grid, whose cell in
    that column looks like an account code; it returns [None] when none
    of them does, even if a later row holds one.  On a grid whose first
    row does not reach that column it raises [IndexError]. *)
Theorem find_first_data_row_first (raw : RawGrid) (account_col_idx : nat) (max_scan : Z) :
  (Forall (fun r => (account_col_idx < List.length r)%nat) raw ->
   match PnlSheets.find_first_data_row raw account_col_idx max_scan with
   | Ok (Some i) =>
       scanned_for_data raw max_scan i
       /\ PnlSheets.looks_like_account_code (cell_at raw i account_col_idx) = true
       /\ forall k, 0 <= k < i ->
            PnlSheets.looks_like_account_code (cell_at raw k account_col_idx) = false
   | Ok None =>
       forall k, scanned_for_data raw max_scan k ->
         PnlSheets.looks_like_account_code (cell_at raw k account_col_idx) = false
   | Raise _ => False
   end)
  /\ (forall r rs, raw = r :: rs -> (List.length r <= account_col_idx)%nat ->
        0 < max_scan ->
        PnlSheets.find_first_data_row raw account_col_idx max_scan = Raise IndexError).
Proof.
  split.
  - intros Hw. unfold PnlSheets.find_first_data_row, scanned_for_data, cell_at.
    set (n := Z.min (Z.of_nat (List.length raw)) max_scan).
    set (rs := firstn (Z.to_nat n) raw).
    assert (Hrs : Forall (fun r => (account_col_idx < List.length r)%nat) rs).
    { apply Forall_forall. intros r Hr. rewrite Forall_forall in Hw.
      apply Hw. eapply In_firstn, Hr. }
    assert (Hlen : List.length rs = Z.to_nat n).
    { unfold rs. rewrite length_firstn. lia. }
    pose proof (first_account_row_spec account_col_idx 0 rs Hrs) as H.
    destruct (PnlSheets.first_account_row account_col_idx 0 rs)
      as [[i |] | e]; [| | exact H].
    + destruct H as (k & Hk & -> & Hlook & Hbefore).
      replace (Z.to_nat (0 + Z.of_nat k)) with k by lia.
      rewrite <- (nth_firstn_below (Z.to_nat n) k raw []) by lia.
      repeat split; [lia | lia | exact Hlook |].
      intros k' Hk'.
      rewrite <- (nth_firstn_below (Z.to_nat n) (Z.to_nat k') raw []) by lia.
      apply Hbefore. lia.
    + intros k Hk.
      rewrite <- (nth_firstn_below (Z.to_nat n) (Z.to_nat k) raw []) by lia.
      apply H. lia.
  - intros r rs -> Hr Hpos. unfold PnlSheets.find_first_data_row.
    cbn [List.length].
    destruct (Z.to_nat (Z.min (Z.of_nat (S (List.length rs))) max_scan))
      as [| n] eqn:E; [lia |].
    cbn [firstn]. now apply first_account_row_narrow.
Qed.

Lemma find_first_data_row_first_witness :
  match PnlSheets.find_first_data_row sample_grid 0 80 with
  | Ok (Some i) =>
      scanned_for_data sample_grid 80 i
      /\ PnlSheets.looks_like_account_code (cell_at sample_grid i 0) = true
      /\ forall k, 0 <= k < i ->
           PnlSheets.looks_like_account_code (cell_at sample_grid k 0) = false
  | Ok None =>
      forall k, scanned_for_data sample_grid 80 k ->
        PnlSheets.looks_like_account_code (cell_at sample_grid k 0) = false
  | Raise _ => False
  end
  /\ PnlSheets.find_first_data_row [[]] 0 80 = Raise IndexError.
Proof.
  split.
  - apply (proj1 (find_first_data_row_first sample_grid 0 80)).
    repeat constructor.
  - apply (proj2 (find_first_data_row_first [[]] 0 80) [] []);
      [reflexivity | simpl; lia | lia].
Defined.

(** X14. [infer_column_names] gives as many labels as the sheet has
    columns only when the sheet has two columns or more: it never gives
    fewer than two.  The labels start with [Account] and [Line Item],
    and the twelve month labels are among them exactly when the sheet
    has 14 or 15 columns; for any other width no label is a month. *)
Theorem infer_column_names_shape (ncols : Z) :
  Z.of_nat (List.length (PnlSheets.infer_column_names ncols)) = Z.max ncols 2
  /\ firstn 2 (PnlSheets.infer_column_names ncols) = ["Account"; "Line Item"]
  /\ filter (fun m => PyStr.mem m (PnlSheets.infer_column_names ncols)) PnlSheets.MONTHS
     = (if (ncols =? 14) || (ncols =? 15) then PnlSheets.MONTHS else [])
  /\ (PyStr.mem "Total" (PnlSheets.infer_column_names ncols) = (ncols =? 15)).
Proof.
  conjuncts.
  - apply infer_column_names_count.
  - unfold PnlSheets.infer_column_names.
    destruct (ncols =? 15); [| destruct (ncols =? 14)]; reflexivity.
  - pose proof (infer_column_names_months ncols []) as H.
    rewrite app_nil_r in H. apply H. intros c [].
  - unfold PnlSheets.infer_column_names.
    destruct (ncols =? 15) eqn:E15; [reflexivity |].
    destruct (ncols =? 14) eqn:E14; [reflexivity |].
    destruct (PyStr.mem "Total" _) eqn:E; [| reflexivity].
    apply mem_In in E. destruct E as [E | [E | E]]; try discriminate.
    apply col_names_start in E. discriminate.
Qed.

(** * Cleaning a wide sheet *)

Section CleanWide.
Import PnlSheets.

Lemma parse_in_range (x : cell) :
  in_float_range x = true -> parse_messy_number x = Ok (parsed x).
Proof.
  intros H. unfold parsed.
  destruct (parse_messy_number x) as [v | e] eqn:E; [reflexivity | exfalso].
  destruct x as [| b | n | f | s].
  - discriminate.
  - destruct b; vm_compute in E; discriminate.
  - cbv beta iota delta [in_float_range] in H.
    cbv beta iota delta [parse_messy_number is_none_or_nan bind] in E.
    destruct (PyFloat.float_of_int n); discriminate.
  - cbv beta iota delta [parse_messy_number is_none_or_nan] in E.
    destruct (PyFloat.isnan f); discriminate.
  - cbv beta iota zeta delta [parse_messy_number is_none_or_nan py_str] in E.
    destruct (PyStr.mem (PyStr.strip s) [EmptyString; "-"]); [discriminate |].
    destruct (PyFloat.float_of_string (numeric_token (PyStr.strip s))); discriminate.
Qed.

Lemma mapM_ok {A B : Type} (f : A -> result B) (g : A -> B) (xs : list A) :
  Forall (fun x => f x = Ok (g x)) xs -> mapM f xs = Ok (map g xs).
Proof.
  induction 1 as [| x xs Hx _ IH]; [reflexivity |].
  cbn [mapM map]. rewrite Hx. cbn [bind]. rewrite IH. reflexivity.
Qed.

Lemma existsb_mapped {A B : Type} (f : A -> B) (p : B -> bool) (xs : list A) :
  existsb p (map f xs) = existsb (fun x => p (f x)) xs.
Proof. induction xs as [| x xs IH]; simpl; [reflexivity | now rewrite IH]. Qed.

Lemma apply_parse_ok (col : list cell) :
  Forall (fun x => in_float_range x = true) col ->
  apply_parse col = Ok (map (column_value col) col).
Proof.
  intros H. unfold apply_parse.
  rewrite (mapM_ok parse_messy_number parsed).
  - cbn [bind]. f_equal. rewrite map_map. apply map_ext. intros x.
    unfold column_value. destruct (parsed x); [reflexivity |].
    now rewrite existsb_mapped.
  - eapply Forall_impl; [| exact H]. intros x. apply parse_in_range.
Qed.

Lemma set_column_map (j : nat) (g : cell -> cell) (rs : list (list cell)) :
  set_column j (map g (column_at j rs)) rs
  = map (fun r => with_cell j (g (nth j r CNone)) r) rs.
Proof.
  unfold set_column, column_at, with_cell. rewrite map_map.
  induction rs as [| r rs IH]; [reflexivity |].
  cbn [map combine]. now rewrite IH.
Qed.

Lemma with_cell_length (j : nat) (y : cell) (r : list cell) :
  (j < List.length r)%nat -> List.length (with_cell j y r) = List.length r.
Proof.
  intros H. unfold with_cell.
  rewrite length_app, length_firstn. cbn [List.length]. rewrite length_skipn. lia.
Qed.

Lemma with_cell_nth (j k : nat) (y : cell) (r : list cell) :
  (j < List.length r)%nat ->
  nth k (with_cell j y r) CNone = if Nat.eqb k j then y else nth k r CNone.
Proof.
  intros H. unfold with_cell.
  assert (Hf : List.length (firstn j r) = j) by (rewrite length_firstn; lia).
  destruct (Nat.eqb_spec k j) as [-> | Hne].
  - rewrite app_nth2 by lia. rewrite Hf, Nat.sub_diag. reflexivity.
  - destruct (Nat.lt_ge_cases k j) as [Hlt | Hge].
    + rewrite app_nth1 by lia. apply nth_firstn_below. exact Hlt.
    + rewrite app_nth2 by lia. rewrite Hf.
      destruct (k - j)%nat as [| d] eqn:Ed; [lia |].
      cbn [nth]. rewrite nth_skipn. f_equal. lia.
Qed.

Lemma nth_map_row {B : Type} (f : list cell -> B) (d : B) (i : nat)
      (rs : list (list cell)) :
  (i < List.length rs)%nat -> nth i (map f rs) d = f (nth i rs []).
Proof.
  intros H. rewrite (nth_indep _ d (f [])) by (rewrite length_map; exact H).
  apply map_nth.
Qed.

Lemma column_value_in_range (col : list cell) (x : cell) :
  in_float_range (column_value col x) = true.
Proof.
  unfold column_value. destruct (parsed x); [reflexivity |].
  now destruct (existsb _ col).
Qed.

Lemma column_value_stores (col : list cell) (x : cell) :
  stores (column_value col x) (parsed x).
Proof.
  unfold column_value, stores. destruct (parsed x); [reflexivity |].
  now destruct (existsb _ col).
Qed.

(** the loop over the numeric columns parses each of them and leaves
    the other columns alone *)
Lemma parse_at_spec (js : list nat) (rs : list (list cell)) :
  (forall r j, In r rs -> In j js -> (j < List.length r)%nat) ->
  NoDup js -> cells_in_float_range rs ->
  exists rs', parse_at js rs = Ok rs' /\ cells_parsed js rs rs'.
Proof.
  revert rs. induction js as [| j js IH]; intros rs Hw Hnd Hrange.
  - exists rs. split; [reflexivity |]. split; [reflexivity |].
    intros i Hi. split; reflexivity.
  - apply NoDup_cons_iff in Hnd. destruct Hnd as [Hj Hnd].
    assert (Hwj : forall r, In r rs -> (j < List.length r)%nat)
      by (intros r Hr; apply Hw; [exact Hr | now left]).
    cbn [parse_at].
    rewrite apply_parse_ok.
    2:{ apply Forall_forall. intros x Hx. unfold column_at in Hx.
        apply in_map_iff in Hx. destruct Hx as (r & <- & Hr).
        unfold cells_in_float_range in Hrange. rewrite Forall_forall in Hrange.
        specialize (Hrange r Hr). rewrite Forall_forall in Hrange.
        apply Hrange, nth_In. now apply Hwj. }
    cbn [bind]. rewrite set_column_map.
    set (cv := column_value (column_at j rs)).
    set (rs1 := map (fun r => with_cell j (cv (nth j r CNone)) r) rs).
    destruct (IH rs1) as (rs' & E & Hlen & Hcells).
    { intros r k Hr Hk. unfold rs1 in Hr. apply in_map_iff in Hr.
      destruct Hr as (r0 & <- & Hr0). rewrite with_cell_length by now apply Hwj.
      apply Hw; [exact Hr0 | now right]. }
    { exact Hnd. }
    { unfold cells_in_float_range, rs1. apply Forall_forall. intros r Hr.
      apply in_map_iff in Hr. destruct Hr as (r0 & <- & Hr0).
      apply Forall_forall. intros x Hx.
      destruct (In_nth _ _ CNone Hx) as (k & Hk & <-).
      rewrite with_cell_nth by now apply Hwj.
      destruct (Nat.eqb k j); [apply column_value_in_range |].
      unfold cells_in_float_range in Hrange. rewrite Forall_forall in Hrange.
      specialize (Hrange r0 Hr0). rewrite Forall_forall in Hrange.
      apply Hrange, nth_In. rewrite with_cell_length in Hk by now apply Hwj.
      exact Hk. }
    assert (Hlen1 : List.length rs1 = List.length rs) by apply length_map.
    assert (Hrow : forall i, (i < List.length rs)%nat ->
              nth i rs1 [] = with_cell j (cv (nth j (nth i rs []) CNone)) (nth i rs [])).
    { intros i Hi. unfold rs1.
      now rewrite (nth_map_row (fun r => with_cell j (cv (nth j r CNone)) r)). }
    assert (Hcol : forall k, k <> j -> column_at k rs1 = column_at k rs).
    { intros k Hk. unfold column_at, rs1. rewrite map_map.
      apply map_ext_in. intros r Hr. rewrite with_cell_nth by now apply Hwj.
      now destruct (Nat.eqb_spec k j). }
    exists rs'. split; [exact E |]. split; [lia |].
    intros i Hi.
    assert (Hin : In (nth i rs []) rs) by now apply nth_In.
    destruct (Hcells i) as [Hl Hc]; [lia |].
    split.
    + rewrite Hl, Hrow by exact Hi. apply with_cell_length. now apply Hwj.
    + intros k. rewrite Hc, Hrow by exact Hi.
      rewrite with_cell_nth by now apply Hwj.
      cbn [existsb].
      destruct (Nat.eqb_spec k j) as [-> | Hne].
      * cbn [orb].
        replace (existsb (Nat.eqb j) js) with false; [reflexivity |].
        symmetry. apply not_true_is_false. intros Hex.
        apply existsb_exists in Hex. destruct Hex as (k' & Hk' & Ek').
        apply Nat.eqb_eq in Ek'. now subst k'.
      * cbn [orb]. now rewrite (Hcol k Hne).
Qed.

Lemma parse_columns_at (ls cs : list string) (js : list nat) (rs : list (list cell)) :
  Forall2 (fun c j => positions_from 0 c ls = [j]) cs js ->
  parse_columns ls cs rs = parse_at js rs.
Proof.
  intros H. revert rs. induction H as [| c j cs js Hc _ IH]; intros rs; [reflexivity |].
  cbn [parse_columns parse_at]. rewrite Hc.
  destruct (apply_parse (column_at j rs)) as [col | e]; [| reflexivity].
  cbn [bind]. apply IH.
Qed.


Lemma names_account (ncols : Z) :
  positions_from 0 "Account" (infer_column_names ncols) = [0%nat]
  /\ positions_from 0 "Line Item" (infer_column_names ncols) = [1%nat].
Proof.
  unfold infer_column_names.
  destruct (ncols =? 15); [split; reflexivity |].
  destruct (ncols =? 14); [split; reflexivity |].
  split; cbn [app positions_from String.eqb Ascii.eqb Bool.eqb];
    rewrite positions_from_notin; try reflexivity;
    intros H; apply col_names_start in H; discriminate.
Qed.

Lemma col_not_numeric (c : string) :
  PyStr.startswith "Col" c = true -> numeric_label c = false.
Proof.
  intros H. unfold numeric_label. apply orb_false_iff. split.
  - apply not_true_is_false. intros E. apply mem_In in E.
    rewrite (month_not_col c E) in H. discriminate.
  - apply String.eqb_neq. intros ->. discriminate.
Qed.

Lemma total_label (ncols : Z) (extra : list string) :
  ~ In "Total" extra ->
  PyStr.mem "Total" (infer_column_names ncols ++ extra)%list = (ncols =? 15).
Proof.
  intros Hextra. unfold infer_column_names.
  destruct (ncols =? 15) eqn:E15.
  - apply mem_In. apply in_or_app. left. apply in_or_app. right.
    apply in_or_app. right. now left.
  - apply not_true_is_false. intros E. apply mem_In in E.
    apply in_app_or in E. destruct E as [E | E]; [| contradiction].
    destruct (ncols =? 14).
    + revert E. cbn. intuition discriminate.
    + destruct E as [E | [E | E]]; try discriminate.
      apply col_names_start in E. discriminate.
Qed.

(** the numeric columns of the wide frame stand at the numeric
    positions, in the order of the loop *)
Lemma num_cols_positions (ncols : Z) :
  let ls := (infer_column_names ncols ++ ["IsAccountRow"])%list in
  Forall2 (fun c j => positions_from 0 c ls = [j])
          (filter (fun c => PyStr.mem c ls) MONTHS
             ++ (if PyStr.mem "Total" ls then ["Total"] else []))%list
          (numeric_positions ncols).
Proof.
  intros ls. unfold ls, numeric_positions.
  rewrite (infer_column_names_months ncols ["IsAccountRow"])
    by (intros c [<- | []]; cbn; intuition discriminate).
  rewrite total_label by (cbn; intuition discriminate).
  destruct (ncols =? 15) eqn:E15.
  - apply Z.eqb_eq in E15. subst ncols. cbn [Z.eqb Pos.eqb orb].
    repeat constructor.
  - destruct (ncols =? 14) eqn:E14.
    + apply Z.eqb_eq in E14. subst ncols. cbn [orb].
      repeat constructor.
    + cbn [orb app]. constructor.
Qed.

Lemma numeric_positions_label (ncols : Z) (k : nat) :
  (k < List.length (infer_column_names ncols))%nat ->
  existsb (Nat.eqb k) (numeric_positions ncols)
  = numeric_label (nth k (infer_column_names ncols) EmptyString).
Proof.
  unfold numeric_positions, infer_column_names.
  destruct (ncols =? 15).
  - intros H. do 15 (destruct k as [| k]; [reflexivity |]). cbn in H. lia.
  - destruct (ncols =? 14).
    + intros H. do 14 (destruct k as [| k]; [reflexivity |]). cbn in H. lia.
    + intros H. cbn [existsb]. symmetry.
      destruct k as [| [| k]]; [reflexivity | reflexivity |].
      cbn [app nth]. apply col_not_numeric.
      apply (col_names_start 2 (Z.to_nat ncols - 2)).
      apply nth_In. cbn [app List.length] in H. lia.
Qed.

Lemma numeric_positions_bound (ncols : Z) (j : nat) :
  In j (numeric_positions ncols) ->
  (j < List.length (infer_column_names ncols))%nat.
Proof.
  unfold numeric_positions, infer_column_names.
  destruct (ncols =? 15); [intros H; apply in_seq in H; cbn; lia |].
  destruct (ncols =? 14); [intros H; apply in_seq in H; cbn; lia |].
  contradiction.
Qed.

Lemma numeric_positions_NoDup (ncols : Z) : NoDup (numeric_positions ncols).
Proof.
  unfold numeric_positions.
  destruct (ncols =? 15); [apply seq_NoDup |].
  destruct (ncols =? 14); [apply seq_NoDup | constructor].
Qed.

Lemma kept_rows_incl (raw : RawGrid) (start : Z) : incl (kept_rows raw start) raw.
Proof.
  unfold kept_rows. intros r Hr. apply filter_In in Hr. destruct Hr as [Hr _].
  rewrite <- (firstn_skipn (Z.to_nat start) raw). apply in_or_app. now right.
Qed.

(** What [clean_wide_pnl] computes on a rectangular sheet of two
    columns or more in which an account row is found: the rows kept,
    with their numeric columns parsed, their flags, the scenario and
    the year; and the summary. *)
Lemma clean_wide_pnl_spec (raw : RawGrid) (year : Z) (scenario : string) (start : Z) :
  rectangular_grid raw -> 2 <= width raw ->
  find_first_data_row raw 0 80 = Ok (Some start) ->
  cells_in_float_range raw ->
  let names := infer_column_names (width raw) in
  let kept := kept_rows raw start in
  exists rs,
    cells_parsed (numeric_positions (width raw)) kept rs
    /\ clean_wide_pnl raw year scenario
       = Ok (Wide {| wide_columns := names;
                     wide_rows := map (wide_row scenario year)
                                      (combine rs (account_flags kept)) |},
             {| Info.first_data_row_index := Some start;
                Info.ncols := width raw;
                Info.nrows_raw := Z.of_nat (List.length raw);
                Info.rest :=
                  Info.Summary
                    {| Info.rows_after_start := Z.of_nat (List.length rs);
                       Info.account_rows := count_true (account_flags kept);
                       Info.non_account_rows :=
                         count_true (map negb (account_flags kept));
                       Info.detected_month_cols :=
                         if (width raw =? 14) || (width raw =? 15) then MONTHS else [];
                       Info.has_total := (width raw =? 15);
                       Info.sample_accounts :=
                         firstn 5 (map py_str
                                     (select (account_flags kept) (column_at 0 rs)));
                       Info.sample_lines :=
                         firstn 5 (map py_str
                                     (select (account_flags kept) (column_at 1 rs)))
                    |} |}).
Proof.
  intros Hgrid Hw Hfind Hrange names kept.
  assert (Hstart : 0 <= start).
  { pose proof (first_account_row_spec 0 0
                  (firstn (Z.to_nat (Z.min (Z.of_nat (List.length raw)) 80)) raw)) as H.
    unfold find_first_data_row in Hfind. rewrite Hfind in H.
    destruct H as (k & _ & -> & _); [| lia].
    apply Forall_forall. intros r Hr. apply In_firstn in Hr.
    unfold rectangular_grid, rows_of_width in Hgrid. rewrite Forall_forall in Hgrid.
    rewrite (Hgrid r Hr). lia. }
  pose proof (infer_column_names_count (width raw)) as Hcount.
  rewrite Z.max_l in Hcount by lia. fold names in Hcount.
  destruct (names_account (width raw)) as [Hacc Hline].
  fold names in Hacc, Hline.
  destruct (parse_at_spec (numeric_positions (width raw)) kept)
    as (rs & E & Hparsed).
  { intros r j Hr Hj. apply numeric_positions_bound in Hj. fold names in Hj.
    apply kept_rows_incl in Hr.
    unfold rectangular_grid, rows_of_width in Hgrid. rewrite Forall_forall in Hgrid.
    rewrite (Hgrid r Hr). lia. }
  { apply numeric_positions_NoDup. }
  { unfold cells_in_float_range in *. rewrite Forall_forall in *.
    intros r Hr. apply Hrange. now apply kept_rows_incl in Hr. }
  exists rs. split; [exact Hparsed |].
  unfold clean_wide_pnl. rewrite Hfind. cbn [bind]. fold names.
  replace (Z.of_nat (List.length names) =? width raw) with true
    by (symmetry; now apply Z.eqb_eq).
  cbn [negb]. rewrite slice_from_nonneg by exact Hstart.
  unfold series_of, getitem. cbn [dropna_all columns rows].
  rewrite Hacc. cbn [bind]. fold (kept_rows raw start). fold kept.
  rewrite (parse_columns_at _ _ (numeric_positions (width raw)))
    by apply num_cols_positions.
  rewrite E. cbn [bind]. rewrite Hline. cbn [bind].
  unfold names.
  rewrite (infer_column_names_months (width raw) ["IsAccountRow"])
    by (intros c [<- | []]; cbn; intuition discriminate).
  rewrite total_label by (cbn; intuition discriminate).
  do 4 f_equal. apply map_ext. intros [r b]. reflexivity.
Qed.

End CleanWide.

Section CleanedFrame.
Import PnlSheets.

Lemma Forall2_by_index {A B : Type} (P : A -> B -> Prop) (da : A) (db : B)
      (xs : list A) (ys : list B) :
  List.length ys = List.length xs ->
  (forall i, (i < List.length xs)%nat -> P (nth i xs da) (nth i ys db)) ->
  Forall2 P xs ys.
Proof.
  revert ys. induction xs as [| x xs IH]; intros [| y ys] Hlen H;
    try discriminate; constructor.
  - apply (H 0%nat). cbn. lia.
  - apply IH; [cbn in Hlen; lia |].
    intros i Hi. apply (H (S i)). cbn. lia.
Qed.

Lemma cells_parsed_rows (ncols : Z) (kept rs : list (list cell)) :
  cells_parsed (numeric_positions ncols) kept rs ->
  Forall2 (row_parsed (infer_column_names ncols)) kept rs.
Proof.
  intros [Hlen Hcells].
  apply (Forall2_by_index _ [] []); [exact Hlen |].
  intros i Hi. destruct (Hcells i Hi) as [Hl Hc].
  split; [exact Hl |]. intros k Hk.
  rewrite <- numeric_positions_label by exact Hk. rewrite Hc.
  destruct (existsb (Nat.eqb k) (numeric_positions ncols));
    [apply column_value_stores | reflexivity].
Qed.

Lemma map_cells_wide_rows (scenario : string) (year : Z)
      (rs : list (list cell)) (flags : list bool) :
  List.length rs = List.length flags ->
  map cells (map (wide_row scenario year) (combine rs flags)) = rs
  /\ map IsAccountRow (map (wide_row scenario year) (combine rs flags)) = flags.
Proof.
  revert flags. induction rs as [| r rs IH]; intros [| b flags] H; try discriminate.
  - split; reflexivity.
  - cbn in H. destruct (IH flags) as [H1 H2]; [lia |].
    cbn [combine map]. rewrite H1, H2. split; reflexivity.
Qed.

Lemma account_flags_length (kept : list (list cell)) :
  List.length (account_flags kept) = List.length kept.
Proof. unfold account_flags, column_at. now rewrite !length_map. Qed.

Lemma account_code_not_missing (x : cell) :
  looks_like_account_code x = true -> isna x = false.
Proof.
  unfold looks_like_account_code, isna.
  destruct (is_none_or_nan x); [discriminate | reflexivity].
Qed.

(** the account row found is the first of the rows kept *)
Lemma kept_rows_head (raw : RawGrid) (start : Z) :
  rectangular_grid raw -> 1 <= width raw ->
  find_first_data_row raw 0 80 = Ok (Some start) ->
  0 <= start < Z.of_nat (List.length raw)
  /\ looks_like_account_code (cell_at raw start 0) = true
  /\ kept_rows raw start
     = nth (Z.to_nat start) raw []
         :: filter has_value (skipn (S (Z.to_nat start)) raw).
Proof.
  intros Hgrid Hw Hfind.
  assert (Hrows : Forall (fun r => (0 < List.length r)%nat) raw).
  { apply Forall_forall. intros r Hr.
    unfold rectangular_grid, rows_of_width in Hgrid. rewrite Forall_forall in Hgrid.
    rewrite (Hgrid r Hr). lia. }
  pose proof (first_account_row_spec 0 0
                (firstn (Z.to_nat (Z.min (Z.of_nat (List.length raw)) 80)) raw)) as H.
  unfold find_first_data_row in Hfind. rewrite Hfind in H.
  destruct H as (k & Hk & -> & Hlook & _).
  { apply Forall_forall. intros r Hr. rewrite Forall_forall in Hrows.
    apply Hrows. eapply In_firstn, Hr. }
  rewrite length_firstn in Hk.
  rewrite nth_firstn_below in Hlook by lia.
  unfold cell_at, kept_rows.
  replace (Z.to_nat (0 + Z.of_nat k)) with k by lia.
  repeat split; [lia | lia | exact Hlook |].
  assert (Hskip : skipn k raw = nth k raw [] :: skipn (S k) raw).
  { clear - Hk. revert k Hk. induction raw as [| r raw IH]; intros k Hk.
    - cbn in Hk. lia.
    - destruct k as [| k]; [reflexivity |].
      cbn [skipn nth]. apply IH. cbn in Hk. lia. }
  rewrite Hskip. cbn [filter].
  replace (has_value (nth k raw [])) with true; [reflexivity |].
  symmetry. apply has_value_iff. exists (nth 0 (nth k raw []) CNone).
  split; [| now apply account_code_not_missing].
  apply nth_In. rewrite Forall_forall in Hrows. apply Hrows, nth_In. lia.
Qed.

Lemma count_true_length (bs : list bool) :
  count_true bs = Z.of_nat (List.length (filter (fun b => b) bs)).
Proof. reflexivity. Qed.

Lemma filter_flagged (scenario : string) (year : Z)
      (rs : list (list cell)) (flags : list bool) :
  List.length rs = List.length flags ->
  filter IsAccountRow (map (wide_row scenario year) (combine rs flags))
  = map (fun r => wide_row scenario year (r, true)) (select flags rs).
Proof.
  revert flags. induction rs as [| r rs IH]; intros [| b flags] H; try discriminate.
  - reflexivity.
  - cbn in H. cbn [combine map filter select wide_row IsAccountRow snd].
    destruct b; cbn [map]; rewrite IH by lia; reflexivity.
Qed.

Lemma select_count {A : Type} (flags : list bool) (xs : list A) :
  List.length xs = List.length flags ->
  Z.of_nat (List.length (select flags xs)) = count_true flags.
Proof.
  intros H. rewrite count_true_length. f_equal. now apply select_length.
Qed.

End CleanedFrame.

(** X15. The outcomes of [clean_wide_pnl].  When no cell of the first
    column looks like an account code within the first 80 rows, it
    returns the frame without rows and columns and a summary with an
    error message.  When an account row is found in a sheet of one
    column, it raises [ValueError], two labels being given to one
    column.  When one is found in a rectangular sheet of two columns or
    more, no integer of which is beyond the range of a double, it
    returns a frame that has rows, under the labels of
    [infer_column_names], none of them repeated. *)
Theorem clean_wide_pnl_outcome (raw : RawGrid) (year : Z) (scenario : string) :
  (PnlSheets.find_first_data_row raw 0 80 = Ok None ->
   exists info message,
     PnlSheets.clean_wide_pnl raw year scenario = Ok (PnlSheets.EmptyFrame, info)
     /\ PnlSheets.Info.first_data_row_index info = None
     /\ PnlSheets.Info.rest info = PnlSheets.Info.Error message)
  /\ (forall start,
        PnlSheets.find_first_data_row raw 0 80 = Ok (Some start) ->
        width raw < 2 ->
        PnlSheets.clean_wide_pnl raw year scenario = Raise ValueError)
  /\ (forall start,
        rectangular_grid raw -> 2 <= width raw ->
        PnlSheets.find_first_data_row raw 0 80 = Ok (Some start) ->
        cells_in_float_range raw ->
        exists w info,
          PnlSheets.clean_wide_pnl raw year scenario = Ok (PnlSheets.Wide w, info)
          /\ PnlSheets.wide_columns w = PnlSheets.infer_column_names (width raw)
          /\ well_formed (PnlSheets.Wide w)
          /\ PnlSheets.empty (PnlSheets.Wide w) = false
          /\ PnlSheets.Info.first_data_row_index info = Some start).
Proof.
  conjuncts.
  - intros H. unfold PnlSheets.clean_wide_pnl. rewrite H. cbn [bind].
    eexists. eexists. repeat split.
  - intros start H Hw. unfold PnlSheets.clean_wide_pnl. rewrite H. cbn [bind].
    pose proof (infer_column_names_count (width raw)) as Hc.
    replace (Z.of_nat (List.length (PnlSheets.infer_column_names (width raw)))
             =? width raw) with false; [reflexivity |].
    symmetry. apply Z.eqb_neq. lia.
  - intros start Hgrid Hw Hfind Hrange.
    destruct (clean_wide_pnl_spec raw year scenario start Hgrid Hw Hfind Hrange)
      as (rs & [Hlen _] & E).
    destruct (kept_rows_head raw start Hgrid) as (_ & _ & Hkept); [lia | exact Hfind |].
    eexists. eexists. split; [exact E |].
    cbn [PnlSheets.wide_columns PnlSheets.Info.first_data_row_index].
    repeat split; try apply infer_column_names_well_formed.
    unfold PnlSheets.empty. cbn [PnlSheets.wide_rows].
    destruct (map (wide_row scenario year)
                  (combine rs (account_flags (kept_rows raw start))))
      as [| x xs] eqn:Em; [| reflexivity].
    apply (f_equal (@List.length _)) in Em.
    rewrite length_map, length_combine, account_flags_length, Hlen, Hkept in Em.
    cbn in Em. lia.
Qed.

Lemma clean_wide_pnl_outcome_witness :
  (exists info message,
     PnlSheets.clean_wide_pnl [[CStr "Notes"]] 2024 "Actual"
       = Ok (PnlSheets.EmptyFrame, info)
     /\ PnlSheets.Info.first_data_row_index info = None
     /\ PnlSheets.Info.rest info = PnlSheets.Info.Error message)
  /\ PnlSheets.clean_wide_pnl [[CStr "4001"]] 2024 "Actual" = Raise ValueError
  /\ exists w info,
       PnlSheets.clean_wide_pnl sample_sheet 2024 "Actual" = Ok (PnlSheets.Wide w, info)
       /\ PnlSheets.wide_columns w = PnlSheets.infer_column_names (width sample_sheet)
       /\ well_formed (PnlSheets.Wide w)
       /\ PnlSheets.empty (PnlSheets.Wide w) = false
       /\ PnlSheets.Info.first_data_row_index info = Some 1.
Proof.
  split; [| split].
  - apply (proj1 (clean_wide_pnl_outcome [[CStr "Notes"]] 2024 "Actual")).
    reflexivity.
  - apply (proj1 (proj2 (clean_wide_pnl_outcome [[CStr "4001"]] 2024 "Actual")) 0);
      [reflexivity | reflexivity].
  - apply (proj2 (proj2 (clean_wide_pnl_outcome sample_sheet 2024 "Actual")) 1).
    + repeat constructor.
    + vm_compute. discriminate.
    + vm_compute. reflexivity.
    + repeat constructor.
Defined.

(** X16. The rows of the frame that [clean_wide_pnl] returns: one for
    each row of the sheet, from the first account row on, that holds a
    value, in that order; each flagged as an account row exactly when
    its first cell looks like an account code, and carrying the
    scenario and the year given.  The first of them is the account row
    found.  In the summary, the account rows and the other rows add up
    to the rows kept, and there is at least one account row. *)
Theorem clean_wide_pnl_rows
        (raw : RawGrid) (year : Z) (scenario : string) (start : Z) :
  rectangular_grid raw -> 2 <= width raw ->
  PnlSheets.find_first_data_row raw 0 80 = Ok (Some start) ->
  cells_in_float_range raw ->
  exists w info s,
    PnlSheets.clean_wide_pnl raw year scenario = Ok (PnlSheets.Wide w, info)
    /\ map PnlSheets.IsAccountRow (PnlSheets.wide_rows w)
       = account_flags (kept_rows raw start)
    /\ Forall (fun r => PnlSheets.Scenario r = scenario /\ PnlSheets.Year r = year)
              (PnlSheets.wide_rows w)
    /\ nth_error (kept_rows raw start) 0 = nth_error raw (Z.to_nat start)
    /\ PnlSheets.Info.rest info = PnlSheets.Info.Summary s
    /\ PnlSheets.Info.rows_after_start s
       = Z.of_nat (List.length (kept_rows raw start))
    /\ PnlSheets.Info.account_rows s
       = Z.of_nat (List.length (account_rows (PnlSheets.Wide w)))
    /\ PnlSheets.Info.account_rows s + PnlSheets.Info.non_account_rows s
       = PnlSheets.Info.rows_after_start s
    /\ 1 <= PnlSheets.Info.account_rows s.
Proof.
  intros Hgrid Hw Hfind Hrange.
  destruct (clean_wide_pnl_spec raw year scenario start Hgrid Hw Hfind Hrange)
    as (rs & [Hlen _] & E).
  destruct (kept_rows_head raw start Hgrid) as (Hstart & Hlook & Hkept);
    [lia | exact Hfind |].
  pose proof (account_flags_length (kept_rows raw start)) as Hflags.
  destruct (map_cells_wide_rows scenario year rs (account_flags (kept_rows raw start)))
    as [_ Hmapflags]; [lia |].
  eexists. eexists. eexists. split; [exact E |].
  cbn [PnlSheets.wide_rows PnlSheets.Info.rest PnlSheets.Info.rows_after_start
       PnlSheets.Info.account_rows PnlSheets.Info.non_account_rows].
  conjuncts.
  - exact Hmapflags.
  - apply Forall_forall. intros r Hr. apply in_map_iff in Hr.
    destruct Hr as (rb & <- & _). split; reflexivity.
  - rewrite Hkept. cbn [nth_error]. symmetry. apply nth_error_nth'. lia.
  - reflexivity.
  - cbn [PnlSheets.Info.rows_after_start]. now rewrite Hlen.
  - cbn [PnlSheets.Info.account_rows].
    unfold account_rows. cbn [frame_rows PnlSheets.wide_rows].
    rewrite filter_flagged by lia. rewrite length_map.
    symmetry. apply select_count. lia.
  - cbn [PnlSheets.Info.rows_after_start PnlSheets.Info.account_rows
         PnlSheets.Info.non_account_rows].
    rewrite count_true_negb. rewrite Hflags, Hlen. lia.
  - cbn [PnlSheets.Info.account_rows].
    rewrite Hkept. unfold account_flags. cbn [column_at map].
    unfold cell_at in Hlook. rewrite Hlook.
    rewrite count_true_cons. pose proof (count_true_nonneg
      (map PnlSheets.looks_like_account_code
           (map (fun r => nth 0 r CNone)
                (filter has_value (skipn (S (Z.to_nat start)) raw))))).
    lia.
Qed.

Lemma clean_wide_pnl_rows_witness :
  exists w info s,
    PnlSheets.clean_wide_pnl sample_sheet 2024 "Actual" = Ok (PnlSheets.Wide w, info)
    /\ map PnlSheets.IsAccountRow (PnlSheets.wide_rows w)
       = account_flags (kept_rows sample_sheet 1)
    /\ Forall (fun r => PnlSheets.Scenario r = "Actual" /\ PnlSheets.Year r = 2024)
              (PnlSheets.wide_rows w)
    /\ nth_error (kept_rows sample_sheet 1) 0 = nth_error sample_sheet (Z.to_nat 1)
    /\ PnlSheets.Info.rest info = PnlSheets.Info.Summary s
    /\ PnlSheets.Info.rows_after_start s
       = Z.of_nat (List.length (kept_rows sample_sheet 1))
    /\ PnlSheets.Info.account_rows s
       = Z.of_nat (List.length (account_rows (PnlSheets.Wide w)))
    /\ PnlSheets.Info.account_rows s + PnlSheets.Info.non_account_rows s
       = PnlSheets.Info.rows_after_start s
    /\ 1 <= PnlSheets.Info.account_rows s.
Proof.
  apply (clean_wide_pnl_rows sample_sheet 2024 "Actual" 1).
  - repeat constructor.
  - vm_compute. discriminate.
  - vm_compute. reflexivity.
  - repeat constructor.
Defined.

(** X17. The cells of the frame that [clean_wide_pnl] returns, row by
    row against the rows kept of the sheet: under a month label or
    [Total] the cell stores what [parse_messy_number] gives for the
    cell of the sheet, a float or a missing value; under any other
    label the cell of the sheet is left as it is. *)
Theorem clean_wide_pnl_cells
        (raw : RawGrid) (year : Z) (scenario : string) (start : Z) :
  rectangular_grid raw -> 2 <= width raw ->
  PnlSheets.find_first_data_row raw 0 80 = Ok (Some start) ->
  cells_in_float_range raw ->
  exists w info,
    PnlSheets.clean_wide_pnl raw year scenario = Ok (PnlSheets.Wide w, info)
    /\ Forall2 (row_parsed (PnlSheets.wide_columns w))
               (kept_rows raw start)
               (map PnlSheets.cells (PnlSheets.wide_rows w)).
Proof.
  intros Hgrid Hw Hfind Hrange.
  destruct (clean_wide_pnl_spec raw year scenario start Hgrid Hw Hfind Hrange)
    as (rs & Hparsed & E).
  eexists. eexists. split; [exact E |].
  cbn [PnlSheets.wide_columns PnlSheets.wide_rows].
  destruct (map_cells_wide_rows scenario year rs (account_flags (kept_rows raw start)))
    as [-> _].
  - destruct Hparsed as [Hlen _]. rewrite account_flags_length. exact Hlen.
  - now apply cells_parsed_rows.
Qed.

Lemma clean_wide_pnl_cells_witness :
  exists w info,
    PnlSheets.clean_wide_pnl sample_sheet 2024 "Actual" = Ok (PnlSheets.Wide w, info)
    /\ Forall2 (row_parsed (PnlSheets.wide_columns w))
               (kept_rows sample_sheet 1)
               (map PnlSheets.cells (PnlSheets.wide_rows w)).
Proof.
  apply (clean_wide_pnl_cells sample_sheet 2024 "Actual" 1).
  - repeat constructor.
  - vm_compute. discriminate.
  - vm_compute. reflexivity.
  - repeat constructor.
Defined.

(** * From a sheet to the long fact table *)

Section SheetToFacts.
Import PnlSheets.

Lemma positions_from_app (j0 : nat) (c : string) (a b : list string) :
  positions_from j0 c (a ++ b)
  = (positions_from j0 c a ++ positions_from (j0 + List.length a) c b)%list.
Proof.
  revert j0. induction a as [| x a IH]; intros j0.
  - cbn [app positions_from List.length]. now rewrite Nat.add_0_r.
  - cbn [app positions_from List.length]. rewrite IH, app_assoc.
    do 2 f_equal. lia.
Qed.

(** where a month of a sheet stands, and its number *)
Lemma month_positions (ncols : Z) (k : nat) (m : string) :
  nth_error (months_of_width ncols) k = Some m ->
  positions_from 0 m (infer_column_names ncols ++ ["IsAccountRow"; "Scenario"; "Year"])
  = [(2 + k)%nat]
  /\ MONTH_TO_NUM m = Some (Z.of_nat k + 1)
  /\ numeric_label (nth (2 + k) (infer_column_names ncols) EmptyString) = true
  /\ (2 + k < List.length (infer_column_names ncols))%nat.
Proof.
  unfold months_of_width, infer_column_names.
  destruct (ncols =? 15), (ncols =? 14); cbn [orb]; intros H;
    try (destruct k; discriminate);
    do 12 (destruct k as [| k];
           [injection H as <-; repeat split; try reflexivity; cbn; lia |]);
    destruct k; discriminate.
Qed.

Lemma names_without_added (ncols : Z) (c : string) :
  In c ["IsAccountRow"; "Scenario"; "Year"] -> ~ In c (infer_column_names ncols).
Proof.
  intros Hc. unfold infer_column_names.
  destruct (ncols =? 15); [| destruct (ncols =? 14)].
  - destruct Hc as [<- | [<- | [<- | []]]]; cbn; intuition discriminate.
  - destruct Hc as [<- | [<- | [<- | []]]]; cbn; intuition discriminate.
  - intros [H | [H | H]];
      [destruct Hc as [<- | [<- | [<- | []]]]; discriminate
      | destruct Hc as [<- | [<- | [<- | []]]]; discriminate |].
    apply col_names_start in H.
    destruct Hc as [<- | [<- | [<- | []]]]; discriminate.
Qed.

Lemma account_rows_selected (kept : list (list cell)) :
  filter (fun r => looks_like_account_code (nth 0 r CNone)) kept
  = select (account_flags kept) kept.
Proof.
  unfold account_flags, column_at.
  induction kept as [| r kept IH]; [reflexivity |].
  cbn [filter map select]. rewrite IH. reflexivity.
Qed.

Lemma Forall2_select {A B : Type} (P : A -> B -> Prop) (flags : list bool)
      (xs : list A) (ys : list B) :
  Forall2 P xs ys -> Forall2 P (select flags xs) (select flags ys).
Proof.
  intros H. revert flags. induction H as [| x y xs ys Hxy _ IH]; intros [| b flags];
    cbn [select]; try constructor.
  destruct b; [constructor; [exact Hxy | apply IH] | apply IH].
Qed.

Lemma Forall2_nth_error {A B : Type} (P : A -> B -> Prop) (xs : list A) (ys : list B)
      (i : nat) (x : A) :
  Forall2 P xs ys -> nth_error xs i = Some x ->
  exists y, nth_error ys i = Some y /\ P x y.
Proof.
  intros H. revert i. induction H as [| x0 y0 xs ys Hxy _ IH]; intros [| i] E;
    try discriminate.
  - injection E as <-. now exists y0.
  - now apply IH.
Qed.

Lemma rows_wide (rs : list (list cell)) (n : nat) :
  Forall (fun r => List.length r = n) rs ->
  forall flags, Forall (fun r => List.length r = n) (select flags rs).
Proof.
  intros H flags. apply Forall_forall. intros r Hr.
  rewrite Forall_forall in H. apply H. eapply select_In, Hr.
Qed.

End SheetToFacts.

(** X18. From a sheet to its facts.  On a rectangular sheet of two
    columns or more in which an account row is found, no integer of
    which is beyond the range of a double, [clean_wide_pnl] followed by
    [wide_to_long_fact] gives one fact for each month of the sheet and
    each kept row whose first cell looks like an account code.  The
    fact at place [k * A + i] carries month [k] and its number, the
    account and line item cells of account row [i] as they stand in the
    sheet, the scenario and the year, and as amount what
    [parse_messy_number] gives for the cell of that row under that
    month.  A sheet of neither 14 nor 15 columns has no month and gives
    no fact. *)
Theorem sheet_to_long_facts
        (raw : RawGrid) (year : Z) (scenario : string) (start : Z) :
  rectangular_grid raw -> 2 <= width raw ->
  PnlSheets.find_first_data_row raw 0 80 = Ok (Some start) ->
  cells_in_float_range raw ->
  let accounts :=
    filter (fun r => PnlSheets.looks_like_account_code (nth 0 r CNone))
           (kept_rows raw start) in
  let months := months_of_width (width raw) in
  exists wide info t,
    PnlSheets.clean_wide_pnl raw year scenario = Ok (wide, info)
    /\ PnlSheets.wide_to_long_fact wide = Ok t
    /\ List.length (PnlSheets.long_rows t)
       = (List.length months * List.length accounts)%nat
    /\ forall k i m r,
         nth_error months k = Some m -> nth_error accounts i = Some r ->
         exists f,
           nth_error (PnlSheets.long_rows t) (k * List.length accounts + i) = Some f
           /\ PnlSheets.Month f = m
           /\ PnlSheets.MonthNumber f = Some (Z.of_nat k + 1)
           /\ PnlSheets.Account f = nth 0 r CNone
           /\ PnlSheets.Line_Item f = nth 1 r CNone
           /\ PnlSheets.Scenario_ f = CStr scenario
           /\ PnlSheets.Year_ f = CInt year
           /\ stores (PnlSheets.Amount f) (parsed (nth (2 + k) r CNone)).
Proof.
  intros Hgrid Hw Hfind Hrange accounts months.
  destruct (clean_wide_pnl_spec raw year scenario start Hgrid Hw Hfind Hrange)
    as (rs & Hparsed & E).
  set (names := PnlSheets.infer_column_names (width raw)) in *.
  set (kept := kept_rows raw start) in *.
  set (flags := account_flags kept) in *.
  set (w := {| PnlSheets.wide_columns := names;
               PnlSheets.wide_rows := map (wide_row scenario year) (combine rs flags) |})
    in *.
  pose proof (infer_column_names_well_formed (width raw) (PnlSheets.wide_rows w))
    as Hwf.
  change (well_formed (PnlSheets.Wide w)) in Hwf.
  destruct (wide_to_long_fact_blocks (PnlSheets.Wide w) Hwf) as (t & Et & Hrows).
  assert (Hcount : Z.of_nat (List.length names) = width raw).
  { unfold names. rewrite infer_column_names_count. lia. }
  assert (Hlenrs : List.length rs = List.length flags).
  { destruct Hparsed as [Hl _]. unfold flags. now rewrite account_flags_length. }
  assert (Hmonths : month_columns (PnlSheets.Wide w) = months).
  { unfold month_columns, months, months_of_width.
    cbn [frame_labels]. unfold PnlSheets.labels. cbn [PnlSheets.wide_columns].
    apply infer_column_names_months.
    intros c [<- | [<- | [<- | []]]]; cbn; intuition discriminate. }
  assert (Hacc : account_rows (PnlSheets.Wide w)
                 = map (fun r => wide_row scenario year (r, true)) (select flags rs)).
  { unfold account_rows. cbn [frame_rows PnlSheets.wide_rows].
    now apply filter_flagged. }
  assert (Haccounts : accounts = select flags kept)
    by apply account_rows_selected.
  pose proof (cells_parsed_rows (width raw) kept rs Hparsed) as Hall.
  fold names in Hall.
  pose proof (Forall2_select _ flags _ _ Hall) as Hsel.
  assert (Hlenacc : List.length (select flags rs) = List.length accounts).
  { rewrite Haccounts. symmetry. eapply Forall2_length, Hsel. }
  assert (Hwidth : forall r, In r accounts ->
                     List.length r = List.length names).
  { intros r Hr. unfold accounts in Hr. apply filter_In in Hr.
    destruct Hr as [Hr _]. apply kept_rows_incl in Hr.
    unfold rectangular_grid, rows_of_width in Hgrid. rewrite Forall_forall in Hgrid.
    rewrite (Hgrid r Hr). lia. }
  exists (PnlSheets.Wide w). eexists. exists t.
  split; [exact E |]. split; [exact Et |].
  rewrite Hrows, Hmonths, Hacc.
  split.
  - rewrite flat_map_blocks_length, length_map. now rewrite Hlenacc.
  - intros k i m r Hm Hr.
    assert (Hk : (k < List.length months)%nat)
      by (apply nth_error_Some; rewrite Hm; discriminate).
    assert (Hi : (i < List.length accounts)%nat)
      by (apply nth_error_Some; rewrite Hr; discriminate).
    rewrite Haccounts in Hr.
    destruct (Forall2_nth_error _ _ _ i r Hsel Hr) as (r' & Hr' & [Hlen' Hcells]).
    rewrite <- Haccounts in Hr.
    assert (Hrn : List.length r = List.length names)
      by (apply Hwidth; eapply nth_error_In, Hr).
    destruct (month_positions (width raw) k m Hm) as (Hpos & Hnum & Hlabel & Hbound).
    fold names in Hpos, Hlabel, Hbound.
    eexists. split.
    + rewrite <- Hlenacc.
      rewrite <- (length_map (fun r => wide_row scenario year (r, true))
                    (select flags rs)).
      apply (flat_map_blocks_nth _ _ _ k i EmptyString
               (wide_row scenario year ([], true)));
        [exact Hk | rewrite length_map; lia].
    + rewrite (nth_error_nth _ _ EmptyString Hm).
      rewrite (nth_indep _ _ (wide_row scenario year (r', true)))
        by (rewrite length_map; lia).
      rewrite (map_nth (fun r => wide_row scenario year (r, true))).
      rewrite (nth_error_nth _ _ r' Hr').
      assert (Hrc : PnlSheets.row_cells (wide_row scenario year (r', true))
                    = (r' ++ [CBool true; CStr scenario; CInt year])%list)
        by reflexivity.
      assert (Hlabels : PnlSheets.labels w
                        = (names ++ ["IsAccountRow"; "Scenario"; "Year"])%list)
        by reflexivity.
      destruct (names_account (width raw)) as [Pa Pl]. fold names in Pa, Pl.
      assert (Hin : forall c j,
                positions_from 0 c names = [j] ->
                ~ In c ["IsAccountRow"; "Scenario"; "Year"] ->
                (j < List.length names)%nat ->
                cell_under (PnlSheets.Wide w) (wide_row scenario year (r', true)) c
                = nth j r' CNone).
      { intros c j H1 H2 Hj. erewrite cell_under_position.
        - rewrite Hrc. apply app_nth1. lia.
        - rewrite Hlabels, positions_from_app, H1.
          rewrite positions_from_notin by exact H2. reflexivity. }
      unfold fact_of.
      cbn [PnlSheets.Month PnlSheets.MonthNumber PnlSheets.Account PnlSheets.Line_Item
           PnlSheets.Scenario_ PnlSheets.Year_ PnlSheets.Amount].
      conjuncts.
      * reflexivity.
      * exact Hnum.
      * rewrite (Hin "Account" 0%nat Pa) by (cbn; intuition discriminate || lia).
        specialize (Hcells 0%nat). 
        replace (numeric_label (nth 0 names EmptyString)) with false in Hcells.
        -- apply Hcells. lia.
        -- unfold names, PnlSheets.infer_column_names.
           destruct (width raw =? 15); [| destruct (width raw =? 14)]; reflexivity.
      * rewrite (Hin "Line Item" 1%nat Pl) by (cbn; intuition discriminate || lia).
        specialize (Hcells 1%nat).
        replace (numeric_label (nth 1 names EmptyString)) with false in Hcells.
        -- apply Hcells. lia.
        -- unfold names, PnlSheets.infer_column_names.
           destruct (width raw =? 15); [| destruct (width raw =? 14)]; reflexivity.
      * assert (Hs : positions_from 0 "Scenario" (PnlSheets.labels w)
                     = [(List.length names + 1)%nat]).
        { rewrite Hlabels, positions_from_app, positions_from_notin.
          - cbn. f_equal. lia.
          - apply names_without_added. cbn. tauto. }
        erewrite cell_under_position by exact Hs. rewrite Hrc.
        rewrite app_nth2 by lia.
        replace (List.length names + 1 - List.length r')%nat with 1%nat by lia.
        reflexivity.
      * assert (Hy : positions_from 0 "Year" (PnlSheets.labels w)
                     = [(List.length names + 2)%nat]).
        { rewrite Hlabels, positions_from_app, positions_from_notin.
          - cbn. f_equal. lia.
          - apply names_without_added. cbn. tauto. }
        erewrite cell_under_position by exact Hy. rewrite Hrc.
        rewrite app_nth2 by lia.
        replace (List.length names + 2 - List.length r')%nat with 2%nat by lia.
        reflexivity.
      * erewrite cell_under_position by (rewrite Hlabels; exact Hpos).
        rewrite Hrc, app_nth1 by lia.
        specialize (Hcells (2 + k)%nat Hbound). rewrite Hlabel in Hcells.
        exact Hcells.
Qed.

Lemma sheet_to_long_facts_witness :
  let accounts :=
    filter (fun r => PnlSheets.looks_like_account_code (nth 0 r CNone))
           (kept_rows sample_sheet 1) in
  let months := months_of_width (width sample_sheet) in
  exists wide info t,
    PnlSheets.clean_wide_pnl sample_sheet 2024 "Actual" = Ok (wide, info)
    /\ PnlSheets.wide_to_long_fact wide = Ok t
    /\ List.length (PnlSheets.long_rows t)
       = (List.length months * List.length accounts)%nat
    /\ forall k i m r,
         nth_error months k = Some m -> nth_error accounts i = Some r ->
         exists f,
           nth_error (PnlSheets.long_rows t) (k * List.length accounts + i) = Some f
           /\ PnlSheets.Month f = m
           /\ PnlSheets.MonthNumber f = Some (Z.of_nat k + 1)
           /\ PnlSheets.Account f = nth 0 r CNone
           /\ PnlSheets.Line_Item f = nth 1 r CNone
           /\ PnlSheets.Scenario_ f = CStr "Actual"
           /\ PnlSheets.Year_ f = CInt 2024
           /\ stores (PnlSheets.Amount f) (parsed (nth (2 + k) r CNone)).
Proof.
  apply (sheet_to_long_facts sample_sheet 2024 "Actual" 1).
  - repeat constructor.
  - vm_compute. discriminate.
  - vm_compute. reflexivity.
  - repeat constructor.
Defined.

Section FactMonths.
Import PnlSheets.

Lemma melt_months (ls : list string) (rs : list WideRow) (ms : list string)
      (long : list LongFactRow) (f : LongFactRow) :
  melt ls rs ms = Ok long -> In f long ->
  In (Month f) ms
  /\ MonthNumber f = MONTH_TO_NUM (Month f)
  /\ Quarter f = quarter_label (MONTH_TO_NUM (Month f)).
Proof.
  unfold melt. destruct (PyStr.mem "Amount" ls); [discriminate |].
  destruct (negb _); [discriminate |].
  destruct (id_position ls "Account") as [ja | e]; [| discriminate].
  destruct (id_position ls "Line Item") as [jl | e]; [| discriminate].
  destruct (id_position ls "Scenario") as [js | e]; [| discriminate].
  destruct (id_position ls "Year") as [jy | e]; [| discriminate].
  cbn [bind]. intros H Hf. injection H as <-.
  apply in_flat_map in Hf. destruct Hf as (m & Hm & Hf).
  apply in_flat_map in Hf. destruct Hf as (j & _ & Hf).
  apply in_map_iff in Hf. destruct Hf as (r & <- & _).
  cbn [fact_row Month MonthNumber Quarter]. repeat split. exact Hm.
Qed.

End FactMonths.

(** X19. Every fact that [wide_to_long_fact] returns carries a month of
    the calendar, the number of that month, from 1 to 12, and its
    quarter: Q1 for the first three months, Q2 for the next three, and
    so on; no fact is left without a month number. *)
Theorem long_facts_month_and_quarter
        (wide : PnlSheets.wide_table) (t : PnlSheets.long_table)
        (f : PnlSheets.LongFactRow) :
  PnlSheets.wide_to_long_fact wide = Ok t ->
  In f (PnlSheets.long_rows t) ->
  exists k,
    (k < 12)%nat
    /\ PnlSheets.Month f = nth k PnlSheets.MONTHS EmptyString
    /\ PnlSheets.MonthNumber f = Some (Z.of_nat k + 1)
    /\ PnlSheets.Quarter f = nth (k / 3) ["Q1"; "Q2"; "Q3"; "Q4"] EmptyString.
Proof.
  unfold PnlSheets.wide_to_long_fact.
  destruct (PnlSheets.empty wide); [intros H; injection H as <-; contradiction |].
  destruct wide as [| w]; [intros H; injection H as <-; contradiction |].
  destruct (positions_from 0 "IsAccountRow" (PnlSheets.labels w)) as [| j [| j' js]];
    try discriminate.
  destruct (PnlSheets.melt _ _ _) as [long | e] eqn:E; [| discriminate].
  cbn [bind]. intros H Hf. injection H as <-. cbn [PnlSheets.long_rows] in Hf.
  destruct (melt_months _ _ _ _ f E Hf) as (Hm & -> & ->).
  apply filter_In in Hm. destruct Hm as [Hm _].
  destruct (In_nth _ _ EmptyString Hm) as (k & Hk & Ek).
  exists k. rewrite <- Ek. split; [exact Hk |]. split; [reflexivity |].
  do 12 (destruct k as [| k]; [split; reflexivity |]).
  cbn in Hk. lia.
Qed.

Lemma long_facts_month_and_quarter_witness :
  exists t f,
    PnlSheets.wide_to_long_fact sample_wide = Ok t
    /\ nth_error (PnlSheets.long_rows t) 3 = Some f
    /\ exists k,
         (k < 12)%nat
         /\ PnlSheets.Month f = nth k PnlSheets.MONTHS EmptyString
         /\ PnlSheets.MonthNumber f = Some (Z.of_nat k + 1)
         /\ PnlSheets.Quarter f = nth (k / 3) ["Q1"; "Q2"; "Q3"; "Q4"] EmptyString.
Proof.
  destruct (PnlSheets.wide_to_long_fact sample_wide) as [t | e] eqn:E;
    [| vm_compute in E; discriminate].
  destruct (nth_error (PnlSheets.long_rows t) 3) as [f |] eqn:Ef.
  - exists t, f. split; [reflexivity |]. split; [exact Ef |].
    apply (long_facts_month_and_quarter sample_wide t f E).
    eapply nth_error_In, Ef.
  - exfalso. vm_compute in E. injection E as <-. vm_compute in Ef. discriminate.
Defined.

(** * Numbers written as text *)

Section NumberTexts.

Lemma absent_from_class (p q : ascii -> bool) (s : string) :
  PyStr.all_chars p s = true -> (forall c, p c = true -> q c = false) ->
  PyStr.any_char q s = false.
Proof.
  intros H Hpq. induction s as [| c s IH]; [reflexivity |].
  cbn [PyStr.all_chars] in H. apply andb_prop in H. destruct H as [Hc Hs].
  cbn [PyStr.any_char]. now rewrite (Hpq c Hc), IH.
Qed.

Lemma remove_absent (c : ascii) (s : string) :
  PyStr.any_char (fun a => Ascii.eqb a c) s = false -> PyStr.remove_char c s = s.
Proof.
  induction s as [| a s IH]; [reflexivity |].
  cbn [PyStr.any_char PyStr.remove_char]. intros H.
  apply orb_false_iff in H. destruct H as [Ha Hs]. now rewrite Ha, IH.
Qed.

Lemma strip_by_absent (p : ascii -> bool) (s : string) :
  PyStr.any_char p s = false -> PyStr.rstrip_by p (PyStr.lstrip_by p s) = s.
Proof.
  intros H.
  assert (Hl : PyStr.lstrip_by p s = s).
  { destruct s as [| c s]; [reflexivity |]. cbn [PyStr.any_char] in H.
    apply orb_false_iff in H. cbn [PyStr.lstrip_by]. now rewrite (proj1 H). }
  rewrite Hl. clear Hl.
  induction s as [| c s IH]; [reflexivity |].
  cbn [PyStr.any_char] in H. apply orb_false_iff in H. destruct H as [Hc Hs].
  cbn [PyStr.rstrip_by]. rewrite (IH Hs).
  destruct s; [now rewrite Hc | reflexivity].
Qed.

Lemma drop_underscores_absent (prev : option ascii) (s : string) :
  match prev with Some p => Ascii.eqb p "_" = false | None => True end ->
  PyStr.any_char (fun a => Ascii.eqb a "_") s = false ->
  PyFloat.drop_underscores prev s = Some s.
Proof.
  revert prev. induction s as [| c s IH]; intros prev Hprev H.
  - cbn [PyFloat.drop_underscores]. destruct prev as [p |]; [now rewrite Hprev | reflexivity].
  - cbn [PyStr.any_char] in H. apply orb_false_iff in H. destruct H as [Hc Hs].
    cbn [PyFloat.drop_underscores]. rewrite Hc.
    replace (match prev with Some p => Ascii.eqb p "_" | None => false end) with false
      by (destruct prev; [now rewrite Hprev | reflexivity]).
    cbn [andb]. now rewrite (IH (Some c) Hc Hs).
Qed.

Lemma uint_chars (d : Decimal.uint) :
  PyStr.all_chars is_int_char (NilEmpty.string_of_uint d) = true.
Proof. induction d; cbn [NilEmpty.string_of_uint PyStr.all_chars]; auto. Qed.

Lemma str_of_int_cases (n : Z) :
  (n = 0 /\ str_of_int n = "0")
  \/ (exists p, n = Zpos p
                /\ str_of_int n = NilEmpty.string_of_uint (Pos.to_uint p))
  \/ (exists p, n = Zneg p
                /\ str_of_int n = String "-" (NilEmpty.string_of_uint (Pos.to_uint p))).
Proof.
  destruct n as [| p | p].
  - left. split; reflexivity.
  - right. left. exists p. split; [reflexivity | apply str_of_pos].
  - right. right. exists p. split; [reflexivity |].
    unfold str_of_int. cbn [Z.to_int NilZero.string_of_int].
    unfold NilZero.string_of_uint.
    pose proof (to_uint_head p). now destruct (Pos.to_uint p).
Qed.

Lemma str_of_int_chars (n : Z) :
  PyStr.all_chars is_int_char (str_of_int n) = true.
Proof.
  destruct (str_of_int_cases n) as [[_ ->] | [(p & _ & ->) | (p & _ & ->)]].
  - reflexivity.
  - apply uint_chars.
  - cbn [PyStr.all_chars]. rewrite uint_chars. reflexivity.
Qed.

Lemma int_char_outside (q : ascii -> bool) (s : string) :
  PyStr.all_chars is_int_char s = true ->
  (forall c, PyStr.is_digit c = true -> q c = false) -> q "-"%char = false ->
  PyStr.any_char q s = false.
Proof.
  intros Hs Hd Hm. apply (absent_from_class is_int_char); [exact Hs |].
  intros c Hc. unfold is_int_char in Hc. apply orb_true_iff in Hc.
  destruct Hc as [Hc | Hc]; [now apply Hd |].
  apply Ascii.eqb_eq in Hc. now subst c.
Qed.

Lemma digit_class (q : ascii -> bool) :
  (forall c, q c = true -> PyStr.is_digit c = false) ->
  forall c, PyStr.is_digit c = true -> q c = false.
Proof.
  intros H c Hc. destruct (q c) eqn:E; [| reflexivity].
  rewrite (H c E) in Hc. discriminate.
Qed.

(** the text of an integer is not empty, not a lone dash, and does not
    start with a parenthesis *)
Lemma str_of_int_plain (n : Z) :
  PyStr.mem (str_of_int n) [EmptyString; "-"] = false
  /\ PyStr.startswith "(" (str_of_int n) = false.
Proof.
  destruct (str_of_int_cases n) as [[_ ->] | [(p & _ & ->) | (p & _ & ->)]].
  - split; reflexivity.
  - pose proof (to_uint_head p). destruct (Pos.to_uint p); try contradiction;
      split; reflexivity.
  - pose proof (to_uint_head p). destruct (Pos.to_uint p); try contradiction;
      split; reflexivity.
Qed.

Lemma split_sign_digits (d : Decimal.uint) :
  PyFloat.split_sign (NilEmpty.string_of_uint d)
  = (false, NilEmpty.string_of_uint d).
Proof. destruct d; reflexivity. Qed.

(** [strtod] on a run of digits, after the sign *)
Lemma strtod_digits (sgn : bool) (d : Decimal.uint) :
  d <> Decimal.Nil ->
  PyFloat.strtod ((if sgn then "-" else EmptyString) ++ NilEmpty.string_of_uint d)
  = Some (PyFloat.float_of_decimal sgn (uint_val 0 d) 0, EmptyString).
Proof.
  intros Hd.
  assert (Hn : (Z.of_nat (Decimal.nb_digits d) + 0 =? 0) = false).
  { apply Z.eqb_neq. destruct d; try contradiction; cbn [Decimal.nb_digits]; lia. }
  unfold PyFloat.strtod.
  assert (Hs : PyFloat.split_sign
                 ((if sgn then "-" else EmptyString) ++ NilEmpty.string_of_uint d)
               = (sgn, NilEmpty.string_of_uint d)).
  { destruct sgn; [reflexivity | apply split_sign_digits]. }
  rewrite Hs. cbv beta iota zeta.
  rewrite read_digits_uint. cbv beta iota zeta.
  rewrite Hn. reflexivity.
Qed.

Lemma float_of_decimal_int (sgn : bool) (p : positive) :
  PyFloat.float_of_decimal sgn (Zpos p) 0
  = binary_round PyFloat.prec PyFloat.emax sgn p 0.
Proof.
  unfold PyFloat.float_of_decimal.
  change (0 <=? 0) with true. cbv iota.
  now rewrite Z.pow_0_r, Z.mul_1_r.
Qed.

(** [float()] reads the text of an integer as [float()] converts the
    integer *)
Lemma float_of_string_int (n : Z) :
  PyFloat.float_of_string (str_of_int n)
  = Some (binary_normalize PyFloat.prec PyFloat.emax n 0 false).
Proof.
  pose proof (str_of_int_chars n) as Hc.
  unfold PyFloat.float_of_string.
  rewrite drop_underscores_absent;
    [| exact I | apply (int_char_outside _ _ Hc); [| reflexivity];
                 apply digit_class; intros c E; apply Ascii.eqb_eq in E; now subst c].
  rewrite strip_by_absent
    by (apply (int_char_outside _ _ Hc); [| reflexivity];
        intros c E; destruct c as [[] [] [] [] [] [] [] []]; try discriminate; reflexivity).
  destruct (str_of_int_cases n) as [[-> ->] | [(p & -> & ->) | (p & -> & ->)]].
  - reflexivity.
  - pose proof (to_uint_head p) as Hh.
    pose proof (strtod_digits false (Pos.to_uint p)) as Hs.
    cbn [append] in Hs. rewrite Hs by (now destruct (Pos.to_uint p)).
    rewrite to_uint_val, float_of_decimal_int.
    destruct (NilEmpty.string_of_uint (Pos.to_uint p)) eqn:E; [| reflexivity].
    destruct (Pos.to_uint p); try contradiction; discriminate.
  - pose proof (to_uint_head p) as Hh.
    pose proof (strtod_digits true (Pos.to_uint p)) as Hs.
    cbn [append] in Hs. rewrite Hs by (now destruct (Pos.to_uint p)).
    rewrite to_uint_val, float_of_decimal_int. reflexivity.
Qed.

(** trimming ignores white space around a text *)
Lemma lstrip_all_spaces (ws x : string) :
  PyStr.all_chars PyStr.is_space ws = true ->
  PyStr.lstrip_by PyStr.is_space (ws ++ x) = PyStr.lstrip_by PyStr.is_space x.
Proof.
  induction ws as [| c ws IH]; [reflexivity |].
  cbn [PyStr.all_chars append PyStr.lstrip_by]. intros H.
  apply andb_prop in H. destruct H as [Hc Hs]. now rewrite Hc, IH.
Qed.

Lemma rstrip_all_spaces (x ws : string) :
  PyStr.all_chars PyStr.is_space ws = true ->
  PyStr.rstrip_by PyStr.is_space (x ++ ws) = PyStr.rstrip_by PyStr.is_space x.
Proof.
  intros H. induction x as [| c x IH].
  - cbn [append]. now apply rstrip_all.
  - cbn [append PyStr.rstrip_by]. now rewrite IH.
Qed.

Lemma strip_padded (ws x ws' : string) :
  PyStr.all_chars PyStr.is_space ws = true ->
  PyStr.all_chars PyStr.is_space ws' = true ->
  PyStr.strip (ws ++ x ++ ws') = PyStr.strip x.
Proof.
  intros Hws Hws'. unfold PyStr.strip. rewrite lstrip_all_spaces by exact Hws.
  induction x as [| c x IH].
  - cbn [append PyStr.lstrip_by].
    destruct (lstrip_split PyStr.is_space ws') as (w & Hw & _).
    assert (E : PyStr.lstrip_by PyStr.is_space ws' = EmptyString).
    { clear - Hws'. induction ws' as [| a ws' IH]; [reflexivity |].
      cbn [PyStr.all_chars] in Hws'. apply andb_prop in Hws'.
      cbn [PyStr.lstrip_by]. rewrite (proj1 Hws'). now apply IH. }
    now rewrite E.
  - cbn [append PyStr.lstrip_by]. destruct (PyStr.is_space c); [exact IH |].
    change (String c (x ++ ws')) with (String c x ++ ws').
    now apply rstrip_all_spaces.
Qed.

Lemma rstrip_split (p : ascii -> bool) (s : string) :
  exists w, s = PyStr.rstrip_by p s ++ w /\ PyStr.all_chars p w = true.
Proof.
  induction s as [| a s (w & Hw & Hp)]; cbn [PyStr.rstrip_by].
  - exists EmptyString. split; reflexivity.
  - destruct (PyStr.rstrip_by p s) as [| b r] eqn:E.
    + destruct (p a) eqn:Pa.
      * exists (String a s). split; [reflexivity |].
        cbn [PyStr.all_chars]. rewrite Pa. cbn [append] in Hw. now rewrite Hw.
      * exists w. cbn [append] in *. split; [now f_equal | exact Hp].
    + exists w. split; [| exact Hp]. cbn [append]. f_equal. exact Hw.
Qed.

Lemma strip_split (s : string) :
  exists ws ws', s = ws ++ PyStr.strip s ++ ws'
                 /\ PyStr.all_chars PyStr.is_space ws = true
                 /\ PyStr.all_chars PyStr.is_space ws' = true.
Proof.
  destruct (lstrip_split PyStr.is_space s) as (ws & Hs & Hws).
  destruct (rstrip_split PyStr.is_space (PyStr.lstrip_by PyStr.is_space s))
    as (ws' & Hs' & Hws').
  exists ws, ws'. unfold PyStr.strip. rewrite <- Hs'. auto.
Qed.

Lemma remove_char_app (c : ascii) (a b : string) :
  PyStr.remove_char c (a ++ b) = PyStr.remove_char c a ++ PyStr.remove_char c b.
Proof.
  induction a as [| x a IH]; [reflexivity |].
  cbn [append PyStr.remove_char]. destruct (Ascii.eqb x c); [exact IH |].
  cbn [append]. now rewrite IH.
Qed.

Lemma remove_char_spaces (c : ascii) (ws : string) :
  PyStr.is_space c = false -> PyStr.all_chars PyStr.is_space ws = true ->
  PyStr.remove_char c ws = ws.
Proof.
  intros Hc H. apply remove_absent.
  apply (absent_from_class PyStr.is_space); [exact H |].
  intros a Ha. destruct (Ascii.eqb_spec a c) as [-> |]; [congruence | reflexivity].
Qed.

(** a character that is not white space can be removed before or after
    trimming *)
Lemma strip_remove_strip (c : ascii) (s : string) :
  PyStr.is_space c = false ->
  PyStr.strip (PyStr.remove_char c (PyStr.strip s))
  = PyStr.strip (PyStr.remove_char c s).
Proof.
  intros Hc. destruct (strip_split s) as (ws & ws' & Hs & Hws & Hws').
  rewrite Hs at 2. rewrite !remove_char_app.
  rewrite (remove_char_spaces c ws), (remove_char_spaces c ws') by assumption.
  now rewrite strip_padded.
Qed.

Lemma no_paren_start (s : string) :
  PyStr.any_char is_paren s = false -> PyStr.startswith "(" s = false.
Proof.
  destruct s as [| c s]; [reflexivity |]. cbn [PyStr.any_char].
  intros H. apply orb_false_iff in H. destruct H as [Hc _].
  unfold is_paren in Hc. apply orb_false_iff in Hc. destruct Hc as [Hc _].
  rewrite startswith_cons, Ascii.eqb_sym, Hc. reflexivity.
Qed.

Lemma no_paren_remove (s : string) :
  PyStr.any_char is_paren s = false ->
  PyStr.remove_char ")" (PyStr.remove_char "(" s) = s.
Proof.
  intros H. unfold is_paren in H. rewrite any_char_or in H.
  apply orb_false_iff in H. destruct H as [H1 H2].
  rewrite (remove_absent "(" s H1). now apply remove_absent.
Qed.

Lemma endswith_char_app (c : ascii) (s : string) :
  PyStr.endswith_char c (s ++ String c EmptyString) = true.
Proof.
  induction s as [| a s IH]; cbn [append PyStr.endswith_char].
  - apply Ascii.eqb_refl.
  - destruct (s ++ String c EmptyString) eqn:E; [now destruct s | exact IH].
Qed.

Lemma parenthesized_token (t : string) :
  PyStr.any_char is_paren t = false ->
  let s := "(" ++ t ++ ")" in
  PyStr.strip s = s
  /\ PyStr.mem s [EmptyString; "-"] = false
  /\ PyStr.startswith "(" s && PyStr.endswith_char ")" s = true
  /\ numeric_token s = PyStr.strip (PyStr.remove_char "," t).
Proof.
  intros H s. subst s.
  assert (Hstrip : PyStr.strip ("(" ++ t ++ ")") = "(" ++ t ++ ")").
  { unfold PyStr.strip. cbn [append PyStr.lstrip_by].
    change (PyStr.is_space "(") with false. cbv iota.
    change (String "(" (t ++ ")")) with (("(" ++ t) ++ ")").
    generalize ("(" ++ t). intros x.
    induction x as [| c x IH]; [reflexivity |].
    cbn [append PyStr.rstrip_by]. rewrite IH.
    destruct x; reflexivity. }
  conjuncts.
  - exact Hstrip.
  - cbn [append]. unfold PyStr.mem. cbn [existsb String.eqb].
    change (Ascii.eqb "(" "-") with false. reflexivity.
  - cbn [append PyStr.startswith]. cbn [andb Ascii.eqb Bool.eqb].
    change (String "(" (t ++ ")")) with (("(" ++ t) ++ ")").
    apply endswith_char_app.
  - unfold numeric_token. cbn [append PyStr.remove_char].
    change (Ascii.eqb "(" "(") with true. cbv iota.
    unfold is_paren in H. rewrite any_char_or in H.
    apply orb_false_iff in H. destruct H as [H1 H2].
    rewrite !remove_char_app, (remove_absent "(" t H1), (remove_absent ")" t H2).
    cbn [PyStr.remove_char]. change (Ascii.eqb ")" "(") with false.
    change (Ascii.eqb ")" ")") with true. cbv iota.
    rewrite append_nil_r. reflexivity.
Qed.

End NumberTexts.

(** X20. An integer and its decimal text parse to the same float:
    whenever [parse_messy_number] converts the integer [n] without
    overflow, it gives the text [str(n)] the same value. *)
Theorem parse_messy_number_integer_text (n : Z) :
  in_float_range (CInt n) = true ->
  parse_messy_number (CStr (str_of_int n)) = parse_messy_number (CInt n).
Proof.
  intros Hrange.
  pose proof (str_of_int_chars n) as Hc.
  destruct (str_of_int_plain n) as [Hmem Hstart].
  assert (Hstrip : PyStr.strip (str_of_int n) = str_of_int n).
  { apply strip_without_space. apply (int_char_outside _ _ Hc); [| reflexivity].
    intros c. apply digit_not_space. }
  assert (Htoken : numeric_token (str_of_int n) = str_of_int n).
  { assert (Hno : forall a, PyStr.is_digit a = false -> a <> "-"%char ->
                    PyStr.remove_char a (str_of_int n) = str_of_int n).
    { intros a Ha Hne. apply remove_absent.
      apply (int_char_outside _ _ Hc).
      - apply digit_class. intros c E. apply Ascii.eqb_eq in E. now subst c.
      - now apply Ascii.eqb_neq, not_eq_sym. }
    unfold numeric_token.
    rewrite (Hno "("%char), (Hno ")"%char), (Hno ","%char), Hstrip;
      (reflexivity || discriminate). }
  cbv beta iota delta [in_float_range] in Hrange.
  cbv beta iota zeta delta [parse_messy_number is_none_or_nan py_str bind].
  rewrite Hstrip, Hmem, Hstart, Htoken, float_of_string_int.
  cbn [andb].
  unfold PyFloat.float_of_int in *.
  destruct (binary_normalize PyFloat.prec PyFloat.emax n 0 false);
    try reflexivity; discriminate.
Qed.

Lemma parse_messy_number_integer_text_witness :
  parse_messy_number (CStr (str_of_int (-2119020)))
  = parse_messy_number (CInt (-2119020)).
Proof. apply (parse_messy_number_integer_text (-2119020)). reflexivity. Defined.

(** X21. Wrapping a text that holds no parenthesis in a pair of
    parentheses negates its value: [parse_messy_number] gives
    [(] t [)] the value it gives [t] with the sign turned, and no
    value when it gives [t] none. *)
Theorem parse_messy_number_parenthesized (t : string) :
  PyStr.any_char is_paren t = false ->
  parse_messy_number (CStr ("(" ++ t ++ ")"))
  = Ok (negated (parsed (CStr t))).
Proof.
  intros H.
  destruct (parenthesized_token t H) as (Hs & Hmem & Hwrap & Htoken).
  assert (Hp : PyStr.any_char is_paren (PyStr.strip t) = false)
    by now apply any_char_strip.
  assert (Htok : numeric_token (PyStr.strip t)
                 = PyStr.strip (PyStr.remove_char "," t)).
  { unfold numeric_token. rewrite (no_paren_remove _ Hp).
    now apply strip_remove_strip. }
  unfold parsed.
  cbv beta iota zeta delta [parse_messy_number is_none_or_nan py_str].
  rewrite Hs, Hmem, Hwrap, Htoken, (no_paren_start _ Hp), Htok.
  cbn [andb].
  destruct (PyStr.mem (PyStr.strip t) [EmptyString; "-"]) eqn:Em.
  - assert (E : PyStr.strip (PyStr.remove_char "," t) = PyStr.strip t).
    { rewrite <- (strip_remove_strip "," t) by reflexivity.
      unfold PyStr.mem in Em. cbn [existsb] in Em.
      rewrite orb_false_r in Em. apply orb_true_iff in Em.
      destruct Em as [Em | Em]; apply String.eqb_eq in Em; rewrite Em; reflexivity. }
    rewrite E.
    unfold PyStr.mem in Em. cbn [existsb] in Em.
    rewrite orb_false_r in Em. apply orb_true_iff in Em.
    destruct Em as [Em | Em]; apply String.eqb_eq in Em; rewrite Em; reflexivity.
  - now destruct (PyFloat.float_of_string (PyStr.strip (PyStr.remove_char "," t))).
Qed.

Lemma parse_messy_number_parenthesized_witness :
  parse_messy_number (CStr ("(" ++ "2,119,020" ++ ")"))
  = Ok (negated (parsed (CStr "2,119,020"))).
Proof. apply (parse_messy_number_parenthesized "2,119,020"). reflexivity. Defined.

(** * The sheets selected, in order *)

Section SheetOrder.
Import PnlSheets.

Lemma digit_val_range (c : ascii) :
  PyStr.is_digit c = true -> 0 <= PyFloat.digit_val c <= 9.
Proof.
  destruct c as [[] [] [] [] [] [] [] []]; vm_compute; intros H;
    try discriminate; split; discriminate.
Qed.

Lemma read_digits_run (g : string) (acc : Z) :
  PyStr.all_chars PyStr.is_digit g = true ->
  exists v,
    PyFloat.read_digits acc g
    = (acc * 10 ^ Z.of_nat (String.length g) + v,
       Z.of_nat (String.length g), EmptyString)
    /\ 0 <= v < 10 ^ Z.of_nat (String.length g).
Proof.
  revert acc. induction g as [| c g IH]; intros acc H.
  - exists 0. cbn. split; [f_equal; f_equal; lia | lia].
  - cbn [PyStr.all_chars] in H. apply andb_prop in H. destruct H as [Hc Hg].
    destruct (IH (10 * acc + PyFloat.digit_val c) Hg) as (v & E & Hv).
    pose proof (digit_val_range c Hc) as Hd.
    exists (PyFloat.digit_val c * 10 ^ Z.of_nat (String.length g) + v).
    cbn [PyFloat.read_digits String.length]. rewrite Hc, E.
    rewrite Nat2Z.inj_succ, Z.pow_succ_r by lia.
    split; [| nia].
    replace (Z.succ (Z.of_nat (String.length g))) with (Z.of_nat (String.length g) + 1)
      by lia.
    do 2 f_equal. ring.
Qed.

Lemma year_range (g : string) :
  String.length g = 4%nat -> PyStr.all_chars PyStr.is_digit g = true ->
  0 <= int_of_digits g <= 9999.
Proof.
  intros Hl Hd. unfold int_of_digits.
  destruct (read_digits_run g 0 Hd) as (v & -> & Hv).
  rewrite Hl in Hv. cbn [fst]. change (10 ^ Z.of_nat 4) with 10000 in Hv. lia.
Qed.

Lemma detect_pnl_sheets_app (a b : list string) :
  detect_pnl_sheets (a ++ b) = (detect_pnl_sheets a ++ detect_pnl_sheets b)%list.
Proof.
  induction a as [| s a IH]; [reflexivity |].
  cbn [app detect_pnl_sheets].
  destruct (pat_match (PyStr.strip s)) as [[g1 g2] |]; [| exact IH].
  cbn [app]. now rewrite IH.
Qed.

End SheetOrder.

(** X22. [detect_pnl_sheets] judges each sheet name on its own and
    keeps the order of the workbook: the result for a list of names is
    the results for its parts, one after the other.  A name gives no
    entry or one entry, which carries the name as it is written,
    untrimmed, and a year between 0 and 9999. *)
Theorem detect_pnl_sheets_in_order (names more : list string) :
  PnlSheets.detect_pnl_sheets (names ++ more)
  = (PnlSheets.detect_pnl_sheets names ++ PnlSheets.detect_pnl_sheets more)%list
  /\ forall s,
       PnlSheets.detect_pnl_sheets [s] = []
       \/ exists scenario year,
            PnlSheets.detect_pnl_sheets [s] = [(s, scenario, year)]
            /\ 0 <= year <= 9999.
Proof.
  split; [apply detect_pnl_sheets_app |].
  intros s. cbn [PnlSheets.detect_pnl_sheets].
  destruct (PnlSheets.pat_match (PyStr.strip s)) as [[g1 g2] |] eqn:E;
    [right | now left].
  eexists. eexists. split; [reflexivity |].
  apply pat_match_sound in E.
  destruct E as (ws1 & pl & ws2 & tl & _ & _ & _ & _ & _ & Hl & Hd & _).
  now apply year_range.
Qed.

(** * A header index counted from the end *)

(** X23. A negative header index counts rows from the end of the grid.
    For an index from [-len] to -2 the extraction is the one of the row
    so designated.  For the index -1 the last row gives the labels, and
    the slice that starts at [header_row + 1], which is 0, takes the
    whole grid as data, the header row itself among it. *)
Theorem extract_table_negative_header (raw_df : RawGrid) (h : Z) :
  - Z.of_nat (List.length raw_df) <= h < 0 ->
  (h < -1 ->
   Audit.extract_table_using_header raw_df h
   = Audit.extract_table_using_header raw_df (Z.of_nat (List.length raw_df) + h))
  /\ (h = -1 ->
      Audit.extract_table_using_header raw_df h
      = Audit.remove_blank
          {| columns := header_labels raw_df (Z.of_nat (List.length raw_df) - 1);
             rows := raw_df |}).
Proof.
  intros Hh. set (n := Z.of_nat (List.length raw_df)) in *.
  assert (Hrow : iloc_row raw_df h = Ok (nth (Z.to_nat (n + h)) raw_df [])).
  { unfold iloc_row. fold n.
    replace (h <? - n) with false by lia. replace (n <=? h) with false by lia.
    replace (h <? 0) with true by lia. cbn [orb]. do 2 f_equal. lia. }
  split.
  - intros Hlt. unfold Audit.extract_table_using_header.
    rewrite Hrow, iloc_row_valid by (fold n; lia). cbn [bind].
    do 2 f_equal. unfold slice_from. fold n.
    replace (h + 1 <? 0) with true by lia.
    replace (n + h + 1 <? 0) with false by lia.
    f_equal. lia.
  - intros ->. unfold Audit.extract_table_using_header.
    rewrite Hrow. cbn [bind]. unfold header_labels.
    replace (n + -1) with (n - 1) by lia. reflexivity.
Qed.

Lemma extract_table_negative_header_witness :
  Audit.extract_table_using_header [[CStr "x"; CStr "y"]; [CStr "A"; CStr "B"]] (-1)
  = Audit.remove_blank
      {| columns := header_labels [[CStr "x"; CStr "y"]; [CStr "A"; CStr "B"]] 1;
         rows := [[CStr "x"; CStr "y"]; [CStr "A"; CStr "B"]] |}.
Proof.
  refine (proj2 (extract_table_negative_header
                   [[CStr "x"; CStr "y"]; [CStr "A"; CStr "B"]] (-1) _) eq_refl).
  simpl. lia.
Defined.

(** * The pipeline on a sample sheet *)

Example header_row_scores_22 :
  Audit.row_score_for_header
    ["Account"; "Line Item"; "Jan"; "Feb"; "Mar"; "Apr"; "May"; "Jun";
     "Jul"; "Aug"; "Sep"; "Oct"; "Nov"; "Dec"; "Total"] = 22.
Proof. reflexivity. Qed.

Example sample_grid_header :
  fst (Audit.detect_header_row sample_grid 60) = Some 5.
Proof. vm_compute. reflexivity. Qed.

Example sample_grid_table :
  Audit.extract_table_using_header sample_grid 5
  = Ok {| columns := ["Account"; "Line Item"; "Jan"; "Feb"; "Mar"; "Total"];
          rows :=
            [[CStr "4001"; CStr "Revenue - Core"; CInt 100; CInt 200; CInt 300; CInt 600];
             [CStr "SECTIONTOTAL"; CStr "Total Revenue";
              CInt 100; CInt 200; CInt 300; CInt 600]] |}.
Proof. vm_compute. reflexivity. Qed.

Example sample_grid_row_types :
  (df <- Audit.extract_table_using_header sample_grid 5 ;;
   Audit.detect_pnl_row_types df "Account" "Line Item")
  = Ok {| Audit.rows_total := 2; Audit.rows_account := 1;
          Audit.rows_section_headers := 0; Audit.rows_subtotals := 1;
          Audit.rows_other_nonaccount := 1 |}.
Proof. vm_compute. reflexivity. Qed.

(** among rows of equal score the first one is the header *)
Example equal_scores_first_wins :
  fst (Audit.detect_header_row
         [[CStr "note"]; [CStr "Jan"; CStr "Feb"]; [CStr "Total"]; [CStr "Mar"; CStr "Apr"]]
         60) = Some 1.
Proof. vm_compute. reflexivity. Qed.
